(** * Appointment booking backend: slot generation, temporal policy,
      booking and cancellation.

    Shallow embedding of [src/utils/timeUtils.ts], [src/routes/booking.ts],
    [src/routes/slots.ts] and the [bookings] table of [migrations/init.sql],
    over models of the functions of date-fns and date-fns-tz that they call.

    - A JavaScript [Date] that holds a time value is an integer number of
      milliseconds since the epoch; every arithmetic step of the source is
      written out on [Z].  An Invalid Date is [None]: [timeStringToUTC] can
      make one from a rule, and [parseISO] from a request string that the
      schema lets through (module [InvalidDates]).
    - The zone of the Node process is a parameter (class [Server]): its
      offset may change, as on a server in New York; [Platform] is the case
      of one offset, such as UTC.
    - [new Date()] is the argument [now] of the function that reads it.
    - A [while] loop that may not end takes a number of iterations it may
      use and returns [None] when they do not suffice.
    - The table is the list of its rows; a handler is a function from the
      table to its response and the new table, and, for two requests in
      flight, a sequence of stages separated by its [await]s. *)

From Stdlib Require Import ZArith List String Ascii Bool Lia QArith.
From Stdlib Require Import Qround Sorted Permutation.
From Equations Require Import Equations.
From Equations.Prop Require Import Logic.
Import ListNotations.
Open Scope Z_scope.

(** ** The server the service runs on *)

Definition Date := Z.

Definition msPerSecond : Z := 1000.
Definition msPerMinute : Z := 60000.
Definition msPerHour : Z := 3600000.
Definition msPerDay : Z := 86400000.

(** The zone of the Node process and the zone database, in milliseconds.
    [offsetAt t] is the UTC offset of the process zone at the instant [t]
    (ECMAScript's LocalTZA(t, true)); [offsetOfLocal w] is the offset with
    which the engine reads the local wall-clock time [w] (LocalTZA(w,
    false): for a time that a transition skips or repeats, the offset
    before the transition).  [zoneOffset z t] is the offset that the zone
    database gives the IANA zone [z] at the instant [t].  In the zone of the
    process the same wall-clock time of the next calendar day comes at
    least an hour later. *)
Class Server := {
  offsetAt : Z -> Z;
  offsetOfLocal : Z -> Z;
  zoneOffset : string -> Z -> Z;
  next_day_later :
    forall t : Z, offsetOfLocal (t + offsetAt t + msPerDay) <= offsetAt t + 23 * msPerHour
}.

(** A server whose process zone keeps one offset, such as the UTC of a
    container: [localOffset] is that offset and [tzOffset] the zone
    database. *)
Class Platform := {
  localOffset : Z;
  tzOffset : string -> Z -> Z
}.

#[global, refine] Instance fixedOffset (P : Platform) : Server :=
  {| offsetAt := fun _ => localOffset;
     offsetOfLocal := fun _ => localOffset;
     zoneOffset := tzOffset |}.
Proof. intros t. unfold msPerHour. lia. Defined.

Coercion fixedOffset : Platform >-> Server.

(** ** date-fns 2.30 *)
Module DateFns.

(** The wall-clock reading of an instant in the process zone, as
    milliseconds, and the instant the engine gives a wall-clock time. *)
Definition toLocal `{Server} (d : Date) : Z := d + offsetAt d.
Definition fromLocal `{Server} (w : Z) : Date := w - offsetOfLocal w.

Definition isBefore (a b : Date) : bool := a <? b.
Definition isAfter (a b : Date) : bool := b <? a.

Definition addMilliseconds (d : Date) (n : Z) : Date := d + n.
Definition addMinutes (d : Date) (n : Z) : Date := addMilliseconds d (n * msPerMinute).
Definition addHours (d : Date) (n : Z) : Date := addMilliseconds d (n * msPerHour).

(** [addDays]: no change for 0 days; otherwise [setDate(getDate() + n)],
    which moves the local calendar date and keeps the local time. *)
Definition addDays `{Server} (d : Date) (n : Z) : Date :=
  if n =? 0 then d else fromLocal (toLocal d + n * msPerDay).

(** Number of the local calendar day of [d], counted from 1970-01-01. *)
Definition localDay `{Server} (d : Date) : Z := toLocal d / msPerDay.

Definition startOfDay `{Server} (d : Date) : Date :=
  fromLocal (localDay d * msPerDay).

Definition endOfDay `{Server} (d : Date) : Date :=
  fromLocal (localDay d * msPerDay + 23 * msPerHour + 59 * msPerMinute
             + 59 * msPerSecond + 999).

(** 0 is Sunday; 1970-01-01 was a Thursday. *)
Definition getDay `{Server} (d : Date) : Z := (localDay d + 4) mod 7.

(** [Date.prototype.setHours(h, m, 0, 0)]. *)
Definition setHours `{Server} (d : Date) (h m : Z) : Date :=
  fromLocal (localDay d * msPerDay + h * msPerHour + m * msPerMinute).

(** [parseISO] of a date-only string [YYYY-MM-DD]: the local calendar date
    is set, then the local time 00:00:00.000, which gives the local
    midnight of that date.  The calendar date is given by its day number. *)
Definition parseISO_date `{Server} (day : Z) : Date := fromLocal (day * msPerDay).

End DateFns.

(** Day number of a proleptic Gregorian calendar date, to write calendar
    dates in examples ([civil 1970 1 1 = 0]). *)
Definition civil (y m d : Z) : Z :=
  let y' := if m <=? 2 then y - 1 else y in
  let era := y' / 400 in
  let yoe := y' - era * 400 in
  let mp := (m + 9) mod 12 in
  let doy := (153 * mp + 2) / 5 + d - 1 in
  let doe := yoe * 365 + yoe / 4 - yoe / 100 + doy in
  era * 146097 + doe - 719468.

(** ** date-fns-tz 2.0 *)
Module DateFnsTz.
Import DateFns.

(** [toUtcDate]: the local fields of [d] read as a UTC date. *)
Definition toUtcDate `{Server} (d : Date) : Date := toLocal d.

Definition calcOffset `{Server} (date : Date) (timezone : string) : Z :=
  zoneOffset timezone date.

Definition fixOffset `{Server} (date : Date) (offset : Z) (timezone : string) : Z :=
  let localTS := date in
  let utcGuess := localTS - offset in
  let o2 := calcOffset utcGuess timezone in
  if offset =? o2 then offset
  else
    let utcGuess' := utcGuess - (o2 - offset) in
    let o3 := calcOffset utcGuess' timezone in
    if o2 =? o3 then o2 else Z.max o2 o3.

Definition tzParseTimezone `{Server} (timezone : string) (date : Date) : Z :=
  let utcDate := toUtcDate date in
  let offset := calcOffset utcDate timezone in
  - fixOffset date offset timezone.

(** The local fields of [date] are read as a wall-clock time of
    [timezone]; the result is the instant at which that zone shows it. *)
Definition zonedTimeToUtc `{Server} (date : Date) (timezone : string) : Date :=
  let utc := toUtcDate date in
  utc + tzParseTimezone timezone utc.

(** Wall-clock reading, as milliseconds, of the instant [date] in
    [timezone]. *)
Definition wallClock `{Server} (date : Date) (timezone : string) : Z :=
  date + zoneOffset timezone date.

Definition twoDigits (n : Z) : string :=
  let digit (k : Z) := String (ascii_of_nat (Z.to_nat (48 + k))) EmptyString in
  (digit (n / 10 mod 10) ++ digit (n mod 10))%string.

(** [formatInTimeZone date timezone 'HH:mm']. *)
Definition formatInTimeZone_HHmm `{Server} (date : Date) (timezone : string) : string :=
  let w := wallClock date timezone in
  (twoDigits (w mod msPerDay / msPerHour) ++ ":" ++
   twoDigits (w mod msPerHour / msPerMinute))%string.

End DateFnsTz.

(** ** JavaScript strings and exceptions *)

(** [s.split(sep)] for a one-character separator. *)
Fixpoint split (sep : ascii) (s : string) : list string :=
  match s with
  | EmptyString => [EmptyString]
  | String c rest =>
      if Ascii.eqb c sep then EmptyString :: split sep rest
      else match split sep rest with
           | [] => [String c EmptyString]
           | hd :: tl => String c hd :: tl
           end
  end.

Definition digitValue (c : ascii) : option Z :=
  let n := Z.of_nat (nat_of_ascii c) in
  if (48 <=? n) && (n <=? 57) then Some (n - 48) else None.

Definition isWhitespace (c : ascii) : bool :=
  let n := nat_of_ascii c in
  (Nat.eqb n 32 || (Nat.leb 9 n && Nat.leb n 13))%bool.

Fixpoint skipWhitespace (s : string) : string :=
  match s with
  | String c rest => if isWhitespace c then skipWhitespace rest else s
  | EmptyString => s
  end.

Fixpoint parseDigits (acc : option Z) (s : string) : option Z :=
  match s with
  | EmptyString => acc
  | String c rest =>
      match digitValue c with
      | Some d => parseDigits (Some (10 * match acc with Some a => a | None => 0 end + d)) rest
      | None => acc
      end
  end.

(** [parseInt(s, 10)]; [None] is [NaN]. *)
Definition parseInt (s : string) : option Z :=
  match skipWhitespace s with
  | String "-" rest => option_map Z.opp (parseDigits None rest)
  | String "+" rest => parseDigits None rest
  | t => parseDigits None t
  end.

(** [haystack.includes(needle)]. *)
Fixpoint includes (haystack needle : string) : bool :=
  if String.prefix needle haystack then true
  else match haystack with
       | EmptyString => false
       | String _ rest => includes rest needle
       end.

(** A computation that returns or throws [new Error(msg)]. *)
Inductive Result (A : Type) : Type :=
| Ok (a : A)
| Throw (msg : string).
Arguments Ok {A} a.
Arguments Throw {A} msg.

Definition bind {A B} (r : Result A) (k : A -> Result B) : Result B :=
  match r with
  | Ok a => k a
  | Throw msg => Throw msg
  end.

Notation "x <- r ;; k" := (bind r (fun x => k))
  (at level 61, r at next level, right associativity).

Definition isOk {A} (r : Result A) : bool :=
  match r with Ok _ => true | Throw _ => false end.

(** ** src/models/schemas.ts *)

Record AvailabilityRule := {
  rule_id : Z;
  rule_user_id : Z;
  day_of_week : Z;
  start_time : string;
  end_time : string;
  interval_minutes : Z;
  timezone : string
}.

Record TimeSlot := {
  start : Date;
  end_ : Date;
  available : bool
}.

(** The columns of a booking row that the slot generator reads. *)
Module BookedSlot.
Record t := { slot_start : Date; slot_end : Date }.
End BookedSlot.
Definition BookedSlot := BookedSlot.t.

(** ** src/utils/timeUtils.ts, class TimeUtils *)
Module TimeUtils.
Import DateFns DateFnsTz.

(** [Ok None] is an Invalid Date ([parseInt] gave [NaN]). *)
Definition timeStringToUTC `{Server} (timeString : string) (date : Date)
    (timezone : string) : Result (option Date) :=
  let timeParts := split ":" timeString in
  if (Nat.ltb (List.length timeParts) 2 || Nat.ltb 3 (List.length timeParts))%bool then
    Throw ("Invalid time format: " ++ timeString ++ ". Expected HH:MM or HH:MM:SS")%string
  else
    match parseInt (nth 0 timeParts EmptyString),
          parseInt (nth 1 timeParts EmptyString) with
    | Some hours, Some minutes =>
        let localDate := setHours date hours minutes in
        Ok (Some (zonedTimeToUtc localDate timezone))
    | _, _ => Ok None
    end.

(** [now] is the value of [new Date()] read by the check. *)
Definition meetsLeadTime (now slotStart : Date) : bool :=
  let leadTimeHours := 2 in
  let minimumTime := addHours now leadTimeHours in
  isAfter slotStart minimumTime.

Definition withinBookingHorizon `{Server} (now slotStart : Date) : bool :=
  let horizonDays := 14 in
  let maxDate := addDays now horizonDays in
  isBefore slotStart maxDate.

Definition meetsCancellationNotice (now slotStart : Date) : bool :=
  let noticeHours := 12 in
  let minimumTime := addHours now noticeHours in
  isAfter slotStart minimumTime.

Definition slotsOverlap (slot1 slot2 : Date * Date) : bool :=
  isBefore (fst slot1) (snd slot2) && isAfter (snd slot1) (fst slot2).

(** The [while] loop of [generateSlotsForDate] for one rule: the slots it
    pushes, in order.  [None] when [fuel] iterations did not reach the
    exit of the loop. *)
Fixpoint slotLoop `{Server} (fuel : nat) (now : Date) (bookedSlots : list BookedSlot)
    (intervalMinutes : Z) (slotEnd currentSlot : Date) : option (list TimeSlot) :=
  match fuel with
  | O => None
  | S fuel' =>
      if isBefore currentSlot slotEnd then
        let slotEndTime := addMinutes currentSlot intervalMinutes in
        if isAfter slotEndTime slotEnd then Some []
        else
          let meetsLead := meetsLeadTime now currentSlot in
          let withinHorizon := withinBookingHorizon now currentSlot in
          let isBooked :=
            existsb (fun booking =>
                       slotsOverlap (currentSlot, slotEndTime)
                                    (BookedSlot.slot_start booking, BookedSlot.slot_end booking))
                    bookedSlots in
          let isAvailable := meetsLead && withinHorizon && negb isBooked in
          option_map
            (cons {| start := currentSlot; end_ := slotEndTime; available := isAvailable |})
            (slotLoop fuel' now bookedSlots intervalMinutes slotEnd slotEndTime)
      else Some []
  end.

(** The [for ... of rulesForDay] loop; [slots] is the array filled so far. *)
Fixpoint rulesLoop `{Server} (fuel : nat) (now date : Date)
    (rulesForDay : list AvailabilityRule) (bookedSlots : list BookedSlot)
    (slots : list TimeSlot) : option (Result (list TimeSlot)) :=
  match rulesForDay with
  | [] => Some (Ok slots)
  | rule :: rest =>
      match timeStringToUTC (start_time rule) date (timezone rule) with
      | Throw msg => Some (Throw msg)
      | Ok slotStart =>
          match timeStringToUTC (end_time rule) date (timezone rule) with
          | Throw msg => Some (Throw msg)
          | Ok slotEnd =>
              match slotStart, slotEnd with
              | Some slotStart, Some slotEnd =>
                  match slotLoop fuel now bookedSlots (interval_minutes rule)
                                 slotEnd slotStart with
                  | None => None
                  | Some pushed => rulesLoop fuel now date rest bookedSlots (slots ++ pushed)%list
                  end
              | _, _ => rulesLoop fuel now date rest bookedSlots slots
              end
          end
      end
  end.

(** [Array.prototype.sort] with the comparator [a.start - b.start]
    (stable). *)
Fixpoint insertByStart (x : TimeSlot) (l : list TimeSlot) : list TimeSlot :=
  match l with
  | [] => [x]
  | y :: l' => if start x <=? start y then x :: y :: l' else y :: insertByStart x l'
  end.

Definition sortByStart (l : list TimeSlot) : list TimeSlot :=
  fold_right insertByStart [] l.

Definition generateSlotsForDate `{Server} (fuel : nat) (now date : Date)
    (availabilityRules : list AvailabilityRule) (bookedSlots : list BookedSlot)
    (hostTimezone : string) : option (Result (list TimeSlot)) :=
  let dayOfWeek := getDay date in
  let rulesForDay := filter (fun rule => day_of_week rule =? dayOfWeek) availabilityRules in
  match rulesLoop fuel now date rulesForDay bookedSlots [] with
  | Some (Ok slots) => Some (Ok (sortByStart slots))
  | other => other
  end.

(** [Math.ceil(a / b)] for [b > 0]. *)
Definition ceilDiv (a b : Z) : Z := - ((- a) / b).

(** [fromDate] and [toDate] are the day numbers of the two calendar dates
    of the query. *)
Definition validateDateRange `{Server} (fromDate toDate : Z) : Result (Date * Date) :=
  let from := parseISO_date fromDate in
  let to := parseISO_date toDate in
  if isAfter from to then Throw "From date must be before to date"
  else
    let daysDiff := ceilDiv (to - from) (1000 * 60 * 60 * 24) in
    if 14 <? daysDiff then Throw "Date range cannot exceed 14 days"
    else Ok (startOfDay from, endOfDay to).

(** The [while (!isAfter(currentDate, endDate))] loop of
    [generateDateRange]; it ends because every pass moves [currentDate]
    forward by a calendar day, which lasts an hour at least. *)
Equations? dateLoop `{Server} (currentDate endDate : Date) : list Date
  by wf (Z.to_nat ((endDate - currentDate) / msPerHour + 1)) lt :=
  dateLoop currentDate endDate with inspect (isAfter currentDate endDate) => {
    | exist _ true _ := [];
    | exist _ false notAfter :=
        currentDate :: dateLoop (addDays currentDate 1) endDate }.
Proof.
  unfold isAfter in notAfter. apply Z.ltb_ge in notAfter.
  unfold addDays, fromLocal, toLocal. cbn [Z.eqb]. rewrite Z.mul_1_l.
  pose proof (next_day_later currentDate) as Hnext.
  set (next := currentDate + offsetAt currentDate + msPerDay
               - offsetOfLocal (currentDate + offsetAt currentDate + msPerDay)).
  assert (Hlater : endDate - next <= endDate - currentDate + (-1) * msPerHour)
    by (subst next; unfold msPerHour, msPerDay in *; lia).
  apply (Z.div_le_mono _ _ msPerHour) in Hlater; [|unfold msPerHour; lia].
  rewrite Z.div_add in Hlater by (unfold msPerHour; lia).
  assert (0 <= (endDate - currentDate) / msPerHour)
    by (apply Z.div_pos; unfold msPerHour; lia).
  lia.
Qed.

Definition generateDateRange `{Server} (from to : Date) : list Date :=
  let currentDate := startOfDay from in
  let endDate := startOfDay to in
  dateLoop currentDate endDate.

End TimeUtils.

(** ** src/utils/timeUtils.ts, class BookingUtils *)
Module BookingUtils.
Import DateFns.

(** [x < y] on the numbers [x = p / q] and [y]. *)
Definition Qlt_bool (x y : Q) : bool := negb (Qle_bool y x).

Definition validateBookingSlot `{Server} (now slotStart slotEnd : Date) : Result unit :=
  if negb (TimeUtils.meetsLeadTime now slotStart) then
    Throw "Booking must be at least 2 hours in advance"
  else if negb (TimeUtils.withinBookingHorizon now slotStart) then
    Throw "Booking cannot be more than 14 days in advance"
  else
    let durationMs := slotEnd - slotStart in
    let durationMinutes := (durationMs # 60000)%Q in
    if Qlt_bool durationMinutes (15 # 1) then
      Throw "Slot duration must be at least 15 minutes"
    else if Qlt_bool (480 # 1) durationMinutes then
      Throw "Slot duration cannot exceed 8 hours"
    else if negb (isAfter slotEnd slotStart) then
      Throw "Slot end time must be after start time"
    else Ok tt.

End BookingUtils.

(** ** Dates that may be Invalid Dates

    [parseISO] gives an Invalid Date for a string such as
    [2025-06-02T14:61:00Z], which the [datetime()] test of [bookingSchema]
    lets through, and POST /book passes what [parseISO] returns to
    [validateBookingSlot].  Here [None] is an Invalid Date and a number that
    is [NaN]: [isBefore], [isAfter], [<] and [>] are false of it. *)
Module InvalidDates.
Import DateFns.

Definition isBefore (a b : option Date) : bool :=
  match a, b with
  | Some a, Some b => DateFns.isBefore a b
  | _, _ => false
  end.

Definition isAfter (a b : option Date) : bool :=
  match a, b with
  | Some a, Some b => DateFns.isAfter a b
  | _, _ => false
  end.

(** [x < y] on numbers that may be [NaN]. *)
Definition lessThan (x y : option Q) : bool :=
  match x, y with
  | Some x, Some y => BookingUtils.Qlt_bool x y
  | _, _ => false
  end.

Definition meetsLeadTime (now : Date) (slotStart : option Date) : bool :=
  let leadTimeHours := 2 in
  let minimumTime := addHours now leadTimeHours in
  isAfter slotStart (Some minimumTime).

Definition withinBookingHorizon `{Server} (now : Date) (slotStart : option Date) : bool :=
  let horizonDays := 14 in
  let maxDate := addDays now horizonDays in
  isBefore slotStart (Some maxDate).

Definition validateBookingSlot `{Server} (now : Date) (slotStart slotEnd : option Date)
    : Result unit :=
  if negb (meetsLeadTime now slotStart) then
    Throw "Booking must be at least 2 hours in advance"
  else if negb (withinBookingHorizon now slotStart) then
    Throw "Booking cannot be more than 14 days in advance"
  else
    let durationMs :=
      match slotEnd, slotStart with
      | Some e, Some s => Some (e - s)
      | _, _ => None
      end in
    let durationMinutes := option_map (fun ms => (ms # 60000)%Q) durationMs in
    if lessThan durationMinutes (Some (15 # 1)%Q) then
      Throw "Slot duration must be at least 15 minutes"
    else if lessThan (Some (480 # 1)%Q) durationMinutes then
      Throw "Slot duration cannot exceed 8 hours"
    else if negb (isAfter slotEnd slotStart) then
      Throw "Slot end time must be after start time"
    else Ok tt.

End InvalidDates.

(** ** The [bookings] table of migrations/init.sql *)
Module Db.

Inductive Status := confirmed | cancelled.

Definition Status_eqb (a b : Status) : bool :=
  match a, b with
  | confirmed, confirmed | cancelled, cancelled => true
  | _, _ => false
  end.

Record Booking := {
  id : Z;
  user_id : Z;
  booking_id : string;
  cancel_code : string;
  name : string;
  email : string;
  slot_start : Date;
  slot_end : Date;
  status : Status;
  created_at : Date
}.

(** Rows in insertion order, and the last value of the [id] sequence. *)
Record Database := {
  bookings : list Booking;
  bookings_id_seq : Z
}.

Inductive PgError :=
| unique_violation (constraint : string)             (* SQLSTATE 23505 *)
| check_violation (constraint : string)              (* SQLSTATE 23514 *)
| string_data_right_truncation (column : string).    (* SQLSTATE 22001 *)

(** A string fits a [VARCHAR(n)] column when it has at most [n]
    characters; a character of a [string] here stands for one character of
    the value. *)
Definition fitsVarchar (n : nat) (s : string) : bool := (String.length s <=? n)%nat.

(** [booking_id UUID NOT NULL UNIQUE]. *)
Definition violates_booking_id_key (rows : list Booking) (r : Booking) : bool :=
  existsb (fun b => String.eqb (booking_id b) (booking_id r)) rows.

(** [CREATE UNIQUE INDEX idx_bookings_no_overlap
     ON bookings (user_id, slot_start, slot_end) WHERE status = 'confirmed']. *)
Definition violates_idx_bookings_no_overlap (rows : list Booking) (r : Booking) : bool :=
  Status_eqb (status r) confirmed &&
  existsb (fun b => Status_eqb (status b) confirmed
                    && (user_id b =? user_id r)
                    && (slot_start b =? slot_start r)
                    && (slot_end b =? slot_end r)) rows.

(** [CHECK (slot_end > slot_start)]. *)
Definition violates_bookings_check (r : Booking) : bool :=
  negb (slot_start r <? slot_end r).

(** [INSERT INTO bookings (user_id, booking_id, cancel_code, name, email,
    slot_start, slot_end, status) VALUES (..., 'confirmed') RETURNING ...].
    The parameters are converted to the types of their columns when the
    statement is bound, before it runs: a string longer than its
    [cancel_code VARCHAR(6)], [name VARCHAR(100)] or [email VARCHAR(255)]
    column is an error and nothing else happens.  (Excess characters that
    are all spaces would be cut off without error; the schema and the code
    generator let no such value through.)  Once the statement runs, the
    sequence advances whether or not the row is accepted; [now] is
    [CURRENT_TIMESTAMP]. *)
Definition insertBooking (now : Date) (db : Database)
    (userId : Z) (bookingId cancelCode name_ email_ : string)
    (slotStart slotEnd : Date) : (PgError + Booking) * Database :=
  if negb (fitsVarchar 6 cancelCode) then
    (inl (string_data_right_truncation "cancel_code"), db)
  else if negb (fitsVarchar 100 name_) then
    (inl (string_data_right_truncation "name"), db)
  else if negb (fitsVarchar 255 email_) then
    (inl (string_data_right_truncation "email"), db)
  else
    let newId := bookings_id_seq db + 1 in
    let row := {| id := newId; user_id := userId; booking_id := bookingId;
                  cancel_code := cancelCode; name := name_; email := email_;
                  slot_start := slotStart; slot_end := slotEnd;
                  status := confirmed; created_at := now |} in
    let rejected e := (inl e, {| bookings := bookings db; bookings_id_seq := newId |}) in
    if violates_bookings_check row then rejected (check_violation "bookings_check")
    else if violates_booking_id_key (bookings db) row then
      rejected (unique_violation "bookings_booking_id_key")
    else if violates_idx_bookings_no_overlap (bookings db) row then
      rejected (unique_violation "idx_bookings_no_overlap")
    else (inr row, {| bookings := (bookings db ++ [row])%list; bookings_id_seq := newId |}).

(** The [WHERE] clause of the overlap query of POST /book, with
    [$1 = userId], [$2 = slotStart], [$3 = slotEnd]. *)
Definition overlapCondition (userId : Z) (slotStart slotEnd : Date) (b : Booking) : bool :=
  (user_id b =? userId)
  && Status_eqb (status b) confirmed
  && (((slot_start b <=? slotStart) && (slotStart <? slot_end b))
      || ((slot_start b <? slotEnd) && (slotEnd <=? slot_end b))
      || ((slotStart <=? slot_start b) && (slot_end b <=? slotEnd))).

Definition selectOverlapping (db : Database) (userId : Z) (slotStart slotEnd : Date)
    : list Booking :=
  filter (overlapCondition userId slotStart slotEnd) (bookings db).

(** [SELECT ... FROM bookings WHERE booking_id = $1]. *)
Definition selectByBookingId (db : Database) (bookingId : string) : list Booking :=
  filter (fun b => String.eqb (booking_id b) bookingId) (bookings db).

Definition setStatus (s : Status) (b : Booking) : Booking :=
  {| id := id b; user_id := user_id b; booking_id := booking_id b;
     cancel_code := cancel_code b; name := name b; email := email b;
     slot_start := slot_start b; slot_end := slot_end b;
     status := s; created_at := created_at b |}.

(** [UPDATE bookings SET status = 'cancelled' WHERE id = $1]. *)
Definition updateCancelled (db : Database) (rowId : Z) : Database :=
  {| bookings := map (fun b => if id b =? rowId then setStatus cancelled b else b)
                     (bookings db);
     bookings_id_seq := bookings_id_seq db |}.

(** [SELECT slot_start, slot_end FROM bookings WHERE user_id = $1 AND
    status = 'confirmed' AND slot_start >= $2 AND slot_end <= $3]. *)
Definition selectBookedSlots (db : Database) (userId : Z) (from to : Date)
    : list BookedSlot :=
  map (fun b => {| BookedSlot.slot_start := slot_start b;
                   BookedSlot.slot_end := slot_end b |})
      (filter (fun b => (user_id b =? userId) && Status_eqb (status b) confirmed
                        && (from <=? slot_start b) && (slot_end b <=? to))
              (bookings db)).

End Db.

(** ** HTTP responses *)

Inductive Body :=
| ErrorBody (error : string)
| BookingCreated (booking : Db.Booking)
| BookingCancelled (bookingId : string) (cancelledAt : Date).

Record Response := { statusCode : Z; body : Body }.

Definition json (code : Z) (b : Body) : Response := {| statusCode := code; body := b |}.

(** ** src/routes/booking.ts *)
Module BookingRoute.
Import Db.

(** A POST /book request past [authenticateToken] and [bookingSchema]:
    the owner, the contact, the two parsed instants, and the values that
    [generateBookingId] and [generateCancelCode] return for it. *)
Record BookCall := {
  call_user : Z;
  call_name : string;
  call_email : string;
  slotStartDate : Date;
  slotEndDate : Date;
  bookingId : string;
  cancelCode : string
}.

(** The error names of the specification. *)
Definition SlotAlreadyBooked : Response :=
  json 409 (ErrorBody "This time slot is already booked").
Definition NotFound : Response := json 404 (ErrorBody "Booking not found").
Definition AlreadyCancelled : Response :=
  json 400 (ErrorBody "Booking is already cancelled").
Definition InvalidCancelCode : Response := json 401 (ErrorBody "Invalid cancel code").
Definition TooLateToCancel : Response :=
  json 400 (ErrorBody
    "Cancellation must be at least 12 hours before the appointment time").
Definition InternalServerError : Response := json 500 (ErrorBody "Internal server error").

(** The [catch] block of POST /book for an [Error] thrown by
    [validateBookingSlot]. *)
Definition bookCatch (message : string) : Response :=
  if includes message "Booking must be"
     || includes message "Slot duration"
     || includes message "time must be"
  then json 400 (ErrorBody message)
  else InternalServerError.

(** The handler of POST /book run from start to end with no other request
    in between.  An error of the database reaches the [catch] block with a
    message that holds none of the three phrases. *)
Definition book `{Server} (now : Date) (db : Database) (c : BookCall)
    : Response * Database :=
  match BookingUtils.validateBookingSlot now (slotStartDate c) (slotEndDate c) with
  | Throw message => (bookCatch message, db)
  | Ok _ =>
      let existingBooking :=
        selectOverlapping db (call_user c) (slotStartDate c) (slotEndDate c) in
      if Nat.ltb 0 (List.length existingBooking) then (SlotAlreadyBooked, db)
      else
        match insertBooking now db (call_user c) (bookingId c) (cancelCode c)
                            (call_name c) (call_email c)
                            (slotStartDate c) (slotEndDate c) with
        | (inl _, db') => (InternalServerError, db')
        | (inr booking, db') => (json 201 (BookingCreated booking), db')
        end
  end.

(** The handler of POST /cancel, past [cancelBookingSchema]. *)
Definition cancel (now : Date) (db : Database) (bookingId_ cancelCode_ : string)
    : Response * Database :=
  match selectByBookingId db bookingId_ with
  | [] => (NotFound, db)
  | booking :: _ =>
      if Status_eqb (status booking) cancelled then (AlreadyCancelled, db)
      else if negb (String.eqb (cancel_code booking) cancelCode_) then
        (InvalidCancelCode, db)
      else if negb (TimeUtils.meetsCancellationNotice now (slot_start booking)) then
        (TooLateToCancel, db)
      else
        (json 200 (BookingCancelled (booking_id booking) now),
         updateCancelled db (id booking))
  end.

(** *** Two requests in flight

    Each [await db.query] gives the event loop to other requests: a
    handler of POST /book is the three stages below, and the database
    runs one statement at a time. *)
Inductive BookTask :=
| AwaitingSelect (c : BookCall)
| AwaitingInsert (c : BookCall)
| Responded (r : Response).

(** From the arrival of the request to the sending of the overlap query. *)
Definition bookStart `{Server} (now : Date) (c : BookCall) : BookTask :=
  match BookingUtils.validateBookingSlot now (slotStartDate c) (slotEndDate c) with
  | Throw message => Responded (bookCatch message)
  | Ok _ => AwaitingSelect c
  end.

(** The database answers the statement the task waits for and the handler
    runs to its next [await] or to its response. *)
Definition bookStep (now : Date) (db : Database) (t : BookTask) : BookTask * Database :=
  match t with
  | AwaitingSelect c =>
      let existingBooking :=
        selectOverlapping db (call_user c) (slotStartDate c) (slotEndDate c) in
      if Nat.ltb 0 (List.length existingBooking) then (Responded SlotAlreadyBooked, db)
      else (AwaitingInsert c, db)
  | AwaitingInsert c =>
      match insertBooking now db (call_user c) (bookingId c) (cancelCode c)
                          (call_name c) (call_email c)
                          (slotStartDate c) (slotEndDate c) with
      | (inl _, db') => (Responded InternalServerError, db')
      | (inr booking, db') => (Responded (json 201 (BookingCreated booking)), db')
      end
  | Responded r => (Responded r, db)
  end.

(** [true] lets the first task take its next step, [false] the second. *)
Fixpoint interleave (now : Date) (schedule : list bool) (db : Database)
    (t1 t2 : BookTask) : BookTask * BookTask * Database :=
  match schedule with
  | [] => (t1, t2, db)
  | true :: rest =>
      let '(t1', db') := bookStep now db t1 in interleave now rest db' t1' t2
  | false :: rest =>
      let '(t2', db') := bookStep now db t2 in interleave now rest db' t1 t2'
  end.

End BookingRoute.

(** ** src/routes/slots.ts *)
Module SlotsRoute.

(** The calendar dates for which GET /slots?from=..&to=.. calls
    [generateSlotsForDate]: [validateDateRange] then [generateDateRange]. *)
Definition queryDates `{Server} (from to : Z) : Result (list Date) :=
  dateRange <- TimeUtils.validateDateRange from to ;;
  Ok (TimeUtils.generateDateRange (fst dateRange) (snd dateRange)).

End SlotsRoute.

(** ** Servers to run the model on *)

(** The offsets of America/New_York for instants of the year 2025: daylight
    time (UTC-4) from 2025-03-09T07:00Z to 2025-11-02T06:00Z, standard time
    (UTC-5) outside. *)
Definition newYork2025 (t : Z) : Z :=
  if (1741503600000 <=? t) && (t <? 1762063200000) then -4 * msPerHour
  else -5 * msPerHour.

Definition zoneDb2025 (timezone : string) (t : Z) : Z :=
  if String.eqb timezone "America/New_York" then newYork2025 t else 0.

(** A Node process whose local zone is UTC. *)
Definition utcServer : Platform := {| localOffset := 0; tzOffset := zoneDb2025 |}.

(** The offset with which an engine in America/New_York reads a local
    wall-clock time of 2025: daylight time from 03:00 on 9 March until
    02:00 on 2 November.  The hour that 9 March skips is read with the
    offset before the change (standard time), and so is the hour that
    2 November repeats (daylight time). *)
Definition newYork2025Local (w : Z) : Z :=
  if (1741489200000 <=? w) && (w <? 1762048800000) then -4 * msPerHour
  else -5 * msPerHour.

(** A Node process started with TZ=America/New_York, for instants and
    wall-clock times of 2025. *)
Definition nyServer : Server.
Proof.
  refine {| offsetAt := newYork2025;
            offsetOfLocal := newYork2025Local;
            zoneOffset := zoneDb2025 |}.
  intros t. unfold newYork2025, newYork2025Local, msPerHour.
  destruct (_ && _); destruct (_ && _); lia.
Defined.

(** * Vocabulary of the properties *)

Import DateFns DateFnsTz.

(** The availability of the specification, section 4.3, step 3:
    [overlapsAny] is the half-open test against every reservation given to
    the generator. *)
Definition overlapsAny (slotStart slotEnd : Date) (reservations : list BookedSlot) : Prop :=
  exists r, In r reservations
            /\ slotStart < BookedSlot.slot_end r /\ slotEnd > BookedSlot.slot_start r.

Definition specAvailability (now : Date) (reservations : list BookedSlot)
    (slotStart slotEnd : Date) : Prop :=
  now + 2 * msPerHour < slotStart
  /\ slotStart < now + 14 * msPerDay
  /\ ~ overlapsAny slotStart slotEnd reservations.

(** The flag computed in the body of the loop. *)
Definition isAvailable `{Server} (now : Date) (bookedSlots : list BookedSlot)
    (currentSlot slotEndTime : Date) : bool :=
  TimeUtils.meetsLeadTime now currentSlot
  && TimeUtils.withinBookingHorizon now currentSlot
  && negb (existsb (fun booking =>
                      TimeUtils.slotsOverlap (currentSlot, slotEndTime)
                        (BookedSlot.slot_start booking, BookedSlot.slot_end booking))
                   bookedSlots).

(** [n] slots of [step] milliseconds laid end to end from [cursor]. *)
Fixpoint slotsFrom `{Server} (now : Date) (bookedSlots : list BookedSlot)
    (step : Z) (n : nat) (cursor : Date) : list TimeSlot :=
  match n with
  | O => []
  | S n' =>
      {| start := cursor; end_ := cursor + step;
         available := isAvailable now bookedSlots cursor (cursor + step) |}
      :: slotsFrom now bookedSlots step n' (cursor + step)
  end.

(** How many whole steps fit between [slotStart] and [slotEnd]. *)
Definition slotCount (slotStart slotEnd step : Z) : nat :=
  Z.to_nat ((slotEnd - slotStart) / step).

(** A slot comes from a rule when it is a whole number of intervals after
    the resolved start of the rule, one interval long, within the resolved
    end, and flagged as the loop body flags it. *)
Definition emittedBy `{Server} (now date : Date) (bookedSlots : list BookedSlot)
    (rule : AvailabilityRule) (s : TimeSlot) : Prop :=
  exists (slotStart slotEnd : Date) (k : nat),
    TimeUtils.timeStringToUTC (start_time rule) date (timezone rule) = Ok (Some slotStart)
    /\ TimeUtils.timeStringToUTC (end_time rule) date (timezone rule) = Ok (Some slotEnd)
    /\ start s = slotStart + Z.of_nat k * (interval_minutes rule * msPerMinute)
    /\ end_ s = start s + interval_minutes rule * msPerMinute
    /\ end_ s <= slotEnd
    /\ available s = isAvailable now bookedSlots (start s) (end_ s).

(** What a rule is to give for a date: the slots of one interval laid end
    to end from the resolved start of the rule, as many as fit before its
    resolved end, each flagged as the loop body flags it; none when a time
    of the rule does not resolve to an instant. *)
Definition ruleSlots `{Server} (now date : Date) (bookedSlots : list BookedSlot)
    (rule : AvailabilityRule) : list TimeSlot :=
  match TimeUtils.timeStringToUTC (start_time rule) date (timezone rule),
        TimeUtils.timeStringToUTC (end_time rule) date (timezone rule) with
  | Ok (Some slotStart), Ok (Some slotEnd) =>
      slotsFrom now bookedSlots (interval_minutes rule * msPerMinute)
        (slotCount slotStart slotEnd (interval_minutes rule * msPerMinute)) slotStart
  | _, _ => []
  end.

(** Monday 09:00-17:00, every 30 minutes, America/New_York, as the row of
    [availability_rules] reads (a [TIME] column comes back as HH:MM:SS). *)
Definition mondayRule : AvailabilityRule :=
  {| rule_id := 1; rule_user_id := 7; day_of_week := 1;
     start_time := "09:00:00"; end_time := "17:00:00";
     interval_minutes := 30; timezone := "America/New_York" |}.

(** The wall-clock time [h]:[m] of the calendar day [day], as milliseconds. *)
Definition wallTime (day h m : Z) : Z := day * msPerDay + h * msPerHour + m * msPerMinute.

(** Local midnights of [n] consecutive calendar days from [day]. *)
Fixpoint midnights `{Server} (n : nat) (day : Z) : list Date :=
  match n with
  | O => []
  | S n' => parseISO_date day :: midnights n' (day + 1)
  end.

(** The zone of the server has the wall-clock time [w]: the instant the
    engine gives for it reads back as [w].  It fails of a time that a
    change of offset skips. *)
Definition localTimeExists `{Server} (w : Z) : Prop := toLocal (fromLocal w) = w.

(** Two rows of one owner that are both confirmed do not overlap. *)
Definition compatible (b1 b2 : Db.Booking) : Prop :=
  Db.user_id b1 = Db.user_id b2 ->
  Db.status b1 = Db.confirmed ->
  Db.status b2 = Db.confirmed ->
  TimeUtils.slotsOverlap (Db.slot_start b1, Db.slot_end b1)
                         (Db.slot_start b2, Db.slot_end b2) = false.

Definition noDoubleBooking (db : Db.Database) : Prop :=
  forall (i j : nat) (b1 b2 : Db.Booking),
    i <> j ->
    nth_error (Db.bookings db) i = Some b1 ->
    nth_error (Db.bookings db) j = Some b2 ->
    compatible b1 b2.

(** Requests that change the [bookings] table, handled one at a time. *)
Inductive Request :=
| PostBook (now : Date) (c : BookingRoute.BookCall)
| PostCancel (now : Date) (bookingId cancelCode : string).

Definition handle `{Server} (db : Db.Database) (r : Request) : Response * Db.Database :=
  match r with
  | PostBook now c => BookingRoute.book now db c
  | PostCancel now bookingId cancelCode => BookingRoute.cancel now db bookingId cancelCode
  end.

Definition serve `{Server} (db : Db.Database) (requests : list Request) : Db.Database :=
  fold_left (fun d r => snd (handle d r)) requests db.

Definition emptyDb : Db.Database := {| Db.bookings := []; Db.bookings_id_seq := 0 |}.

(** ** Sample data: Monday 2 June 2025, seen from Friday 30 May *)

Definition june2 : Z := civil 2025 6 2.

(** The [Date] that [generateDateRange] yields for that day on [utcServer]. *)
Definition mondayDate : Date := @parseISO_date utcServer june2.

Definition may30 : Date := civil 2025 5 30 * msPerDay.
(** The instant [h]:[m] UTC of the calendar day [day]. *)
Definition at_ (day h m : Z) : Date := wallTime day h m.

(** A confirmed reservation of owner 7, 14:00-14:30 UTC (10:00-10:30 in
    New York). *)
Definition sampleRow : Db.Booking :=
  {| Db.id := 1; Db.user_id := 7;
     Db.booking_id := "11111111-1111-4111-8111-111111111111";
     Db.cancel_code := "AB12CD";
     Db.name := "Jane Smith"; Db.email := "jane@example.com";
     Db.slot_start := at_ june2 14 0; Db.slot_end := at_ june2 14 30;
     Db.status := Db.confirmed; Db.created_at := may30 |}.

Definition oneBooking : Db.Database :=
  {| Db.bookings := [sampleRow]; Db.bookings_id_seq := 1 |}.

Definition callA : BookingRoute.BookCall :=
  {| BookingRoute.call_user := 7;
     BookingRoute.call_name := "Jane Smith";
     BookingRoute.call_email := "jane@example.com";
     BookingRoute.slotStartDate := at_ june2 14 0;
     BookingRoute.slotEndDate := at_ june2 14 30;
     BookingRoute.bookingId := "11111111-1111-4111-8111-111111111111";
     BookingRoute.cancelCode := "AB12CD" |}.

(** 14:15-14:45 UTC, same owner. *)
Definition callB : BookingRoute.BookCall :=
  {| BookingRoute.call_user := 7;
     BookingRoute.call_name := "John Doe";
     BookingRoute.call_email := "john@example.com";
     BookingRoute.slotStartDate := at_ june2 14 15;
     BookingRoute.slotEndDate := at_ june2 14 45;
     BookingRoute.bookingId := "22222222-2222-4222-8222-222222222222";
     BookingRoute.cancelCode := "EF34GH" |}.

(** The interval of [callA] again, from another client. *)
Definition callC : BookingRoute.BookCall :=
  {| BookingRoute.call_user := 7;
     BookingRoute.call_name := "John Doe";
     BookingRoute.call_email := "john@example.com";
     BookingRoute.slotStartDate := at_ june2 14 0;
     BookingRoute.slotEndDate := at_ june2 14 30;
     BookingRoute.bookingId := "33333333-3333-4333-8333-333333333333";
     BookingRoute.cancelCode := "IJ56KL" |}.

Definition bookedA : BookedSlot :=
  {| BookedSlot.slot_start := at_ june2 14 0; BookedSlot.slot_end := at_ june2 14 30 |}.

(** The slot 10:00-10:30 New York time of the Monday, taken by [bookedA]. *)
Definition takenSlot : TimeSlot :=
  {| start := at_ june2 14 0; end_ := at_ june2 14 30; available := false |}.

(** * The other routes and helpers *)

(** ** src/routes/slots.ts, the handler of GET /slots *)
Module GetSlots.

(** One element of [slots] in the response.  [start] and [end] are sent as
    [toISOString()] of the instant, which [new Date(..)] reads back as the
    same instant; the instant is kept here. *)
Record SlotView := {
  view_start : Date;
  view_end : Date;
  startLocal : string;
  endLocal : string;
  view_timezone : string;
  duration : Z
}.

Inductive SlotsBody :=
| SlotsError (error : string)
| NoRules (message : string) (slots : list SlotView) (from to : Date)
| Listing (slots : list SlotView) (count : Z) (from to : Date) (hostTimezone : string).

Record SlotsResponse := { slotsStatus : Z; slotsBody : SlotsBody }.

(** [Math.round(a / b)] for [b > 0]: halves go up. *)
Definition roundDiv (a b : Z) : Z := (2 * a + b) / (2 * b).

(** The [catch] block of the handler for a thrown [Error]. *)
Definition slotsCatch (message : string) : SlotsResponse :=
  if includes message "Date range" || includes message "date"
  then {| slotsStatus := 400; slotsBody := SlotsError message |}
  else {| slotsStatus := 500; slotsBody := SlotsError "Internal server error" |}.

(** [availableSlots.map(slot => ...)]; [formatInTimeZone] is the function of
    date-fns-tz that [TimeUtils.formatInTimezone] passes its arguments to. *)
Definition toView (formatInTimeZone : Date -> string -> string -> string)
    (hostTimezone : string) (slot : TimeSlot) : SlotView :=
  {| view_start := start slot;
     view_end := end_ slot;
     startLocal := formatInTimeZone (start slot) hostTimezone "yyyy-MM-dd HH:mm:ss"%string;
     endLocal := formatInTimeZone (end_ slot) hostTimezone "yyyy-MM-dd HH:mm:ss"%string;
     view_timezone := hostTimezone;
     duration := roundDiv (end_ slot - start slot) (1000 * 60) |}.

(** The [for (const date of dates)] loop; [allSlots] is the array so far. *)
Fixpoint datesLoop `{Server} (formatInTimeZone : Date -> string -> string -> string)
    (fuel : nat) (now : Date) (dates : list Date)
    (availabilityRows : list AvailabilityRule) (bookedSlots : list BookedSlot)
    (hostTimezone : string) (allSlots : list SlotView)
    : option (Result (list SlotView)) :=
  match dates with
  | [] => Some (Ok allSlots)
  | date :: rest =>
      match TimeUtils.generateSlotsForDate fuel now date availabilityRows bookedSlots
              hostTimezone with
      | None => None
      | Some (Throw message) => Some (Throw message)
      | Some (Ok slotsForDate) =>
          let availableSlots := filter (fun slot => available slot) slotsForDate in
          datesLoop formatInTimeZone fuel now rest availabilityRows bookedSlots hostTimezone
            (allSlots ++ map (toView formatInTimeZone hostTimezone) availableSlots)%list
      end
  end.

(** [allSlots.sort] with the comparator on the two starts (stable). *)
Fixpoint insertView (x : SlotView) (l : list SlotView) : list SlotView :=
  match l with
  | [] => [x]
  | y :: l' => if view_start x <=? view_start y then x :: y :: l' else y :: insertView x l'
  end.

Definition sortViews (l : list SlotView) : list SlotView := fold_right insertView [] l.

(** The handler past [authenticateToken] and [slotsQuerySchema].
    [availabilityRows] are the rows that the query on [availability_rules]
    returns for the owner, in its order; [fromDay] and [toDay] are the day
    numbers of the two calendar dates. *)
Definition getSlots `{Server} (formatInTimeZone : Date -> string -> string -> string)
    (fuel : nat) (now : Date) (availabilityRows : list AvailabilityRule)
    (db : Db.Database) (userId : Z) (fromDay toDay : Z) : option SlotsResponse :=
  match TimeUtils.validateDateRange fromDay toDay with
  | Throw message => Some (slotsCatch message)
  | Ok dateRange =>
      match availabilityRows with
      | [] =>
          Some {| slotsStatus := 200;
                  slotsBody := NoRules "No availability rules found" []
                                 (fst dateRange) (snd dateRange) |}
      | firstRow :: _ =>
          let bookedSlots :=
            Db.selectBookedSlots db userId (fst dateRange) (snd dateRange) in
          let hostTimezone := timezone firstRow in
          let dates := TimeUtils.generateDateRange (fst dateRange) (snd dateRange) in
          match datesLoop formatInTimeZone fuel now dates availabilityRows bookedSlots
                  hostTimezone [] with
          | None => None
          | Some (Throw message) => Some (slotsCatch message)
          | Some (Ok allSlots) =>
              let sorted := sortViews allSlots in
              Some {| slotsStatus := 200;
                      slotsBody := Listing sorted (Z.of_nat (List.length sorted))
                                     (fst dateRange) (snd dateRange) hostTimezone |}
          end
      end
  end.

End GetSlots.

(** ** src/utils/timeUtils.ts, BookingUtils.generateCancelCode *)
Module CancelCode.

(** [s.charAt(i)]: the character at index [i] as a string, the empty
    string when there is none. *)
Definition charAt (s : string) (i : Z) : string :=
  if i <? 0 then EmptyString
  else match String.get (Z.to_nat i) s with
       | Some c => String c EmptyString
       | None => EmptyString
       end.

Definition chars : string := "ABCDEFGHIJKLMNOPQRSTUVWXYZ0123456789".

(** The body of the [for] loop run [n] more times; [draw] is the number of
    calls of [Math.random] made so far. *)
Fixpoint codeLoop (random : nat -> Q) (n : nat) (draw : nat) (result : string) : string :=
  match n with
  | O => result
  | S n' =>
      let index := Qfloor (random draw * inject_Z (Z.of_nat (String.length chars))) in
      codeLoop random n' (S draw) (result ++ charAt chars index)
  end.

(** [random k] is what the call number [k] of [Math.random()] returns. *)
Definition generateCancelCode (random : nat -> Q) : string :=
  codeLoop random 6 0 EmptyString.

End CancelCode.

(** A capital letter or a digit. *)
Definition isCodeChar (c : ascii) : bool :=
  let n := nat_of_ascii c in
  ((Nat.leb 65 n && Nat.leb n 90) || (Nat.leb 48 n && Nat.leb n 57))%bool.

Fixpoint allCodeChars (s : string) : bool :=
  match s with
  | EmptyString => true
  | String c rest => isCodeChar c && allCodeChars rest
  end.

(** ** src/routes/booking.ts, the handler of GET /bookings *)
Module ListBookings.

(** One element of [bookings] in the response: the columns the query
    selects, which leave the cancellation code out. *)
Record BookingView := {
  view_id : Z;
  view_bookingId : string;
  view_name : string;
  view_email : string;
  view_slotStart : Date;
  view_slotEnd : Date;
  view_status : Db.Status;
  view_createdAt : Date
}.

(** [ORDER BY slot_start DESC]; rows with the same start are kept in table
    order, an order that the query itself leaves open. *)
Fixpoint insertDesc (x : Db.Booking) (l : list Db.Booking) : list Db.Booking :=
  match l with
  | [] => [x]
  | y :: l' =>
      if Db.slot_start y <=? Db.slot_start x then x :: y :: l' else y :: insertDesc x l'
  end.

Definition orderByStartDesc (rows : list Db.Booking) : list Db.Booking :=
  fold_right insertDesc [] rows.

(** [SELECT id, booking_id, name, email, slot_start, slot_end, status,
    created_at FROM bookings WHERE user_id = $1 ORDER BY slot_start DESC]. *)
Definition selectByUser (db : Db.Database) (userId : Z) : list Db.Booking :=
  orderByStartDesc (filter (fun b => Db.user_id b =? userId) (Db.bookings db)).

Definition toView (row : Db.Booking) : BookingView :=
  {| view_id := Db.id row;
     view_bookingId := Db.booking_id row;
     view_name := Db.name row;
     view_email := Db.email row;
     view_slotStart := Db.slot_start row;
     view_slotEnd := Db.slot_end row;
     view_status := Db.status row;
     view_createdAt := Db.created_at row |}.

(** The handler: status 200, the list and its [count]. *)
Definition listBookings (db : Db.Database) (userId : Z) : Z * list BookingView * Z :=
  let bookings := map toView (selectByUser db userId) in
  (200, bookings, Z.of_nat (List.length bookings)).

End ListBookings.

(** ** Vocabulary for the table over time *)

(** What the constraints of the table and the checks of POST /book give
    every stored row: row ids are distinct, positive and at most the last
    value of the sequence; public identifiers are distinct; every
    reservation lasts 15 to 480 minutes. *)
Definition wellFormedDb (db : Db.Database) : Prop :=
  0 <= Db.bookings_id_seq db
  /\ NoDup (map Db.id (Db.bookings db))
  /\ NoDup (map Db.booking_id (Db.bookings db))
  /\ (forall b, In b (Db.bookings db) ->
        0 < Db.id b <= Db.bookings_id_seq db
        /\ 15 * msPerMinute <= Db.slot_end b - Db.slot_start b <= 480 * msPerMinute).

(** [b'] is the row [b] at a later time: the same row, or the row
    cancelled. *)
Definition laterVersion (b b' : Db.Booking) : Prop :=
  b' = b \/ (Db.status b = Db.confirmed /\ b' = Db.setStatus Db.cancelled b).

(** The row that a successful POST /book stores. *)
Definition newRow (now : Date) (db : Db.Database) (c : BookingRoute.BookCall) : Db.Booking :=
  {| Db.id := Db.bookings_id_seq db + 1;
     Db.user_id := BookingRoute.call_user c;
     Db.booking_id := BookingRoute.bookingId c;
     Db.cancel_code := BookingRoute.cancelCode c;
     Db.name := BookingRoute.call_name c;
     Db.email := BookingRoute.call_email c;
     Db.slot_start := BookingRoute.slotStartDate c;
     Db.slot_end := BookingRoute.slotEndDate c;
     Db.status := Db.confirmed;
     Db.created_at := now |}.

(** No confirmed reservation of the owner overlaps the interval of the
    call. *)
Definition slotFree (db : Db.Database) (c : BookingRoute.BookCall) : Prop :=
  forall b, In b (Db.bookings db) ->
    Db.user_id b = BookingRoute.call_user c ->
    Db.status b = Db.confirmed ->
    TimeUtils.slotsOverlap
      (BookingRoute.slotStartDate c, BookingRoute.slotEndDate c)
      (Db.slot_start b, Db.slot_end b) = false.

Definition freshBookingId (db : Db.Database) (c : BookingRoute.BookCall) : Prop :=
  forall b, In b (Db.bookings db) -> Db.booking_id b <> BookingRoute.bookingId c.

(** The cancellation code, the name and the e-mail address of the call fit
    their columns. *)
Definition fitsColumns (c : BookingRoute.BookCall) : Prop :=
  (String.length (BookingRoute.cancelCode c) <= 6)%nat
  /\ (String.length (BookingRoute.call_name c) <= 100)%nat
  /\ (String.length (BookingRoute.call_email c) <= 255)%nat.

(** ** Vocabulary for time strings *)

(** The string holds no colon. *)
Fixpoint noColon (s : string) : bool :=
  match s with
  | EmptyString => true
  | String c rest => negb (Ascii.eqb c ":") && noColon rest
  end.

(** The time of day [h]:[m] written HH:MM. *)
Definition hhmm (h m : Z) : string := (twoDigits h ++ ":" ++ twoDigits m)%string.

(** The index of [c] in [CancelCode.chars], 36 when it is not there. *)
Fixpoint indexIn (s : string) (c : ascii) : Z :=
  match s with
  | EmptyString => 0
  | String d rest => if Ascii.eqb d c then 0 else 1 + indexIn rest c
  end.

(** A source of random numbers whose draws, scaled by 36, land on the
    characters of [code] one after the other. *)
Definition randomFor (code : string) (k : nat) : Q :=
  match String.get k code with
  | Some c => Qmake (indexIn CancelCode.chars c) 36
  | None => 0%Q
  end.

(** The order of [ORDER BY slot_start DESC]: [b] may come before [b']. *)
Definition startsNotBefore (b b' : Db.Booking) : Prop :=
  Db.slot_start b' <= Db.slot_start b.

(** ** More sample data *)

(** A call of owner 7 for the interval from [slotStart] to [slotEnd]. *)
Definition callFor (slotStart slotEnd : Date) (bookingId : string) : BookingRoute.BookCall :=
  {| BookingRoute.call_user := 7;
     BookingRoute.call_name := "John Doe";
     BookingRoute.call_email := "john@example.com";
     BookingRoute.slotStartDate := slotStart;
     BookingRoute.slotEndDate := slotEnd;
     BookingRoute.bookingId := bookingId;
     BookingRoute.cancelCode := "MN78OP" |}.

Definition bookingId4 : string := "44444444-4444-4444-8444-444444444444".

(** Monday 10 March 2025, the day after daylight time begins in New York,
    seen from Monday 24 February, 20:45 UTC (15:45 in New York). *)
Definition march10 : Z := civil 2025 3 10.
Definition feb24 : Date := at_ (civil 2025 2 24) 20 45.

(** An e-mail address of 312 characters, which [z.string().email()]
    accepts, and a call that carries it. *)
Definition longEmail : string :=
  (String.concat "" (repeat "a"%string 300) ++ "@example.com")%string.

Definition callLongEmail : BookingRoute.BookCall :=
  {| BookingRoute.call_user := 7;
     BookingRoute.call_name := "John Doe";
     BookingRoute.call_email := longEmail;
     BookingRoute.slotStartDate := at_ june2 13 0;
     BookingRoute.slotEndDate := at_ june2 13 30;
     BookingRoute.bookingId := bookingId4;
     BookingRoute.cancelCode := "MN78OP" |}.

(** The slot 09:00-09:30 New York time of the Monday. *)
Definition firstSlot : TimeSlot :=
  {| start := at_ june2 13 0; end_ := at_ june2 13 30; available := true |}.

(** A rendering that shows the time of day and leaves the date out, whatever
    the pattern. *)
Definition clockOnly `{Server} (date : Date) (timezone pattern : string) : string :=
  formatInTimeZone_HHmm date timezone.

(** The wall-clock conversions on a server of fixed offset. *)
Ltac fixed_offset :=
  unfold DateFns.toLocal, DateFns.fromLocal in *;
  cbn [offsetAt offsetOfLocal zoneOffset fixedOffset] in *.

(** * Properties *)

(** ** Comparisons and policy predicates *)

Lemma isBefore_lt (a b : Date) : isBefore a b = true <-> a < b.
Proof. unfold isBefore. apply Z.ltb_lt. Qed.

Lemma isAfter_lt (a b : Date) : isAfter a b = true <-> b < a.
Proof. unfold isAfter. apply Z.ltb_lt. Qed.

Lemma isAfter_ge (a b : Date) : isAfter a b = false <-> a <= b.
Proof. unfold isAfter. apply Z.ltb_ge. Qed.

Lemma isBefore_ge (a b : Date) : isBefore a b = false <-> b <= a.
Proof. unfold isBefore. apply Z.ltb_ge. Qed.

Lemma addDays_ms `{Platform} (d : Date) (n : Z) : addDays d n = d + n * msPerDay.
Proof.
  unfold addDays. destruct (n =? 0) eqn:Hzero.
  - apply Z.eqb_eq in Hzero. lia.
  - fixed_offset. lia.
Qed.

Lemma meetsLeadTime_iff (now slotStart : Date) :
  TimeUtils.meetsLeadTime now slotStart = true <-> now + 2 * msPerHour < slotStart.
Proof.
  unfold TimeUtils.meetsLeadTime, addHours, addMilliseconds.
  rewrite isAfter_lt. reflexivity.
Qed.

Lemma withinBookingHorizon_iff `{Platform} (now slotStart : Date) :
  TimeUtils.withinBookingHorizon now slotStart = true <-> slotStart < now + 14 * msPerDay.
Proof.
  unfold TimeUtils.withinBookingHorizon.
  rewrite isBefore_lt, addDays_ms. reflexivity.
Qed.

(** On any server the horizon is the instant [addDays now 14]. *)
Lemma withinBookingHorizon_addDays `{Server} (now slotStart : Date) :
  TimeUtils.withinBookingHorizon now slotStart = true <-> slotStart < addDays now 14.
Proof. unfold TimeUtils.withinBookingHorizon. apply isBefore_lt. Qed.

Lemma addDays_offsets `{Server} (now : Date) (n : Z) :
  n <> 0 ->
  addDays now n
  = now + n * msPerDay + (offsetAt now - offsetOfLocal (toLocal now + n * msPerDay)).
Proof.
  intros Hn. unfold addDays. apply Z.eqb_neq in Hn. rewrite Hn.
  unfold fromLocal, toLocal. lia.
Qed.

Lemma meetsCancellationNotice_iff (now slotStart : Date) :
  TimeUtils.meetsCancellationNotice now slotStart = true
  <-> now + 12 * msPerHour < slotStart.
Proof.
  unfold TimeUtils.meetsCancellationNotice, addHours, addMilliseconds.
  rewrite isAfter_lt. reflexivity.
Qed.

Lemma slotsOverlap_iff (s1 e1 s2 e2 : Date) :
  TimeUtils.slotsOverlap (s1, e1) (s2, e2) = true <-> s1 < e2 /\ e1 > s2.
Proof.
  unfold TimeUtils.slotsOverlap. cbn [fst snd].
  rewrite andb_true_iff, isBefore_lt, isAfter_lt. lia.
Qed.

(** The two duration tests of [validateBookingSlot], on milliseconds. *)
Lemma duration_below_15 (durationMs : Z) :
  BookingUtils.Qlt_bool (durationMs # 60000) (15 # 1) = true
  <-> durationMs < 15 * msPerMinute.
Proof.
  unfold BookingUtils.Qlt_bool, Qle_bool, msPerMinute. cbn [Qnum Qden].
  rewrite negb_true_iff, Z.leb_gt. lia.
Qed.

Lemma duration_above_480 (durationMs : Z) :
  BookingUtils.Qlt_bool (480 # 1) (durationMs # 60000) = true
  <-> 480 * msPerMinute < durationMs.
Proof.
  unfold BookingUtils.Qlt_bool, Qle_bool, msPerMinute. cbn [Qnum Qden].
  rewrite negb_true_iff, Z.leb_gt. lia.
Qed.

(** What [validateBookingSlot] answers, check by check. *)
Lemma validateBookingSlot_cases `{Server} (now slotStart slotEnd : Date) :
  BookingUtils.validateBookingSlot now slotStart slotEnd =
    if negb (TimeUtils.meetsLeadTime now slotStart) then
      Throw "Booking must be at least 2 hours in advance"
    else if negb (TimeUtils.withinBookingHorizon now slotStart) then
      Throw "Booking cannot be more than 14 days in advance"
    else if slotEnd - slotStart <? 15 * msPerMinute then
      Throw "Slot duration must be at least 15 minutes"
    else if 480 * msPerMinute <? slotEnd - slotStart then
      Throw "Slot duration cannot exceed 8 hours"
    else Ok tt.
Proof.
  unfold BookingUtils.validateBookingSlot.
  destruct (negb (TimeUtils.meetsLeadTime now slotStart)); [reflexivity|].
  destruct (negb (TimeUtils.withinBookingHorizon now slotStart)); [reflexivity|].
  cbv zeta.
  destruct (BookingUtils.Qlt_bool ((slotEnd - slotStart) # 60000) (15 # 1)) eqn:Hmin.
  - apply duration_below_15 in Hmin. apply Z.ltb_lt in Hmin. rewrite Hmin. reflexivity.
  - assert (Hge : ~ slotEnd - slotStart < 15 * msPerMinute)
      by (rewrite <- duration_below_15, Hmin; discriminate).
    assert (Hlt : (slotEnd - slotStart <? 15 * msPerMinute) = false)
      by (apply Z.ltb_ge; lia).
    rewrite Hlt.
    destruct (BookingUtils.Qlt_bool (480 # 1) ((slotEnd - slotStart) # 60000)) eqn:Hmax.
    + apply duration_above_480 in Hmax. apply Z.ltb_lt in Hmax. rewrite Hmax. reflexivity.
    + assert (Hle : ~ 480 * msPerMinute < slotEnd - slotStart)
        by (rewrite <- duration_above_480, Hmax; discriminate).
      assert (Hle' : (480 * msPerMinute <? slotEnd - slotStart) = false)
        by (apply Z.ltb_ge; lia).
      rewrite Hle'.
      assert (Hafter : isAfter slotEnd slotStart = true)
        by (apply isAfter_lt; unfold msPerMinute in *; lia).
      rewrite Hafter. reflexivity.
Qed.

(** ** Temporal policy *)

(** C4. Each policy predicate compares strictly at its boundary:
    [meetsLeadTime] holds exactly when the start is strictly after
    now + 2 h; [withinBookingHorizon] exactly when it is strictly before
    [addDays now 14], the instant at which the zone of the server shows the
    wall-clock time of now 14 calendar days later, which is now + 14 d when
    the zone has then the offset it has now, and otherwise differs from it
    by the change of offset; [meetsCancellationNotice] exactly when the
    start is strictly after now + 12 h; past the lead-time and horizon
    checks, [validateBookingSlot] accepts exactly the intervals whose end is
    strictly after their start and whose length lies in the inclusive range
    of 15 to 480 minutes: a start at now + 2 h exactly is refused, 15 and 480
    minutes are accepted, 14 min 59 s and 481 minutes are refused. *)
Theorem policy_boundaries_strict `{Server} :
  (forall now slotStart : Date,
      (TimeUtils.meetsLeadTime now slotStart = true <-> now + 2 * msPerHour < slotStart)
      /\ TimeUtils.meetsLeadTime now (now + 2 * msPerHour) = false
      /\ TimeUtils.meetsLeadTime now (now + 2 * msPerHour + msPerSecond) = true)
  /\ (forall now slotStart : Date,
      (TimeUtils.withinBookingHorizon now slotStart = true <-> slotStart < addDays now 14)
      /\ TimeUtils.withinBookingHorizon now (addDays now 14) = false
      /\ addDays now 14
         = now + 14 * msPerDay
           + (offsetAt now - offsetOfLocal (toLocal now + 14 * msPerDay))
      /\ (offsetOfLocal (toLocal now + 14 * msPerDay) = offsetAt now ->
          (TimeUtils.withinBookingHorizon now slotStart = true
           <-> slotStart < now + 14 * msPerDay)
          /\ TimeUtils.withinBookingHorizon now (now + 14 * msPerDay) = false))
  /\ (forall now slotStart : Date,
      (TimeUtils.meetsCancellationNotice now slotStart = true
       <-> now + 12 * msPerHour < slotStart)
      /\ TimeUtils.meetsCancellationNotice now (now + 12 * msPerHour) = false)
  /\ (forall now slotStart slotEnd : Date,
      BookingUtils.validateBookingSlot now slotStart slotEnd = Ok tt
      <-> TimeUtils.meetsLeadTime now slotStart = true
          /\ TimeUtils.withinBookingHorizon now slotStart = true
          /\ slotStart < slotEnd
          /\ 15 * msPerMinute <= slotEnd - slotStart <= 480 * msPerMinute)
  /\ (forall now slotStart : Date,
      TimeUtils.meetsLeadTime now slotStart = true ->
      TimeUtils.withinBookingHorizon now slotStart = true ->
      BookingUtils.validateBookingSlot now slotStart (slotStart + 15 * msPerMinute) = Ok tt
      /\ BookingUtils.validateBookingSlot now slotStart
           (slotStart + 14 * msPerMinute + 59 * msPerSecond)
         = Throw "Slot duration must be at least 15 minutes"
      /\ BookingUtils.validateBookingSlot now slotStart (slotStart + 480 * msPerMinute)
         = Ok tt
      /\ BookingUtils.validateBookingSlot now slotStart (slotStart + 481 * msPerMinute)
         = Throw "Slot duration cannot exceed 8 hours").
Proof.
  repeat apply conj.
  - intros now slotStart. split; [apply meetsLeadTime_iff|]. split.
    + apply not_true_is_false. rewrite meetsLeadTime_iff. lia.
    + apply meetsLeadTime_iff. unfold msPerSecond. lia.
  - intros now slotStart. split; [apply withinBookingHorizon_addDays|].
    split; [apply not_true_is_false; rewrite withinBookingHorizon_addDays; lia|].
    split; [apply addDays_offsets; discriminate|].
    intros Hsame. rewrite !withinBookingHorizon_addDays.
    rewrite (addDays_offsets now 14) by discriminate. rewrite Hsame.
    split; [split; lia | apply not_true_is_false; rewrite withinBookingHorizon_addDays;
                         rewrite (addDays_offsets now 14) by discriminate; lia].
  - intros now slotStart. split; [apply meetsCancellationNotice_iff|].
    apply not_true_is_false. rewrite meetsCancellationNotice_iff. lia.
  - intros now slotStart slotEnd. rewrite validateBookingSlot_cases.
    destruct (TimeUtils.meetsLeadTime now slotStart); cbn [negb];
      [|split; [discriminate | intros [? _]; discriminate]].
    destruct (TimeUtils.withinBookingHorizon now slotStart); cbn [negb];
      [|split; [discriminate | intros (_ & ? & _); discriminate]].
    destruct (Z.ltb_spec (slotEnd - slotStart) (15 * msPerMinute));
      [split; [discriminate | intros (_ & _ & _ & ? & _); lia]|].
    destruct (Z.ltb_spec (480 * msPerMinute) (slotEnd - slotStart));
      [split; [discriminate | intros (_ & _ & _ & _ & ?); lia]|].
    split; [intros _ | reflexivity].
    repeat split; unfold msPerMinute in *; lia.
  - intros now slotStart Hlead Hhorizon.
    rewrite !validateBookingSlot_cases, Hlead, Hhorizon. cbn [negb].
    repeat split.
    + destruct (Z.ltb_spec (slotStart + 15 * msPerMinute - slotStart) (15 * msPerMinute));
        [lia|].
      destruct (Z.ltb_spec (480 * msPerMinute) (slotStart + 15 * msPerMinute - slotStart));
        [unfold msPerMinute in *; lia | reflexivity].
    + destruct (Z.ltb_spec (slotStart + 14 * msPerMinute + 59 * msPerSecond - slotStart)
                           (15 * msPerMinute));
        [reflexivity | unfold msPerMinute, msPerSecond in *; lia].
    + destruct (Z.ltb_spec (slotStart + 480 * msPerMinute - slotStart) (15 * msPerMinute));
        [unfold msPerMinute in *; lia|].
      destruct (Z.ltb_spec (480 * msPerMinute) (slotStart + 480 * msPerMinute - slotStart));
        [lia | reflexivity].
    + destruct (Z.ltb_spec (slotStart + 481 * msPerMinute - slotStart) (15 * msPerMinute));
        [unfold msPerMinute in *; lia|].
      destruct (Z.ltb_spec (480 * msPerMinute) (slotStart + 481 * msPerMinute - slotStart));
        [reflexivity | unfold msPerMinute in *; lia].
Qed.

Lemma validateBookingSlot_time_values `{Server} (now slotStart slotEnd : Date) :
  InvalidDates.validateBookingSlot now (Some slotStart) (Some slotEnd)
  = BookingUtils.validateBookingSlot now slotStart slotEnd.
Proof. reflexivity. Qed.

Lemma validateBookingSlot_never_last `{Server} (now slotStart slotEnd : Date) :
  BookingUtils.validateBookingSlot now slotStart slotEnd
  <> Throw "Slot end time must be after start time".
Proof.
  rewrite validateBookingSlot_cases.
  destruct (negb _); [discriminate|].
  destruct (negb _); [discriminate|].
  destruct (_ <? _); [discriminate|].
  destruct (_ <? _); discriminate.
Qed.

(** C10. In [validateBookingSlot], for two Dates that hold time values,
    once the minimum-duration check has passed the end is strictly after
    the start, so the last branch (the error "Slot end time must be after
    start time") is not taken, and an interval whose end is not after its
    start is refused by an earlier check, by the minimum-duration check when
    the lead-time and horizon checks pass.  The last branch is taken exactly
    when the start passes the lead-time and horizon checks and the end is an
    Invalid Date: the duration is then [NaN] and passes both duration
    tests.  POST /book answers that error with 400. *)
Theorem end_after_start_branch `{Server} (now : Date) (slotStart slotEnd : option Date) :
  (InvalidDates.validateBookingSlot now slotStart slotEnd
   = Throw "Slot end time must be after start time"
   <-> InvalidDates.meetsLeadTime now slotStart = true
       /\ InvalidDates.withinBookingHorizon now slotStart = true
       /\ slotEnd = None)
  /\ (forall s e : Date,
        slotStart = Some s -> slotEnd = Some e ->
        InvalidDates.validateBookingSlot now slotStart slotEnd
        = BookingUtils.validateBookingSlot now s e
        /\ (BookingUtils.Qlt_bool ((e - s) # 60000) (15 # 1) = false
            -> isAfter e s = true)
        /\ BookingUtils.validateBookingSlot now s e
           <> Throw "Slot end time must be after start time"
        /\ (isAfter e s = false ->
            exists message,
              BookingUtils.validateBookingSlot now s e = Throw message
              /\ message <> "Slot end time must be after start time"%string
              /\ (TimeUtils.meetsLeadTime now s = true ->
                  TimeUtils.withinBookingHorizon now s = true ->
                  message = "Slot duration must be at least 15 minutes"%string)))
  /\ BookingRoute.bookCatch "Slot end time must be after start time"
     = json 400 (ErrorBody "Slot end time must be after start time").
Proof.
  split; [|split].
  - destruct slotStart as [s|], slotEnd as [e|].
    + rewrite validateBookingSlot_time_values.
      split; [intros Hlast; elim (validateBookingSlot_never_last _ _ _ Hlast)|].
      intros (_ & _ & ?). discriminate.
    + unfold InvalidDates.validateBookingSlot.
      destruct (InvalidDates.meetsLeadTime now (Some s)); cbn [negb];
        [|split; [discriminate | intros [? _]; discriminate]].
      destruct (InvalidDates.withinBookingHorizon now (Some s)); cbn [negb];
        [|split; [discriminate | intros (_ & ? & _); discriminate]].
      cbn. split; [intros _; repeat split | reflexivity].
    + cbn. split; [discriminate | intros [? _]; discriminate].
    + cbn. split; [discriminate | intros [? _]; discriminate].
  - intros s e -> ->. split; [apply validateBookingSlot_time_values|].
    split; [|split; [apply validateBookingSlot_never_last|]].
    + intros Hmin. apply isAfter_lt.
      assert (~ e - s < 15 * msPerMinute)
        by (rewrite <- duration_below_15, Hmin; discriminate).
      unfold msPerMinute in *. lia.
    + intros Hnot. apply isAfter_ge in Hnot. rewrite validateBookingSlot_cases.
      destruct (TimeUtils.meetsLeadTime now s); cbn [negb].
      * destruct (TimeUtils.withinBookingHorizon now s); cbn [negb].
        -- destruct (Z.ltb_spec (e - s) (15 * msPerMinute));
             [|unfold msPerMinute in *; lia].
           eexists. split; [reflexivity|]. split; [discriminate | reflexivity].
        -- eexists. split; [reflexivity|]. split; [discriminate | discriminate].
      * eexists. split; [reflexivity|]. split; [discriminate | discriminate].
  - reflexivity.
Qed.

(** ** The overlap query of POST /book *)

(** C7. For a stored row and a requested interval that both end strictly
    after they start, the interval condition of the SQL overlap query
    selects the row exactly when [slotsOverlap], the half-open test of the
    slot generator, holds of the two intervals. *)
Theorem sql_overlap_is_half_open (b : Db.Booking) (userId : Z) (slotStart slotEnd : Date) :
  Db.slot_start b < Db.slot_end b ->
  slotStart < slotEnd ->
  Db.overlapCondition userId slotStart slotEnd b
  = (Db.user_id b =? userId)
    && Db.Status_eqb (Db.status b) Db.confirmed
    && TimeUtils.slotsOverlap (slotStart, slotEnd) (Db.slot_start b, Db.slot_end b).
Proof.
  intros Hrow Hreq. unfold Db.overlapCondition. f_equal.
  apply eq_true_iff_eq.
  rewrite slotsOverlap_iff, !orb_true_iff, !andb_true_iff,
    !Z.leb_le, !Z.ltb_lt.
  lia.
Qed.

(** ** Slot generation *)

Lemma isAvailable_spec `{Platform} (now : Date) (bookedSlots : list BookedSlot)
    (slotStart slotEnd : Date) :
  isAvailable now bookedSlots slotStart slotEnd = true
  <-> specAvailability now bookedSlots slotStart slotEnd.
Proof.
  unfold isAvailable, specAvailability, overlapsAny.
  rewrite !andb_true_iff, meetsLeadTime_iff, withinBookingHorizon_iff, negb_true_iff.
  split.
  - intros [[Hlead Hhorizon] Hfree]. repeat split; try assumption.
    intros (r & Hin & Hov).
    assert (Hex : existsb (fun booking =>
              TimeUtils.slotsOverlap (slotStart, slotEnd)
                (BookedSlot.slot_start booking, BookedSlot.slot_end booking))
              bookedSlots = true).
    { apply existsb_exists. exists r. split; [assumption|].
      apply slotsOverlap_iff. lia. }
    congruence.
  - intros (Hlead & Hhorizon & Hfree). repeat split; try assumption.
    apply not_true_is_false. intros Hex. apply existsb_exists in Hex.
    destruct Hex as (r & Hin & Hov). apply slotsOverlap_iff in Hov.
    apply Hfree. exists r. split; [assumption | lia].
Qed.

Lemma slotLoop_unfold `{Server} (fuel : nat) (now : Date) (bookedSlots : list BookedSlot)
    (intervalMinutes : Z) (slotEnd currentSlot : Date) :
  TimeUtils.slotLoop (S fuel) now bookedSlots intervalMinutes slotEnd currentSlot =
    if currentSlot <? slotEnd then
      if slotEnd <? currentSlot + intervalMinutes * msPerMinute then Some []
      else
        option_map
          (cons {| start := currentSlot;
                   end_ := currentSlot + intervalMinutes * msPerMinute;
                   available := isAvailable now bookedSlots currentSlot
                                  (currentSlot + intervalMinutes * msPerMinute) |})
          (TimeUtils.slotLoop fuel now bookedSlots intervalMinutes slotEnd
             (currentSlot + intervalMinutes * msPerMinute))
    else Some [].
Proof. reflexivity. Qed.

(** Whatever the loop returns is made of whole steps from the cursor that
    end at or before [slotEnd], each carrying the flag of the loop body. *)
Lemma slotLoop_sound `{Server} (now : Date) (bookedSlots : list BookedSlot)
    (intervalMinutes : Z) (slotEnd : Date) :
  forall (fuel : nat) (currentSlot : Date) (slots : list TimeSlot),
    TimeUtils.slotLoop fuel now bookedSlots intervalMinutes slotEnd currentSlot = Some slots ->
    forall s, In s slots ->
      exists k : nat,
        start s = currentSlot + Z.of_nat k * (intervalMinutes * msPerMinute)
        /\ end_ s = start s + intervalMinutes * msPerMinute
        /\ end_ s <= slotEnd
        /\ start s < slotEnd
        /\ available s = isAvailable now bookedSlots (start s) (end_ s).
Proof.
  induction fuel as [|fuel IH]; intros currentSlot slots Hrun s Hin.
  - discriminate.
  - rewrite slotLoop_unfold in Hrun.
    destruct (Z.ltb_spec currentSlot slotEnd) as [Hbefore|Hdone];
      [|injection Hrun as <-; destruct Hin].
    destruct (Z.ltb_spec slotEnd (currentSlot + intervalMinutes * msPerMinute))
      as [Hover|Hfits]; [injection Hrun as <-; destruct Hin|].
    destruct (TimeUtils.slotLoop fuel now bookedSlots intervalMinutes slotEnd
                (currentSlot + intervalMinutes * msPerMinute)) as [rest|] eqn:Hrest;
      [|discriminate].
    cbn [option_map] in Hrun. injection Hrun as <-.
    destruct Hin as [<-|Hin].
    + exists 0%nat. cbn [start end_ available]. repeat split; lia.
    + destruct (IH _ _ Hrest s Hin) as (k & Hstart & Hend & Hle & Hlt & Hflag).
      exists (S k). repeat split; try assumption. lia.
Qed.

Lemma slotCount_zero (slotStart slotEnd step : Z) :
  0 < step -> slotCount slotStart slotEnd step = 0%nat -> slotEnd < slotStart + step.
Proof.
  unfold slotCount. intros Hstep Hzero.
  assert (Hq : (slotEnd - slotStart) / step <= 0) by lia.
  pose proof (Z.div_mod (slotEnd - slotStart) step ltac:(lia)) as Hdm.
  pose proof (Z.mod_pos_bound (slotEnd - slotStart) step Hstep) as Hr.
  nia.
Qed.

Lemma slotCount_succ (slotStart slotEnd step : Z) (n : nat) :
  0 < step -> slotCount slotStart slotEnd step = S n ->
  slotStart + step <= slotEnd /\ slotCount (slotStart + step) slotEnd step = n.
Proof.
  unfold slotCount. intros Hstep Hsucc.
  assert (Hq : (slotEnd - slotStart) / step = Z.of_nat (S n)) by lia.
  pose proof (Z.div_mod (slotEnd - slotStart) step ltac:(lia)) as Hdm.
  pose proof (Z.mod_pos_bound (slotEnd - slotStart) step Hstep) as Hr.
  rewrite Hq in Hdm.
  split; [nia|].
  replace (slotEnd - (slotStart + step)) with ((slotEnd - slotStart) + (-1) * step) by lia.
  rewrite Z.div_add by lia. lia.
Qed.

(** With a positive interval the loop ends, and it returns [slotCount]
    slots laid end to end from the cursor. *)
Lemma slotLoop_closed `{Server} (now : Date) (bookedSlots : list BookedSlot)
    (intervalMinutes : Z) (slotEnd : Date) :
  0 < intervalMinutes ->
  forall (n fuel : nat) (currentSlot : Date),
    slotCount currentSlot slotEnd (intervalMinutes * msPerMinute) = n ->
    (n < fuel)%nat ->
    TimeUtils.slotLoop fuel now bookedSlots intervalMinutes slotEnd currentSlot
    = Some (slotsFrom now bookedSlots (intervalMinutes * msPerMinute) n currentSlot).
Proof.
  intros Hpos.
  assert (Hstep : 0 < intervalMinutes * msPerMinute) by (unfold msPerMinute; lia).
  induction n as [|n IH]; intros fuel currentSlot Hcount Hfuel;
    (destruct fuel as [|fuel]; [lia|]); rewrite slotLoop_unfold.
  - apply slotCount_zero in Hcount; [|assumption].
    destruct (Z.ltb_spec currentSlot slotEnd); [|reflexivity].
    destruct (Z.ltb_spec slotEnd (currentSlot + intervalMinutes * msPerMinute));
      [reflexivity | lia].
  - apply slotCount_succ in Hcount; [|assumption]. destruct Hcount as [Hfits Hcount].
    destruct (Z.ltb_spec currentSlot slotEnd); [|lia].
    destruct (Z.ltb_spec slotEnd (currentSlot + intervalMinutes * msPerMinute)); [lia|].
    rewrite (IH fuel _ Hcount) by lia. reflexivity.
Qed.

Lemma slotsFrom_length `{Server} (now : Date) (bookedSlots : list BookedSlot) (step : Z) :
  forall (n : nat) (cursor : Date),
    List.length (slotsFrom now bookedSlots step n cursor) = n.
Proof. induction n as [|n IH]; intros cursor; cbn; [reflexivity | now rewrite IH]. Qed.

Lemma slotsFrom_nth `{Server} (now : Date) (bookedSlots : list BookedSlot) (step : Z) :
  forall (n k : nat) (cursor : Date),
    (k < n)%nat ->
    nth_error (slotsFrom now bookedSlots step n cursor) k
    = Some {| start := cursor + Z.of_nat k * step;
              end_ := cursor + Z.of_nat k * step + step;
              available := isAvailable now bookedSlots (cursor + Z.of_nat k * step)
                             (cursor + Z.of_nat k * step + step) |}.
Proof.
  induction n as [|n IH]; intros k cursor Hk; [lia|].
  destruct k as [|k]; cbn [slotsFrom nth_error].
  - replace (cursor + Z.of_nat 0 * step) with cursor by lia. reflexivity.
  - rewrite IH by lia.
    replace (cursor + step + Z.of_nat k * step) with (cursor + Z.of_nat (S k) * step) by lia.
    reflexivity.
Qed.


(** *** The loop over the rules of the day and the final sort *)

Lemma insertByStart_In (x s : TimeSlot) (l : list TimeSlot) :
  In s (TimeUtils.insertByStart x l) <-> s = x \/ In s l.
Proof.
  induction l as [|y l IH]; cbn [TimeUtils.insertByStart].
  - cbn. intuition congruence.
  - destruct (start x <=? start y); cbn [In] in *; [intuition congruence|].
    rewrite IH. intuition congruence.
Qed.

Lemma sortByStart_In (s : TimeSlot) (l : list TimeSlot) :
  In s (TimeUtils.sortByStart l) <-> In s l.
Proof.
  induction l as [|x l IH]; cbn [TimeUtils.sortByStart fold_right]; [reflexivity|].
  fold (TimeUtils.sortByStart l). rewrite insertByStart_In, IH. cbn. intuition congruence.
Qed.

Lemma rulesLoop_sound `{Server} (fuel : nat) (now date : Date)
    (bookedSlots : list BookedSlot) :
  forall (rulesForDay : list AvailabilityRule) (acc slots : list TimeSlot),
    TimeUtils.rulesLoop fuel now date rulesForDay bookedSlots acc = Some (Ok slots) ->
    forall s, In s slots ->
      In s acc
      \/ exists rule, In rule rulesForDay /\ emittedBy now date bookedSlots rule s.
Proof.
  induction rulesForDay as [|rule rest IH]; intros acc slots Hrun s Hin;
    cbn [TimeUtils.rulesLoop] in Hrun.
  - injection Hrun as <-. left. assumption.
  - destruct (TimeUtils.timeStringToUTC (start_time rule) date (timezone rule))
      as [resolvedStart|] eqn:Hs; [|discriminate].
    destruct (TimeUtils.timeStringToUTC (end_time rule) date (timezone rule))
      as [resolvedEnd|] eqn:He; [|discriminate].
    assert (Hlater : forall acc',
               TimeUtils.rulesLoop fuel now date rest bookedSlots acc' = Some (Ok slots) ->
               (forall s', In s' acc' -> In s' acc
                  \/ emittedBy now date bookedSlots rule s') ->
               In s acc
               \/ exists rule', In rule' (rule :: rest)
                                /\ emittedBy now date bookedSlots rule' s).
    { intros acc' Hrest Hacc'.
      destruct (IH _ _ Hrest s Hin) as [Hold|(rule' & Hin' & Hem)].
      - destruct (Hacc' _ Hold) as [?|?]; [left; assumption|].
        right. exists rule. split; [left; reflexivity | assumption].
      - right. exists rule'. split; [right; assumption | assumption]. }
    destruct resolvedStart as [slotStart|];
      [|apply (Hlater acc Hrun); intros; left; assumption].
    destruct resolvedEnd as [slotEnd|];
      [|apply (Hlater acc Hrun); intros; left; assumption].
    destruct (TimeUtils.slotLoop fuel now bookedSlots (interval_minutes rule)
                slotEnd slotStart) as [pushed|] eqn:Hloop; [|discriminate].
    apply (Hlater _ Hrun). intros s' Hin'.
    apply in_app_or in Hin'. destruct Hin' as [?|Hnew]; [left; assumption|].
    right. destruct (slotLoop_sound _ _ _ _ _ _ _ Hloop s' Hnew)
      as (k & Hstart & Hend & Hle & _ & Hflag).
    exists slotStart, slotEnd, k. repeat split; assumption.
Qed.

Lemma generateSlotsForDate_sound `{Server} (fuel : nat) (now date : Date)
    (availabilityRules : list AvailabilityRule) (bookedSlots : list BookedSlot)
    (hostTimezone : string) (slots : list TimeSlot) :
  TimeUtils.generateSlotsForDate fuel now date availabilityRules bookedSlots hostTimezone
  = Some (Ok slots) ->
  forall s, In s slots ->
    exists rule, In rule availabilityRules
                 /\ day_of_week rule = getDay date
                 /\ emittedBy now date bookedSlots rule s.
Proof.
  unfold TimeUtils.generateSlotsForDate. intros Hrun s Hin.
  destruct (TimeUtils.rulesLoop fuel now date _ bookedSlots [])
    as [[unsorted|]|] eqn:Hloop; try discriminate.
  injection Hrun as <-. apply (proj1 (sortByStart_In _ _)) in Hin.
  destruct (rulesLoop_sound _ _ _ _ _ _ _ Hloop s Hin) as [[]|(rule & Hrule & Hem)].
  apply filter_In in Hrule. destruct Hrule as [Hrule Hday].
  exists rule. repeat split; [assumption | apply Z.eqb_eq; assumption | assumption].
Qed.

(** What the loop returns is what was to be emitted, whatever the fuel it
    was given. *)
Lemma slotLoop_exact `{Server} (now : Date) (bookedSlots : list BookedSlot)
    (intervalMinutes : Z) (slotEnd : Date) :
  0 < intervalMinutes ->
  forall (fuel : nat) (currentSlot : Date) (slots : list TimeSlot),
    TimeUtils.slotLoop fuel now bookedSlots intervalMinutes slotEnd currentSlot = Some slots ->
    slots = slotsFrom now bookedSlots (intervalMinutes * msPerMinute)
              (slotCount currentSlot slotEnd (intervalMinutes * msPerMinute)) currentSlot.
Proof.
  intros Hpos.
  assert (Hstep : 0 < intervalMinutes * msPerMinute) by (unfold msPerMinute; lia).
  induction fuel as [|fuel IH]; intros currentSlot slots Hrun; [discriminate|].
  rewrite slotLoop_unfold in Hrun. unfold slotCount.
  destruct (Z.ltb_spec currentSlot slotEnd) as [Hbefore|Hpast].
  - destruct (Z.ltb_spec slotEnd (currentSlot + intervalMinutes * msPerMinute))
      as [Hover|Hfits].
    + injection Hrun as <-.
      rewrite Z.div_small by lia. reflexivity.
    + destruct (TimeUtils.slotLoop fuel now bookedSlots intervalMinutes slotEnd _)
        as [rest|] eqn:Hrest; [|discriminate].
      cbn [option_map] in Hrun. injection Hrun as <-.
      apply IH in Hrest. unfold slotCount in Hrest.
      replace (slotEnd - currentSlot)
        with (slotEnd - (currentSlot + intervalMinutes * msPerMinute)
              + 1 * (intervalMinutes * msPerMinute)) by lia.
      rewrite Z.div_add by lia.
      assert (0 <= (slotEnd - (currentSlot + intervalMinutes * msPerMinute))
                   / (intervalMinutes * msPerMinute))
        by (apply Z.div_pos; lia).
      replace (Z.to_nat ((slotEnd - (currentSlot + intervalMinutes * msPerMinute))
                         / (intervalMinutes * msPerMinute) + 1))
        with (S (Z.to_nat ((slotEnd - (currentSlot + intervalMinutes * msPerMinute))
                           / (intervalMinutes * msPerMinute)))) by lia.
      cbn [slotsFrom]. f_equal. exact Hrest.
  - injection Hrun as <-.
    assert ((slotEnd - currentSlot) / (intervalMinutes * msPerMinute) <= 0).
    { apply Z.div_le_upper_bound; lia. }
    replace (Z.to_nat _) with 0%nat by lia. reflexivity.
Qed.

Lemma rulesLoop_exact `{Server} (fuel : nat) (now date : Date)
    (bookedSlots : list BookedSlot) :
  forall (rulesForDay : list AvailabilityRule) (acc slots : list TimeSlot),
    (forall rule, In rule rulesForDay -> 0 < interval_minutes rule) ->
    TimeUtils.rulesLoop fuel now date rulesForDay bookedSlots acc = Some (Ok slots) ->
    slots = (acc ++ flat_map (ruleSlots now date bookedSlots) rulesForDay)%list.
Proof.
  induction rulesForDay as [|rule rest IH]; intros acc slots Hpos Hrun;
    cbn [TimeUtils.rulesLoop flat_map] in *.
  - injection Hrun as <-. rewrite app_nil_r. reflexivity.
  - assert (Hrest : forall r, In r rest -> 0 < interval_minutes r)
      by (intros r Hr; apply Hpos; right; assumption).
    unfold ruleSlots at 1.
    destruct (TimeUtils.timeStringToUTC (start_time rule) date (timezone rule))
      as [resolvedStart|message]; [|discriminate].
    destruct (TimeUtils.timeStringToUTC (end_time rule) date (timezone rule))
      as [resolvedEnd|message]; [|discriminate].
    destruct resolvedStart as [slotStart|]; [|exact (IH _ _ Hrest Hrun)].
    destruct resolvedEnd as [slotEnd|]; [|exact (IH _ _ Hrest Hrun)].
    destruct (TimeUtils.slotLoop fuel now bookedSlots (interval_minutes rule) slotEnd
                slotStart) as [pushed|] eqn:Hloop; [|discriminate].
    apply slotLoop_exact in Hloop; [|apply Hpos; left; reflexivity].
    rewrite (IH _ _ Hrest Hrun), Hloop, app_assoc. reflexivity.
Qed.

Lemma sortByStart_permutation (l : list TimeSlot) :
  Permutation l (TimeUtils.sortByStart l).
Proof.
  induction l as [|x l IH]; cbn [TimeUtils.sortByStart fold_right]; [constructor|].
  fold (TimeUtils.sortByStart l).
  apply perm_trans with (x :: TimeUtils.sortByStart l); [apply perm_skip, IH|].
  generalize (TimeUtils.sortByStart l). clear. intros l.
  induction l as [|y l IH]; cbn [TimeUtils.insertByStart]; [apply Permutation_refl|].
  destruct (start x <=? start y); [apply Permutation_refl|].
  apply perm_trans with (y :: x :: l); [apply perm_swap | apply perm_skip, IH].
Qed.

(** C6. For a rule with a positive interval the loop ends; it emits the
    slots [cursor, cursor + interval) for the cursors start, start + interval,
    start + 2 interval, ... for which cursor + interval <= resolved end, and
    no other: every emitted slot is exactly one interval long and ends at or
    before the resolved end, and a slot that would run past the end is not
    emitted.  What [generateSlotsForDate] returns is, rearranged by start,
    exactly those slots for each rule of the weekday of the date, counted
    from the resolved start of the rule: each of them is returned, nothing
    else is, and with rules of positive intervals the generator returns. *)
Theorem slot_stepping `{Server} (now : Date) (bookedSlots : list BookedSlot) :
  (forall (intervalMinutes : Z) (slotStart slotEnd : Date),
      0 < intervalMinutes ->
      exists slots : list TimeSlot,
        (forall fuel : nat,
            (slotCount slotStart slotEnd (intervalMinutes * msPerMinute) < fuel)%nat ->
            TimeUtils.slotLoop fuel now bookedSlots intervalMinutes slotEnd slotStart
            = Some slots)
        /\ (forall k : nat,
               (k < List.length slots)%nat ->
               exists s, nth_error slots k = Some s
                         /\ start s = slotStart + Z.of_nat k * (intervalMinutes * msPerMinute)
                         /\ end_ s = start s + intervalMinutes * msPerMinute)
        /\ (forall s, In s slots ->
               end_ s - start s = intervalMinutes * msPerMinute /\ end_ s <= slotEnd)
        /\ (forall k : nat,
               (k < List.length slots)%nat
               <-> slotStart + Z.of_nat k * (intervalMinutes * msPerMinute)
                   + intervalMinutes * msPerMinute <= slotEnd))
  /\ (forall (fuel : nat) (date : Date) (availabilityRules : list AvailabilityRule)
             (hostTimezone : string) (out : list TimeSlot),
         (forall rule, In rule availabilityRules -> 0 < interval_minutes rule) ->
         TimeUtils.generateSlotsForDate fuel now date availabilityRules bookedSlots
           hostTimezone = Some (Ok out) ->
         Permutation
           (flat_map (ruleSlots now date bookedSlots)
              (filter (fun rule => day_of_week rule =? getDay date) availabilityRules))
           out
         /\ (forall s : TimeSlot,
                In s out ->
                exists (rule : AvailabilityRule) (ruleStart ruleEnd : Date) (k : nat),
                  In rule availabilityRules
                  /\ day_of_week rule = getDay date
                  /\ TimeUtils.timeStringToUTC (start_time rule) date (timezone rule)
                     = Ok (Some ruleStart)
                  /\ TimeUtils.timeStringToUTC (end_time rule) date (timezone rule)
                     = Ok (Some ruleEnd)
                  /\ start s = ruleStart + Z.of_nat k * (interval_minutes rule * msPerMinute)
                  /\ end_ s - start s = interval_minutes rule * msPerMinute
                  /\ end_ s <= ruleEnd)
         /\ (forall (rule : AvailabilityRule) (ruleStart ruleEnd : Date) (k : nat),
                In rule availabilityRules ->
                day_of_week rule = getDay date ->
                TimeUtils.timeStringToUTC (start_time rule) date (timezone rule)
                = Ok (Some ruleStart) ->
                TimeUtils.timeStringToUTC (end_time rule) date (timezone rule)
                = Ok (Some ruleEnd) ->
                ruleStart + Z.of_nat k * (interval_minutes rule * msPerMinute)
                + interval_minutes rule * msPerMinute <= ruleEnd ->
                exists s : TimeSlot,
                  In s out
                  /\ start s
                     = ruleStart + Z.of_nat k * (interval_minutes rule * msPerMinute)
                  /\ end_ s = start s + interval_minutes rule * msPerMinute))
  /\ (forall (date : Date) (availabilityRules : list AvailabilityRule)
             (hostTimezone : string),
         (forall rule, In rule availabilityRules -> 0 < interval_minutes rule) ->
         (forall rule, In rule availabilityRules ->
            isOk (TimeUtils.timeStringToUTC (start_time rule) date (timezone rule)) = true
            /\ isOk (TimeUtils.timeStringToUTC (end_time rule) date (timezone rule)) = true) ->
         exists (n : nat) (out : list TimeSlot),
           forall fuel : nat, (n <= fuel)%nat ->
             TimeUtils.generateSlotsForDate fuel now date availabilityRules bookedSlots
               hostTimezone = Some (Ok out)).
Proof.
  assert (Hcount : forall (slotStart slotEnd step : Z) (k : nat),
             0 < step ->
             ((k < slotCount slotStart slotEnd step)%nat
              <-> slotStart + Z.of_nat k * step + step <= slotEnd)).
  { intros slotStart slotEnd step k Hstep. unfold slotCount.
    pose proof (Z.div_mod (slotEnd - slotStart) step ltac:(lia)) as Hdm.
    pose proof (Z.mod_pos_bound (slotEnd - slotStart) step Hstep) as Hr.
    split; intros Hk; [nia|].
    assert (Z.of_nat k < (slotEnd - slotStart) / step) by nia.
    lia. }
  split; [|split].
  - intros intervalMinutes slotStart slotEnd Hpos.
    set (step := intervalMinutes * msPerMinute).
    assert (Hstep : 0 < step) by (unfold step, msPerMinute; lia).
    set (n := slotCount slotStart slotEnd step).
    exists (slotsFrom now bookedSlots step n slotStart).
    assert (Hrun : forall fuel : nat, (n < fuel)%nat ->
              TimeUtils.slotLoop fuel now bookedSlots intervalMinutes slotEnd slotStart
              = Some (slotsFrom now bookedSlots step n slotStart))
      by (intros fuel Hfuel; apply slotLoop_closed; [assumption | reflexivity | assumption]).
    rewrite slotsFrom_length.
    split; [exact Hrun|]. split; [|split].
    + intros k Hk. eexists. split; [apply slotsFrom_nth; assumption|].
      cbn [start end_]. split; reflexivity.
    + intros s Hin.
      destruct (slotLoop_sound _ _ _ _ _ _ _ (Hrun (S n) (Nat.lt_succ_diag_r n)) s Hin)
        as (k & Hstart & Hend & Hle & _).
      fold step in Hend. split; [lia | assumption].
    + intros k. apply Hcount. assumption.
  - intros fuel date availabilityRules hostTimezone out Hpos Hrun.
    split; [|split].
    + unfold TimeUtils.generateSlotsForDate in Hrun. cbv zeta in Hrun.
      destruct (TimeUtils.rulesLoop fuel now date _ bookedSlots [])
        as [[pushed|message]|] eqn:Hloop; try discriminate.
      injection Hrun as <-.
      apply rulesLoop_exact in Hloop;
        [|intros rule Hrule; apply filter_In in Hrule; apply Hpos, Hrule].
      cbn [app] in Hloop. rewrite <- Hloop. apply sortByStart_permutation.
    + intros s Hin.
      destruct (generateSlotsForDate_sound _ _ _ _ _ _ _ Hrun s Hin)
        as (rule & Hrule & Hday & ruleStart & ruleEnd & k & Hs & He & Hstart & Hend
            & Hle & _).
      exists rule, ruleStart, ruleEnd, k. repeat split; try assumption. lia.
    + intros rule ruleStart ruleEnd k Hrule Hday Hs He Hfits.
      unfold TimeUtils.generateSlotsForDate in Hrun. cbv zeta in Hrun.
      destruct (TimeUtils.rulesLoop fuel now date _ bookedSlots [])
        as [[pushed|message]|] eqn:Hloop; try discriminate.
      injection Hrun as <-.
      apply rulesLoop_exact in Hloop;
        [|intros r Hr; apply filter_In in Hr; apply Hpos, Hr].
      cbn [app] in Hloop. subst pushed.
      assert (Hstep : 0 < interval_minutes rule * msPerMinute)
        by (specialize (Hpos rule Hrule); unfold msPerMinute; lia).
      apply Hcount in Hfits; [|assumption].
      eexists. split.
      * apply sortByStart_In. apply in_flat_map. exists rule. split.
        -- apply filter_In. split; [assumption | apply Z.eqb_eq; assumption].
        -- unfold ruleSlots. rewrite Hs, He.
           apply (nth_error_In _ k). apply slotsFrom_nth. exact Hfits.
      * cbn [start end_]. split; reflexivity.
  - intros date availabilityRules hostTimezone Hpos Hparse.
    unfold TimeUtils.generateSlotsForDate. cbv zeta.
    assert (Hloop : forall rules : list AvailabilityRule,
               (forall rule, In rule rules -> In rule availabilityRules) ->
               exists n : nat, forall acc : list TimeSlot,
                 exists pushed : list TimeSlot,
                   forall fuel : nat, (n <= fuel)%nat ->
                     TimeUtils.rulesLoop fuel now date rules bookedSlots acc
                     = Some (Ok pushed)).
    { induction rules as [|rule rest IH]; intros Hsub.
      - exists 0%nat. intros acc. exists acc. reflexivity.
      - destruct IH as (nrest & Hrest); [intros r Hr; apply Hsub; right; assumption|].
        cbn [TimeUtils.rulesLoop].
        destruct (Hparse rule (Hsub rule (or_introl eq_refl))) as [Hstart Hend].
        destruct (TimeUtils.timeStringToUTC (start_time rule) date (timezone rule))
          as [resolvedStart|message]; [|discriminate].
        destruct (TimeUtils.timeStringToUTC (end_time rule) date (timezone rule))
          as [resolvedEnd|message]; [|discriminate].
        destruct resolvedStart as [slotStart|]; [|exists nrest; exact Hrest].
        destruct resolvedEnd as [slotEnd|]; [|exists nrest; exact Hrest].
        exists (Nat.max (S (slotCount slotStart slotEnd
                              (interval_minutes rule * msPerMinute))) nrest).
        intros acc.
        destruct (Hrest (acc ++ slotsFrom now bookedSlots
                                  (interval_minutes rule * msPerMinute)
                                  (slotCount slotStart slotEnd
                                     (interval_minutes rule * msPerMinute))
                                  slotStart)%list) as (pushed & Hpushed).
        exists pushed. intros fuel Hfuel.
        rewrite (slotLoop_closed now bookedSlots (interval_minutes rule) slotEnd
                   (Hpos rule (Hsub rule (or_introl eq_refl))) _ fuel slotStart eq_refl)
          by lia.
        apply Hpushed. lia. }
    destruct (Hloop (filter (fun rule => day_of_week rule =? getDay date) availabilityRules))
      as (n & Hn); [intros rule Hrule; apply filter_In in Hrule; apply Hrule|].
    destruct (Hn []) as (pushed & Hpushed).
    exists n, (TimeUtils.sortByStart pushed). intros fuel Hfuel.
    rewrite (Hpushed fuel Hfuel). reflexivity.
Qed.


(** *** One rule, resolved times *)

Lemma slotsFrom_sorted `{Server} (now : Date) (bookedSlots : list BookedSlot) (step : Z) :
  0 <= step ->
  forall (n : nat) (cursor : Date),
    TimeUtils.sortByStart (slotsFrom now bookedSlots step n cursor)
    = slotsFrom now bookedSlots step n cursor.
Proof.
  intros Hstep. induction n as [|n IH]; intros cursor; [reflexivity|].
  cbn [slotsFrom TimeUtils.sortByStart fold_right].
  fold (TimeUtils.sortByStart (slotsFrom now bookedSlots step n (cursor + step))).
  rewrite IH. destruct n as [|n]; [reflexivity|].
  cbn [slotsFrom TimeUtils.insertByStart start].
  destruct (Z.leb_spec cursor (cursor + step)); [reflexivity | lia].
Qed.

Lemma slotsFrom_available `{Server} (now : Date) (bookedSlots : list BookedSlot)
    (step : Z) :
  forall (n : nat) (cursor : Date),
    (forall k : nat, (k < n)%nat ->
        isAvailable now bookedSlots (cursor + Z.of_nat k * step)
          (cursor + Z.of_nat k * step + step) = true) ->
    slotsFrom now bookedSlots step n cursor
    = map (fun k : nat =>
             {| start := cursor + Z.of_nat k * step;
                end_ := cursor + Z.of_nat k * step + step;
                available := true |})
          (seq 0 n).
Proof.
  induction n as [|n IH]; intros cursor Hall; [reflexivity|].
  cbn [slotsFrom seq map]. f_equal.
  - specialize (Hall 0%nat ltac:(lia)).
    replace (cursor + Z.of_nat 0 * step) with cursor in * by lia.
    rewrite Hall. reflexivity.
  - rewrite IH.
    + rewrite <- seq_shift, map_map. apply map_ext. intros k.
      f_equal; lia.
    + intros k Hk. specialize (Hall (S k) ltac:(lia)).
      replace (cursor + step + Z.of_nat k * step)
        with (cursor + Z.of_nat (S k) * step) by lia.
      exact Hall.
Qed.

(** The output for a day on which one rule applies, once its two times
    are resolved. *)
Lemma generateSlotsForDate_one_rule `{Server} (fuel : nat) (now date : Date)
    (rule : AvailabilityRule) (bookedSlots : list BookedSlot) (hostTimezone : string)
    (slotStart slotEnd : Date) :
  day_of_week rule = getDay date ->
  TimeUtils.timeStringToUTC (start_time rule) date (timezone rule) = Ok (Some slotStart) ->
  TimeUtils.timeStringToUTC (end_time rule) date (timezone rule) = Ok (Some slotEnd) ->
  0 < interval_minutes rule ->
  (slotCount slotStart slotEnd (interval_minutes rule * msPerMinute) < fuel)%nat ->
  TimeUtils.generateSlotsForDate fuel now date [rule] bookedSlots hostTimezone
  = Some (Ok (slotsFrom now bookedSlots (interval_minutes rule * msPerMinute)
                (slotCount slotStart slotEnd (interval_minutes rule * msPerMinute))
                slotStart)).
Proof.
  intros Hday Hs He Hpos Hfuel.
  unfold TimeUtils.generateSlotsForDate. cbn [filter].
  rewrite <- Hday, Z.eqb_refl. cbn [TimeUtils.rulesLoop]. rewrite Hs, He.
  rewrite (slotLoop_closed now bookedSlots _ slotEnd Hpos _ fuel slotStart eq_refl Hfuel).
  cbn [app]. rewrite slotsFrom_sorted by (unfold msPerMinute; lia). reflexivity.
Qed.

(** *** Zone conversion away from a transition *)

Lemma zonedTimeToUtc_settled `{Server} (date : Date) (timezone : string) (off : Z) :
  zoneOffset timezone (toLocal (toLocal date)) = off ->
  zoneOffset timezone (toLocal date - off) = off ->
  zonedTimeToUtc date timezone = toLocal date - off.
Proof.
  intros Hfirst Hguess.
  unfold zonedTimeToUtc, tzParseTimezone, fixOffset, calcOffset, toUtcDate.
  cbv zeta. rewrite Hfirst, Hguess, Z.eqb_refl. lia.
Qed.

Lemma setHours_parseISO_date_any `{Server} (day h m : Z) :
  localTimeExists (day * msPerDay) ->
  localTimeExists (wallTime day h m) ->
  toLocal (setHours (parseISO_date day) h m) = wallTime day h m.
Proof.
  intros Hday Htime. unfold setHours, localDay, parseISO_date.
  unfold localTimeExists in Hday. rewrite Hday.
  rewrite Z.div_mul by discriminate. exact Htime.
Qed.

Lemma formatInTimeZone_HHmm_shown `{Server} (t : Date) (timezone : string) (day h m : Z) :
  0 <= h < 24 -> 0 <= m < 60 ->
  t + zoneOffset timezone t = day * msPerDay + h * msPerHour + m * msPerMinute ->
  formatInTimeZone_HHmm t timezone = (twoDigits h ++ ":" ++ twoDigits m)%string.
Proof.
  intros Hh Hm Hwall. unfold formatInTimeZone_HHmm, wallClock. rewrite Hwall.
  cbv zeta.
  assert (Hhour : (day * msPerDay + h * msPerHour + m * msPerMinute) mod msPerDay
                  / msPerHour = h).
  { replace (day * msPerDay + h * msPerHour + m * msPerMinute)
      with (h * msPerHour + m * msPerMinute + day * msPerDay) by lia.
    rewrite Z.mod_add by (unfold msPerDay; lia).
    rewrite Z.mod_small by (unfold msPerDay, msPerHour, msPerMinute; lia).
    rewrite Z.add_comm, Z.div_add by (unfold msPerHour; lia).
    rewrite Z.div_small by (unfold msPerHour, msPerMinute; lia). lia. }
  assert (Hmin : (day * msPerDay + h * msPerHour + m * msPerMinute) mod msPerHour
                 / msPerMinute = m).
  { replace (day * msPerDay + h * msPerHour + m * msPerMinute)
      with (m * msPerMinute + (day * 24 + h) * msPerHour)
      by (unfold msPerDay, msPerHour; lia).
    rewrite Z.mod_add by (unfold msPerHour; lia).
    rewrite Z.mod_small by (unfold msPerHour, msPerMinute; lia).
    rewrite Z.div_mul by (unfold msPerMinute; lia). reflexivity. }
  rewrite Hhour, Hmin. reflexivity.
Qed.

Lemma zonedTimeToUtc_stable `{Platform} (date : Date) (timezone : string) (off : Z) :
  tzOffset timezone (toLocal date + localOffset) = off ->
  tzOffset timezone (toLocal date - off) = off ->
  zonedTimeToUtc date timezone = toLocal date - off.
Proof.
  intros Hfirst Hguess.
  unfold zonedTimeToUtc, tzParseTimezone, fixOffset, calcOffset, toUtcDate.
  fixed_offset. cbv zeta. rewrite Hfirst, Hguess, Z.eqb_refl. lia.
Qed.

Lemma setHours_parseISO_date `{Platform} (day h m : Z) :
  toLocal (setHours (parseISO_date day) h m)
  = day * msPerDay + h * msPerHour + m * msPerMinute.
Proof.
  unfold setHours, localDay, parseISO_date. fixed_offset.
  replace (day * msPerDay - localOffset + localOffset) with (day * msPerDay) by lia.
  rewrite Z.div_mul by (unfold msPerDay; lia). lia.
Qed.

Lemma getDay_parseISO_date `{Platform} (day : Z) :
  getDay (parseISO_date day) = (day + 4) mod 7.
Proof.
  unfold getDay, localDay, parseISO_date. fixed_offset.
  replace (day * msPerDay - localOffset + localOffset) with (day * msPerDay) by lia.
  rewrite Z.div_mul by (unfold msPerDay; lia). reflexivity.
Qed.

Lemma formatInTimeZone_HHmm_wall `{Platform} (t : Date) (timezone : string) (day h m : Z) :
  0 <= h < 24 -> 0 <= m < 60 ->
  t + tzOffset timezone t = day * msPerDay + h * msPerHour + m * msPerMinute ->
  formatInTimeZone_HHmm t timezone = (twoDigits h ++ ":" ++ twoDigits m)%string.
Proof.
  intros Hh Hm Hwall.
  apply formatInTimeZone_HHmm_shown with (day := day); assumption.
Qed.

(** *** The Monday scenario *)

Lemma timeStringToUTC_0900 `{Server} (date : Date) (timezone : string) :
  TimeUtils.timeStringToUTC "09:00:00" date timezone
  = Ok (Some (zonedTimeToUtc (setHours date 9 0) timezone)).
Proof. reflexivity. Qed.

Lemma timeStringToUTC_1700 `{Server} (date : Date) (timezone : string) :
  TimeUtils.timeStringToUTC "17:00:00" date timezone
  = Ok (Some (zonedTimeToUtc (setHours date 17 0) timezone)).
Proof. reflexivity. Qed.

(** C5, as the code has it.  Rule Monday 09:00-17:00, 30 minutes,
    America/New_York; a target Monday on which that zone keeps one offset
    [off] and the zone of the server has midnight, 09:00 and 17:00; no
    reservation; an evaluation instant more than 2 hours before the first
    slot and with the last slot before [addDays now 14], the horizon on the
    server's clock.  The generator returns exactly 16 slots of 30 minutes,
    all available, the first shown in the zone as 09:00-09:30 and the last
    as 16:30-17:00. *)
Theorem monday_rule_sixteen_slots `{Server} (day : Z) (now : Date) (off : Z)
    (fuel : nat) :
  getDay (parseISO_date day) = 1 ->
  localTimeExists (day * msPerDay) ->
  localTimeExists (wallTime day 9 0) ->
  localTimeExists (wallTime day 17 0) ->
  zoneOffset "America/New_York" (toLocal (wallTime day 9 0)) = off ->
  zoneOffset "America/New_York" (toLocal (wallTime day 17 0)) = off ->
  (forall t : Z,
      wallTime day 9 0 - off <= t <= wallTime day 17 0 - off ->
      zoneOffset "America/New_York" t = off) ->
  now + 2 * msPerHour < wallTime day 9 0 - off ->
  wallTime day 16 30 - off < addDays now 14 ->
  (16 < fuel)%nat ->
  exists (slots : list TimeSlot) (first last : TimeSlot),
    TimeUtils.generateSlotsForDate fuel now (parseISO_date day) [mondayRule] []
      "America/New_York" = Some (Ok slots)
    /\ slots = map (fun k : nat =>
                      {| start := wallTime day 9 0 - off + Z.of_nat k * (30 * msPerMinute);
                         end_ := wallTime day 9 0 - off + Z.of_nat k * (30 * msPerMinute)
                                 + 30 * msPerMinute;
                         available := true |})
                   (seq 0 16)
    /\ List.length slots = 16%nat
    /\ nth_error slots 0 = Some first
    /\ nth_error slots 15 = Some last
    /\ formatInTimeZone_HHmm (start first) "America/New_York" = "09:00"%string
    /\ formatInTimeZone_HHmm (end_ first) "America/New_York" = "09:30"%string
    /\ formatInTimeZone_HHmm (start last) "America/New_York" = "16:30"%string
    /\ formatInTimeZone_HHmm (end_ last) "America/New_York" = "17:00"%string.
Proof.
  intros Hmonday Hmidnight Hnine Hfive Hread9 Hread17 Hstable Hlead Hhorizon Hfuel.
  assert (Hconst : wallTime day 17 0 = wallTime day 9 0 + 16 * (30 * msPerMinute))
    by (unfold wallTime, msPerHour, msPerMinute; lia).
  assert (Hhalf : wallTime day 16 30 = wallTime day 9 0 + 15 * (30 * msPerMinute))
    by (unfold wallTime, msPerHour, msPerMinute; lia).
  assert (Hstep : 0 < 30 * msPerMinute) by (unfold msPerMinute; lia).
  assert (Hs : TimeUtils.timeStringToUTC (start_time mondayRule) (parseISO_date day)
                 (timezone mondayRule) = Ok (Some (wallTime day 9 0 - off))).
  { cbn [start_time timezone mondayRule]. rewrite timeStringToUTC_0900. do 2 f_equal.
    rewrite zonedTimeToUtc_settled with (off := off);
      rewrite (setHours_parseISO_date_any day 9 0 Hmidnight Hnine);
      [reflexivity | assumption | apply Hstable; lia]. }
  assert (He : TimeUtils.timeStringToUTC (end_time mondayRule) (parseISO_date day)
                 (timezone mondayRule) = Ok (Some (wallTime day 17 0 - off))).
  { cbn [end_time timezone mondayRule]. rewrite timeStringToUTC_1700. do 2 f_equal.
    rewrite zonedTimeToUtc_settled with (off := off);
      rewrite (setHours_parseISO_date_any day 17 0 Hmidnight Hfive);
      [reflexivity | assumption | apply Hstable; lia]. }
  assert (Hcount : slotCount (wallTime day 9 0 - off) (wallTime day 17 0 - off)
                     (interval_minutes mondayRule * msPerMinute) = 16%nat).
  { unfold slotCount. cbn [interval_minutes mondayRule].
    replace (wallTime day 17 0 - off - (wallTime day 9 0 - off))
      with (16 * (30 * msPerMinute)) by lia.
    rewrite Z.div_mul by lia. reflexivity. }
  pose proof (generateSlotsForDate_one_rule fuel now (parseISO_date day) mondayRule []
                "America/New_York" _ _ (eq_sym Hmonday) Hs He eq_refl) as Hrun.
  rewrite Hcount in Hrun. specialize (Hrun Hfuel).
  cbn [interval_minutes mondayRule] in Hrun.
  rewrite slotsFrom_available in Hrun.
  - eexists. eexists. eexists. split; [exact Hrun|]. split; [reflexivity|].
    split; [reflexivity|].
    cbn [seq map nth_error]. split; [reflexivity|]. split; [reflexivity|].
    cbn [start end_].
    repeat split.
    + apply formatInTimeZone_HHmm_shown with (day := day) (h := 9) (m := 0); try lia.
      rewrite Hstable by lia. unfold wallTime. lia.
    + apply formatInTimeZone_HHmm_shown with (day := day) (h := 9) (m := 30); try lia.
      rewrite Hstable by lia. unfold wallTime. lia.
    + apply formatInTimeZone_HHmm_shown with (day := day) (h := 16) (m := 30); try lia.
      rewrite Hstable by lia. unfold wallTime, msPerHour, msPerMinute. lia.
    + apply formatInTimeZone_HHmm_shown with (day := day) (h := 17) (m := 0); try lia.
      rewrite Hstable by lia. unfold wallTime, msPerHour, msPerMinute. lia.
  - intros k Hk. unfold isAvailable. cbn [existsb negb].
    rewrite andb_true_r, andb_true_iff, meetsLeadTime_iff, withinBookingHorizon_addDays.
    unfold msPerMinute in *. lia.
Qed.

(** ** Date ranges *)

Lemma dateLoop_unfold `{Server} (currentDate endDate : Date) :
  TimeUtils.dateLoop currentDate endDate
  = if isAfter currentDate endDate then []
    else currentDate :: TimeUtils.dateLoop (addDays currentDate 1) endDate.
Proof.
  funelim (TimeUtils.dateLoop currentDate endDate);
    match goal with E : isAfter _ _ = _ |- _ => rewrite E end; reflexivity.
Qed.

Lemma dateLoop_midnights `{Platform} :
  forall (n : nat) (fromDay toDay : Z),
    Z.of_nat n = toDay - fromDay + 1 ->
    TimeUtils.dateLoop (parseISO_date fromDay) (parseISO_date toDay)
    = midnights n fromDay.
Proof.
  induction n as [|n IH]; intros fromDay toDay Hn; rewrite dateLoop_unfold.
  - assert (Hafter : isAfter (parseISO_date fromDay) (parseISO_date toDay) = true)
      by (apply isAfter_lt; unfold parseISO_date, msPerDay; fixed_offset; lia).
    rewrite Hafter. reflexivity.
  - assert (Hnot : isAfter (parseISO_date fromDay) (parseISO_date toDay) = false)
      by (apply isAfter_ge; unfold parseISO_date, msPerDay; fixed_offset; lia).
    rewrite Hnot. cbn [midnights]. f_equal.
    replace (addDays (parseISO_date fromDay) 1) with (parseISO_date (fromDay + 1))
      by (rewrite addDays_ms; unfold parseISO_date; fixed_offset; lia).
    apply IH. lia.
Qed.

Lemma startOfDay_parseISO_date `{Platform} (day : Z) :
  startOfDay (parseISO_date day) = parseISO_date day.
Proof.
  unfold startOfDay, localDay, parseISO_date. fixed_offset.
  replace (day * msPerDay - localOffset + localOffset) with (day * msPerDay) by lia.
  rewrite Z.div_mul by (unfold msPerDay; lia). reflexivity.
Qed.

Lemma startOfDay_endOfDay `{Platform} (day : Z) :
  startOfDay (endOfDay (parseISO_date day)) = parseISO_date day.
Proof.
  unfold startOfDay, endOfDay, localDay, parseISO_date. fixed_offset.
  replace (day * msPerDay - localOffset + localOffset) with (day * msPerDay) by lia.
  rewrite Z.div_mul by (unfold msPerDay; lia).
  replace (day * msPerDay + 23 * msPerHour + 59 * msPerMinute + 59 * msPerSecond + 999
           - localOffset + localOffset)
    with (86399999 + day * msPerDay)
    by (unfold msPerHour, msPerMinute, msPerSecond; lia).
  rewrite Z.div_add by (unfold msPerDay; lia).
  replace (86399999 / msPerDay) with 0 by reflexivity. lia.
Qed.

Lemma validateDateRange_cases `{Platform} (fromDate toDate : Z) :
  TimeUtils.validateDateRange fromDate toDate
  = if toDate <? fromDate then Throw "From date must be before to date"
    else if 14 <? toDate - fromDate then Throw "Date range cannot exceed 14 days"
    else Ok (parseISO_date fromDate, endOfDay (parseISO_date toDate)).
Proof.
  unfold TimeUtils.validateDateRange. cbv zeta.
  assert (Hcmp : isAfter (parseISO_date fromDate) (parseISO_date toDate)
                 = (toDate <? fromDate)).
  { unfold isAfter, parseISO_date, msPerDay. fixed_offset.
    destruct (Z.ltb_spec toDate fromDate);
      [apply Z.ltb_lt | apply Z.ltb_ge]; lia. }
  rewrite Hcmp. destruct (toDate <? fromDate); [reflexivity|].
  assert (Hdiff : TimeUtils.ceilDiv (parseISO_date toDate - parseISO_date fromDate)
                    (1000 * 60 * 60 * 24) = toDate - fromDate).
  { unfold TimeUtils.ceilDiv, parseISO_date, msPerDay. fixed_offset.
    replace (- (toDate * 86400000 - localOffset - (fromDate * 86400000 - localOffset)))
      with ((fromDate - toDate) * (1000 * 60 * 60 * 24)) by lia.
    rewrite Z.div_mul by lia. lia. }
  rewrite Hdiff, startOfDay_parseISO_date. reflexivity.
Qed.

Lemma midnights_In `{Server} :
  forall (n : nat) (day : Z) (d : Date),
    In d (midnights n day)
    <-> exists k : Z, day <= k < day + Z.of_nat n /\ d = parseISO_date k.
Proof.
  induction n as [|n IH]; intros day d; cbn [midnights In].
  - split; [intros [] | intros (k & Hk & _); lia].
  - rewrite IH. split.
    + intros [<-|(k & Hk & ->)]; [exists day | exists k]; split; (lia || reflexivity).
    + intros (k & Hk & ->). destruct (Z.eq_dec k day) as [->|Hne];
        [left; reflexivity | right; exists k; split; [lia | reflexivity]].
Qed.

Lemma midnights_length `{Server} :
  forall (n : nat) (day : Z), List.length (midnights n day) = n.
Proof. induction n as [|n IH]; intros day; cbn; [reflexivity | now rewrite IH]. Qed.

(** *** On a server whose zone changes its offset *)

Lemma localDay_parseISO_date `{Server} (day : Z) :
  localTimeExists (day * msPerDay) -> localDay (parseISO_date day) = day.
Proof.
  unfold localTimeExists, localDay, parseISO_date. intros ->.
  apply Z.div_mul. discriminate.
Qed.

Lemma startOfDay_parseISO_date_any `{Server} (day : Z) :
  localTimeExists (day * msPerDay) -> startOfDay (parseISO_date day) = parseISO_date day.
Proof.
  intros Hday. unfold startOfDay. rewrite (localDay_parseISO_date day Hday). reflexivity.
Qed.

Lemma startOfDay_endOfDay_any `{Server} (day : Z) :
  localTimeExists (day * msPerDay) ->
  localTimeExists (day * msPerDay + 86399999) ->
  startOfDay (endOfDay (parseISO_date day)) = parseISO_date day.
Proof.
  intros Hday Hlast. unfold endOfDay. rewrite (localDay_parseISO_date day Hday).
  replace (day * msPerDay + 23 * msPerHour + 59 * msPerMinute + 59 * msPerSecond + 999)
    with (day * msPerDay + 86399999)
    by (unfold msPerHour, msPerMinute, msPerSecond; lia).
  unfold startOfDay, localDay. unfold localTimeExists in Hlast. rewrite Hlast.
  replace (day * msPerDay + 86399999) with (86399999 + day * msPerDay) by lia.
  rewrite Z.div_add by discriminate. reflexivity.
Qed.

Lemma addDays_parseISO_date `{Server} (day : Z) :
  localTimeExists (day * msPerDay) ->
  addDays (parseISO_date day) 1 = parseISO_date (day + 1).
Proof.
  unfold localTimeExists, addDays, parseISO_date. cbn [Z.eqb]. intros ->.
  f_equal. lia.
Qed.

(** The next midnight comes at least an hour after a midnight that the
    zone has. *)
Lemma parseISO_date_next `{Server} (day : Z) :
  localTimeExists (day * msPerDay) ->
  parseISO_date day + msPerHour <= parseISO_date (day + 1).
Proof.
  intros Hday. pose proof (next_day_later (parseISO_date day)) as Hnext.
  unfold localTimeExists, toLocal in Hday. unfold parseISO_date in *.
  replace (fromLocal (day * msPerDay) + offsetAt (fromLocal (day * msPerDay)) + msPerDay)
    with ((day + 1) * msPerDay) in Hnext by lia.
  unfold fromLocal in *. unfold msPerDay, msPerHour in *. lia.
Qed.

Lemma parseISO_date_later `{Server} :
  forall (n : nat) (day : Z),
    (forall k, day <= k < day + Z.of_nat n -> localTimeExists (k * msPerDay)) ->
    parseISO_date day + Z.of_nat n * msPerHour <= parseISO_date (day + Z.of_nat n).
Proof.
  induction n as [|n IH]; intros day Hdays.
  - replace (day + Z.of_nat 0) with day by lia. lia.
  - pose proof (parseISO_date_next day (Hdays day ltac:(lia))) as Hfirst.
    specialize (IH (day + 1) ltac:(intros k Hk; apply Hdays; lia)).
    replace (day + Z.of_nat (S n)) with (day + 1 + Z.of_nat n) by lia.
    unfold msPerHour in *. lia.
Qed.

Lemma dateLoop_midnights_any `{Server} :
  forall (n : nat) (fromDay toDay : Z),
    Z.of_nat n = toDay - fromDay ->
    (forall k, fromDay <= k <= toDay -> localTimeExists (k * msPerDay)) ->
    TimeUtils.dateLoop (parseISO_date fromDay) (parseISO_date toDay)
    = midnights (S n) fromDay.
Proof.
  induction n as [|n IH]; intros fromDay toDay Hn Hdays; rewrite dateLoop_unfold.
  - assert (toDay = fromDay) as -> by lia.
    assert (Hhere : isAfter (parseISO_date fromDay) (parseISO_date fromDay) = false)
      by (apply isAfter_ge; lia).
    rewrite Hhere, (addDays_parseISO_date fromDay) by (apply Hdays; lia).
    rewrite dateLoop_unfold.
    assert (Hpast : isAfter (parseISO_date (fromDay + 1)) (parseISO_date fromDay) = true).
    { apply isAfter_lt.
      pose proof (parseISO_date_next fromDay (Hdays fromDay ltac:(lia))).
      unfold msPerHour in *. lia. }
    rewrite Hpast. reflexivity.
  - assert (Hhere : isAfter (parseISO_date fromDay) (parseISO_date toDay) = false).
    { apply isAfter_ge.
      pose proof (parseISO_date_later (S n) fromDay
                    ltac:(intros k Hk; apply Hdays; lia)) as Hlater.
      replace (fromDay + Z.of_nat (S n)) with toDay in Hlater by lia.
      unfold msPerHour in *. lia. }
    rewrite Hhere, (addDays_parseISO_date fromDay) by (apply Hdays; lia).
    cbn [midnights]. f_equal. apply IH; [lia|]. intros k Hk. apply Hdays. lia.
Qed.

Lemma ceilDiv_days (x : Z) :
  (14 <? TimeUtils.ceilDiv x (1000 * 60 * 60 * 24)) = (14 * msPerDay <? x).
Proof.
  unfold TimeUtils.ceilDiv, msPerDay.
  change (1000 * 60 * 60 * 24) with 86400000.
  destruct (Z.ltb_spec (14 * 86400000) x) as [Hlong|Hshort].
  - apply Z.ltb_lt.
    assert (- x / 86400000 < -14) by (apply Z.div_lt_upper_bound; lia).
    lia.
  - apply Z.ltb_ge.
    assert (-14 <= - x / 86400000) by (apply Z.div_le_lower_bound; lia).
    lia.
Qed.

Lemma validateDateRange_any `{Server} (fromDate toDate : Z) :
  TimeUtils.validateDateRange fromDate toDate
  = if parseISO_date toDate <? parseISO_date fromDate then
      Throw "From date must be before to date"
    else if 14 * msPerDay <? parseISO_date toDate - parseISO_date fromDate then
      Throw "Date range cannot exceed 14 days"
    else Ok (startOfDay (parseISO_date fromDate), endOfDay (parseISO_date toDate)).
Proof.
  unfold TimeUtils.validateDateRange, isAfter. cbv zeta. rewrite ceilDiv_days. reflexivity.
Qed.


(** ** Cancellation *)

Lemma filter_map_invariant {A : Type} (p : A -> bool) (f : A -> A) (l : list A) :
  (forall x, p (f x) = p x) -> filter p (map f l) = map f (filter p l).
Proof.
  intros Hinv. induction l as [|x l IH]; cbn [map filter]; [reflexivity|].
  rewrite Hinv. destruct (p x); cbn [map]; now rewrite IH.
Qed.

Lemma selectByBookingId_updateCancelled (db : Db.Database) (rowId : Z) (bookingId : string) :
  Db.selectByBookingId (Db.updateCancelled db rowId) bookingId
  = map (fun b => if Db.id b =? rowId then Db.setStatus Db.cancelled b else b)
        (Db.selectByBookingId db bookingId).
Proof.
  unfold Db.selectByBookingId, Db.updateCancelled. cbn [Db.bookings].
  apply filter_map_invariant. intros b. destruct (Db.id b =? rowId); reflexivity.
Qed.

Lemma selectByBookingId_head (db : Db.Database) (bookingId : string)
    (b : Db.Booking) (rest : list Db.Booking) :
  Db.selectByBookingId db bookingId = b :: rest ->
  In b (Db.bookings db) /\ Db.booking_id b = bookingId.
Proof.
  intros Hsel.
  assert (Hin : In b (Db.selectByBookingId db bookingId)) by (rewrite Hsel; left; reflexivity).
  apply filter_In in Hin. destruct Hin as [Hin Heq].
  split; [assumption | apply String.eqb_eq; assumption].
Qed.


(** ** No double booking *)

Lemma slotsOverlap_sym (s1 e1 s2 e2 : Date) :
  TimeUtils.slotsOverlap (s1, e1) (s2, e2) = TimeUtils.slotsOverlap (s2, e2) (s1, e1).
Proof. apply eq_true_iff_eq. rewrite !slotsOverlap_iff. lia. Qed.

(** The SQL condition selects every confirmed row of the owner that the
    half-open test finds overlapping. *)
Lemma overlapCondition_complete (b : Db.Booking) (userId : Z) (slotStart slotEnd : Date) :
  Db.user_id b = userId ->
  Db.status b = Db.confirmed ->
  TimeUtils.slotsOverlap (slotStart, slotEnd) (Db.slot_start b, Db.slot_end b) = true ->
  Db.overlapCondition userId slotStart slotEnd b = true.
Proof.
  intros Huser Hstatus Hov. apply slotsOverlap_iff in Hov.
  unfold Db.overlapCondition. rewrite Huser, Hstatus, Z.eqb_refl. cbn [Db.Status_eqb andb].
  rewrite !orb_true_iff, !andb_true_iff, !Z.leb_le, !Z.ltb_lt. lia.
Qed.

Lemma selectOverlapping_nil (db : Db.Database) (userId : Z) (slotStart slotEnd : Date) :
  Nat.ltb 0 (List.length (Db.selectOverlapping db userId slotStart slotEnd)) = false ->
  forall b, In b (Db.bookings db) ->
    Db.user_id b = userId -> Db.status b = Db.confirmed ->
    TimeUtils.slotsOverlap (slotStart, slotEnd) (Db.slot_start b, Db.slot_end b) = false.
Proof.
  intros Hnone b Hin Huser Hstatus. apply not_true_is_false. intros Hov.
  assert (Hsel : In b (Db.selectOverlapping db userId slotStart slotEnd))
    by (apply filter_In; split;
        [assumption | apply overlapCondition_complete; assumption]).
  destruct (Db.selectOverlapping db userId slotStart slotEnd); [destruct Hsel|].
  discriminate.
Qed.

Lemma noDoubleBooking_append (db : Db.Database) (row : Db.Booking) (seq' : Z) :
  noDoubleBooking db ->
  (forall b, In b (Db.bookings db) -> compatible row b) ->
  noDoubleBooking {| Db.bookings := (Db.bookings db ++ [row])%list;
                     Db.bookings_id_seq := seq' |}.
Proof.
  intros Hinv Hnew i j b1 b2 Hij H1 H2. cbn [Db.bookings] in H1, H2.
  assert (Hrow : forall k b, nth_error (Db.bookings db ++ [row]) k = Some b ->
            ((k < List.length (Db.bookings db))%nat /\ nth_error (Db.bookings db) k = Some b)
            \/ (k = List.length (Db.bookings db) /\ b = row)).
  { intros k b Hk.
    destruct (Nat.lt_ge_cases k (List.length (Db.bookings db))) as [Hlt|Hge].
    - left. rewrite nth_error_app1 in Hk by assumption. split; assumption.
    - right. rewrite nth_error_app2 in Hk by assumption.
      destruct (k - List.length (Db.bookings db))%nat as [|m] eqn:Hm; cbn in Hk.
      + split; [lia | congruence].
      + destruct m; discriminate. }
  destruct (Hrow _ _ H1) as [[_ Hold1]|[Hi ->]];
    destruct (Hrow _ _ H2) as [[_ Hold2]|[Hj ->]].
  - exact (Hinv i j b1 b2 Hij Hold1 Hold2).
  - intros Huser Hs1 Hs2. rewrite slotsOverlap_sym.
    apply (Hnew b1 (nth_error_In _ _ Hold1)); congruence.
  - apply (Hnew b2 (nth_error_In _ _ Hold2)).
  - lia.
Qed.

Lemma book_preserves `{Server} (now : Date) (db : Db.Database) (c : BookingRoute.BookCall) :
  noDoubleBooking db -> noDoubleBooking (snd (BookingRoute.book now db c)).
Proof.
  intros Hinv. unfold BookingRoute.book.
  destruct (BookingUtils.validateBookingSlot now _ _); [|exact Hinv].
  destruct (Nat.ltb 0 _) eqn:Hsel; [exact Hinv|].
  unfold Db.insertBooking.
  destruct (negb (Db.fitsVarchar 6 _)); [exact Hinv|].
  destruct (negb (Db.fitsVarchar 100 _)); [exact Hinv|].
  destruct (negb (Db.fitsVarchar 255 _)); [exact Hinv|].
  destruct (Db.violates_bookings_check _); [exact Hinv|].
  destruct (Db.violates_booking_id_key _ _); [exact Hinv|].
  destruct (Db.violates_idx_bookings_no_overlap _ _); [exact Hinv|].
  cbn [snd]. apply noDoubleBooking_append; [assumption|].
  intros b Hin Huser _ Hstatus. cbn [Db.slot_start Db.slot_end Db.user_id] in *.
  apply (selectOverlapping_nil _ _ _ _ Hsel b Hin); [symmetry|]; assumption.
Qed.

Lemma cancel_preserves (now : Date) (db : Db.Database) (bookingId cancelCode : string) :
  noDoubleBooking db ->
  noDoubleBooking (snd (BookingRoute.cancel now db bookingId cancelCode)).
Proof.
  intros Hinv. unfold BookingRoute.cancel.
  destruct (Db.selectByBookingId db bookingId) as [|booking rest]; [exact Hinv|].
  destruct (Db.Status_eqb _ _); [exact Hinv|].
  destruct (negb (String.eqb _ _)); [exact Hinv|].
  destruct (negb (TimeUtils.meetsCancellationNotice _ _)); [exact Hinv|].
  cbn [snd]. intros i j b1 b2 Hij H1 H2.
  unfold Db.updateCancelled in H1, H2. cbn [Db.bookings] in H1, H2.
  rewrite nth_error_map in H1, H2.
  destruct (nth_error (Db.bookings db) i) as [r1|] eqn:Hr1; [|discriminate].
  destruct (nth_error (Db.bookings db) j) as [r2|] eqn:Hr2; [|discriminate].
  cbn [option_map] in H1, H2. injection H1 as <-. injection H2 as <-.
  pose proof (Hinv i j r1 r2 Hij Hr1 Hr2) as Hcompat.
  unfold compatible in *.
  destruct (Db.id r1 =? Db.id booking), (Db.id r2 =? Db.id booking);
    cbn [Db.setStatus Db.status Db.user_id Db.slot_start Db.slot_end];
    intros; try discriminate; auto.
Qed.

Lemma handle_preserves `{Server} (db : Db.Database) (r : Request) :
  noDoubleBooking db -> noDoubleBooking (snd (handle db r)).
Proof.
  destruct r; cbn [handle]; [apply book_preserves | apply cancel_preserves].
Qed.

Lemma serve_preserves `{Server} (requests : list Request) :
  forall db, noDoubleBooking db -> noDoubleBooking (serve db requests).
Proof.
  unfold serve. induction requests as [|r requests IH]; intros db Hinv; cbn [fold_left].
  - exact Hinv.
  - apply IH, handle_preserves, Hinv.
Qed.

Lemma noDoubleBooking_empty : noDoubleBooking emptyDb.
Proof. intros i j b1 b2 _ H1. destruct i; discriminate. Qed.

(** The handler run alone is the three stages run back to back. *)
Lemma book_as_stages `{Server} (now : Date) (db : Db.Database) (c : BookingRoute.BookCall) :
  let '(t1, db1) := BookingRoute.bookStep now db (BookingRoute.bookStart now c) in
  let '(t2, db2) := BookingRoute.bookStep now db1 t1 in
  (t2, db2) = (BookingRoute.Responded (fst (BookingRoute.book now db c)),
               snd (BookingRoute.book now db c)).
Proof.
  unfold BookingRoute.book, BookingRoute.bookStart.
  destruct (BookingUtils.validateBookingSlot now _ _); cbn [BookingRoute.bookStep];
    [|reflexivity].
  destruct (Nat.ltb 0 _); cbn [BookingRoute.bookStep]; [reflexivity|].
  destruct (Db.insertBooking _ _ _ _ _ _ _ _ _) as [[e|row] db']; reflexivity.
Qed.

(** X23. With requests handled one at a time, no two confirmed
    reservations of one owner overlap: the empty table satisfies it, and
    POST /book and POST /cancel preserve it.  A call of [book] whose
    interval overlaps a confirmed reservation of the owner writes no row and
    leaves the table as it was; it answers SlotAlreadyBooked when the
    interval passes [validateBookingSlot], and the answer of the policy
    check that fails otherwise. *)
Theorem no_double_booking_one_at_a_time `{Server} :
  (forall requests : list Request, noDoubleBooking (serve emptyDb requests))
  /\ (forall (db : Db.Database) (r : Request),
         noDoubleBooking db -> noDoubleBooking (snd (handle db r)))
  /\ (forall (now : Date) (db : Db.Database) (c : BookingRoute.BookCall) (b : Db.Booking),
         In b (Db.bookings db) ->
         Db.user_id b = BookingRoute.call_user c ->
         Db.status b = Db.confirmed ->
         TimeUtils.slotsOverlap
           (BookingRoute.slotStartDate c, BookingRoute.slotEndDate c)
           (Db.slot_start b, Db.slot_end b) = true ->
         snd (BookingRoute.book now db c) = db
         /\ (BookingUtils.validateBookingSlot now (BookingRoute.slotStartDate c)
               (BookingRoute.slotEndDate c) = Ok tt ->
             fst (BookingRoute.book now db c) = BookingRoute.SlotAlreadyBooked)
         /\ (forall message : string,
                BookingUtils.validateBookingSlot now (BookingRoute.slotStartDate c)
                  (BookingRoute.slotEndDate c) = Throw message ->
                fst (BookingRoute.book now db c) = BookingRoute.bookCatch message)).
Proof.
  split; [intros requests; apply serve_preserves, noDoubleBooking_empty|].
  split; [intros db r; apply handle_preserves|].
  intros now db c b Hin Huser Hstatus Hov. unfold BookingRoute.book.
  assert (Hsel : Nat.ltb 0 (List.length
                   (Db.selectOverlapping db (BookingRoute.call_user c)
                      (BookingRoute.slotStartDate c) (BookingRoute.slotEndDate c))) = true).
  { assert (Hb : In b (Db.selectOverlapping db (BookingRoute.call_user c)
                         (BookingRoute.slotStartDate c) (BookingRoute.slotEndDate c)))
      by (apply filter_In; split;
          [assumption | apply overlapCondition_complete; assumption]).
    destruct (Db.selectOverlapping _ _ _ _); [destruct Hb | reflexivity]. }
  destruct (BookingUtils.validateBookingSlot now _ _) as [[]|message].
  - rewrite Hsel. cbn [fst snd]. repeat split; try reflexivity. discriminate.
  - cbn [fst snd]. repeat split; try discriminate.
    intros message' Heq. injection Heq as <-. reflexivity.
Qed.

(** ** Concrete runs *)

Lemma utcServer_localTimeExists (w : Z) : @localTimeExists utcServer w.
Proof. unfold localTimeExists. fixed_offset. lia. Qed.

(** In New York the only wall-clock times of 2025 that do not exist are
    those of the hour from 02:00 on 9 March. *)
Lemma nyServer_localTimeExists (w : Z) :
  ~ 1741485600000 <= w < 1741489200000 -> @localTimeExists nyServer w.
Proof.
  intros Hskipped. unfold localTimeExists, toLocal, fromLocal.
  cbn [offsetAt offsetOfLocal nyServer]. unfold newYork2025, newYork2025Local, msPerHour.
  destruct (Z.leb_spec 1741489200000 w), (Z.ltb_spec w 1762048800000); cbn [andb];
    match goal with
    | |- context [if (?a <=? ?x) && (?x <? ?b) then _ else _] =>
        destruct (Z.leb_spec a x), (Z.ltb_spec x b); cbn [andb]; lia
    end.
Qed.

Lemma sql_overlap_is_half_open_witness :
  Db.overlapCondition 7 (at_ june2 14 15) (at_ june2 14 45) sampleRow
  = (Db.user_id sampleRow =? 7)
    && Db.Status_eqb (Db.status sampleRow) Db.confirmed
    && TimeUtils.slotsOverlap (at_ june2 14 15, at_ june2 14 45)
         (Db.slot_start sampleRow, Db.slot_end sampleRow).
Proof.
  apply (sql_overlap_is_half_open sampleRow 7); vm_compute; reflexivity.
Defined.

Lemma slot_stepping_witness :
  (exists slots : list TimeSlot,
      @TimeUtils.slotLoop utcServer 20 may30 [] 30 (at_ june2 21 0) (at_ june2 13 0)
      = Some slots
      /\ (15 < List.length slots)%nat
      /\ ~ (16 < List.length slots)%nat
      /\ (forall s, In s slots ->
             end_ s - start s = 30 * msPerMinute /\ end_ s <= at_ june2 21 0))
  /\ (exists out : list TimeSlot,
        @TimeUtils.generateSlotsForDate utcServer 20 may30 mondayDate [mondayRule] []
          "America/New_York" = Some (Ok out)
        /\ Permutation (@ruleSlots utcServer may30 mondayDate [] mondayRule ++ []) out
        /\ (exists s : TimeSlot,
               In s out /\ start s = at_ june2 20 30 /\ end_ s = at_ june2 21 0)).
Proof.
  destruct (@slot_stepping utcServer may30 []) as (Hloop & Hgen & _).
  split.
  - destruct (Hloop 30 (at_ june2 13 0) (at_ june2 21 0))
      as (slots & Hrun & _ & Hlen & Hfits); [lia|].
    exists slots. split; [apply Hrun; vm_compute; lia|].
    split; [apply Hfits; vm_compute; discriminate|].
    split; [rewrite Hfits; vm_compute; intros Hle; apply Hle; reflexivity | exact Hlen].
  - destruct (@TimeUtils.generateSlotsForDate utcServer 20 may30 mondayDate [mondayRule] []
                "America/New_York") as [[out|message]|] eqn:Hrun;
      [|vm_compute in Hrun; discriminate..].
    exists out. split; [reflexivity|].
    destruct (Hgen 20%nat mondayDate [mondayRule] "America/New_York"%string out)
      as (Hperm & _ & Hall);
      [intros rule [<-|[]]; vm_compute; reflexivity | exact Hrun |].
    split; [exact Hperm|].
    destruct (Hall mondayRule (at_ june2 13 0) (at_ june2 21 0) 15%nat)
      as (s & Hin & Hstart & Hend);
      [left; reflexivity | reflexivity | vm_compute; reflexivity | vm_compute; reflexivity
      | vm_compute; discriminate |].
    exists s. split; [exact Hin|]. rewrite Hend, Hstart. split; vm_compute; reflexivity.
Defined.


Lemma newYork_daylight_time (t : Z) :
  1741503600000 <= t < 1762063200000 ->
  zoneDb2025 "America/New_York" t = -4 * msPerHour.
Proof.
  intros Ht. unfold zoneDb2025. cbn [String.eqb Ascii.eqb Bool.eqb]. unfold newYork2025.
  destruct (Z.leb_spec 1741503600000 t); [|lia].
  destruct (Z.ltb_spec t 1762063200000); [reflexivity | lia].
Qed.

Lemma monday_rule_sixteen_slots_witness :
  (exists (slots : list TimeSlot) (first last : TimeSlot),
      @TimeUtils.generateSlotsForDate utcServer 20 may30 mondayDate [mondayRule] []
        "America/New_York" = Some (Ok slots)
      /\ slots = map (fun k : nat =>
                        {| start := wallTime june2 9 0 - (-4 * msPerHour)
                                    + Z.of_nat k * (30 * msPerMinute);
                           end_ := wallTime june2 9 0 - (-4 * msPerHour)
                                   + Z.of_nat k * (30 * msPerMinute) + 30 * msPerMinute;
                           available := true |})
                     (seq 0 16)
      /\ List.length slots = 16%nat
      /\ nth_error slots 0 = Some first
      /\ nth_error slots 15 = Some last
      /\ @formatInTimeZone_HHmm utcServer (start first) "America/New_York" = "09:00"%string
      /\ @formatInTimeZone_HHmm utcServer (end_ first) "America/New_York" = "09:30"%string
      /\ @formatInTimeZone_HHmm utcServer (start last) "America/New_York" = "16:30"%string
      /\ @formatInTimeZone_HHmm utcServer (end_ last) "America/New_York" = "17:00"%string)
  /\ (exists (slots : list TimeSlot) (first last : TimeSlot),
        @TimeUtils.generateSlotsForDate nyServer 20 may30 (@parseISO_date nyServer june2)
          [mondayRule] [] "America/New_York" = Some (Ok slots)
        /\ List.length slots = 16%nat
        /\ nth_error slots 0 = Some first
        /\ nth_error slots 15 = Some last
        /\ available first = true /\ available last = true
        /\ @formatInTimeZone_HHmm nyServer (start first) "America/New_York" = "09:00"%string
        /\ @formatInTimeZone_HHmm nyServer (end_ last) "America/New_York" = "17:00"%string).
Proof.
  split.
  - apply (@monday_rule_sixteen_slots utcServer june2 may30 (-4 * msPerHour) 20).
    + reflexivity.
    + apply utcServer_localTimeExists.
    + apply utcServer_localTimeExists.
    + apply utcServer_localTimeExists.
    + vm_compute. reflexivity.
    + vm_compute. reflexivity.
    + intros t Ht. apply newYork_daylight_time.
      assert (Hw9 : wallTime june2 9 0 = 1748854800000) by reflexivity.
      assert (Hw17 : wallTime june2 17 0 = 1748883600000) by reflexivity.
      rewrite Hw9, Hw17 in Ht. unfold msPerHour in *. lia.
    + vm_compute. reflexivity.
    + vm_compute. reflexivity.
    + lia.
  - destruct (@monday_rule_sixteen_slots nyServer june2 may30 (-4 * msPerHour) 20)
      as (slots & first & last & Hrun & Hslots & Hlen & Hfirst & Hlast & H09 & _ & _ & H17).
    + reflexivity.
    + apply nyServer_localTimeExists. vm_compute. intros [_ Hlt]. discriminate Hlt.
    + apply nyServer_localTimeExists. vm_compute. intros [_ Hlt]. discriminate Hlt.
    + apply nyServer_localTimeExists. vm_compute. intros [_ Hlt]. discriminate Hlt.
    + vm_compute. reflexivity.
    + vm_compute. reflexivity.
    + intros t Ht. apply newYork_daylight_time.
      assert (Hw9 : wallTime june2 9 0 = 1748854800000) by reflexivity.
      assert (Hw17 : wallTime june2 17 0 = 1748883600000) by reflexivity.
      rewrite Hw9, Hw17 in Ht. unfold msPerHour in *. lia.
    + vm_compute. reflexivity.
    + vm_compute. reflexivity.
    + lia.
    + exists slots, first, last.
      pose proof Hfirst as Hfirst'. pose proof Hlast as Hlast'.
      rewrite Hslots in Hfirst', Hlast'. cbn [seq map nth_error] in Hfirst', Hlast'.
      injection Hfirst' as <-. injection Hlast' as <-.
      repeat split; (assumption || reflexivity).
Defined.

(** C5 as stated fails: seen from 1 May 2025, more than 14 days before, the
    16 slots of Monday 2 June are generated and none is marked available. *)
Lemma far_before_monday_none_available :
  exists slots : list TimeSlot,
    @TimeUtils.generateSlotsForDate utcServer 20 (civil 2025 5 1 * msPerDay)
      mondayDate [mondayRule] [] "America/New_York" = Some (Ok slots)
    /\ List.length slots = 16%nat
    /\ civil 2025 5 1 * msPerDay + 2 * msPerHour < at_ june2 13 0
    /\ forallb (fun s => negb (available s)) slots = true.
Proof.
  eexists. split; [vm_compute; reflexivity|].
  split; [reflexivity|]. split; reflexivity.
Qed.

(** On a server in New York, seen from Monday 24 February 2025, 15:45 local
    time, the horizon falls at 15:45 local time of Monday 10 March, an hour
    less than 14 times 24 hours away since daylight time began in between:
    the slots of that Monday at 16:00 and 16:30 local time, which start less
    than 14 times 24 hours after the evaluation instant, are not
    available. *)
Lemma march10_last_two_past_horizon :
  exists slots : list TimeSlot,
    @TimeUtils.generateSlotsForDate nyServer 20 feb24 (@parseISO_date nyServer march10)
      [mondayRule] [] "America/New_York" = Some (Ok slots)
    /\ map available slots = (repeat true 14 ++ [false; false])%list
    /\ map start (skipn 14 slots) = [at_ march10 20 0; at_ march10 20 30]
    /\ at_ march10 20 30 < feb24 + 14 * msPerDay.
Proof.
  eexists. split; [vm_compute; reflexivity|].
  split; [reflexivity|]. split; reflexivity.
Qed.


(** The policy checks come before the overlap query: one hour before its
    start, a request for the interval of a confirmed reservation is refused
    by the lead-time check, and the table is as it was. *)
Lemma overlapping_request_refused_by_policy :
  In sampleRow (Db.bookings oneBooking)
  /\ Db.user_id sampleRow = BookingRoute.call_user callC
  /\ Db.status sampleRow = Db.confirmed
  /\ TimeUtils.slotsOverlap
       (BookingRoute.slotStartDate callC, BookingRoute.slotEndDate callC)
       (Db.slot_start sampleRow, Db.slot_end sampleRow) = true
  /\ @BookingRoute.book utcServer (at_ june2 13 0) oneBooking callC
     = (json 400 (ErrorBody "Booking must be at least 2 hours in advance"), oneBooking)
  /\ fst (@BookingRoute.book utcServer (at_ june2 13 0) oneBooking callC)
     <> BookingRoute.SlotAlreadyBooked.
Proof.
  split; [left; reflexivity|]. split; [reflexivity|]. split; [reflexivity|].
  split; [reflexivity|]. split; [vm_compute; reflexivity|].
  vm_compute. discriminate.
Qed.


Lemma no_double_booking_one_at_a_time_witness :
  noDoubleBooking (@serve utcServer emptyDb
                     [PostBook may30 callA; PostBook may30 callB; PostBook may30 callC])
  /\ @serve utcServer emptyDb [PostBook may30 callA] = oneBooking
  /\ snd (@BookingRoute.book utcServer may30 oneBooking callB) = oneBooking
  /\ fst (@BookingRoute.book utcServer may30 oneBooking callB)
     = BookingRoute.SlotAlreadyBooked
  /\ fst (@BookingRoute.book utcServer may30 oneBooking callC)
     = BookingRoute.SlotAlreadyBooked.
Proof.
  destruct (@no_double_booking_one_at_a_time utcServer) as (Hreach & _ & Hreject).
  split; [apply Hreach|]. split; [vm_compute; reflexivity|].
  destruct (Hreject may30 oneBooking callB sampleRow) as (Hsame & Hconflict & _);
    [left; reflexivity | reflexivity | reflexivity | vm_compute; reflexivity |].
  split; [exact Hsame|]. split; [apply Hconflict; vm_compute; reflexivity|].
  destruct (Hreject may30 oneBooking callC sampleRow) as (_ & Hconflict' & _);
    [left; reflexivity | reflexivity | reflexivity | vm_compute; reflexivity |].
  apply Hconflict'. vm_compute. reflexivity.
Defined.

Lemma policy_boundaries_strict_witness :
  (@BookingUtils.validateBookingSlot utcServer may30 (at_ june2 14 0)
     (at_ june2 14 0 + 15 * msPerMinute) = Ok tt
   /\ @BookingUtils.validateBookingSlot utcServer may30 (at_ june2 14 0)
        (at_ june2 14 0 + 14 * msPerMinute + 59 * msPerSecond)
      = Throw "Slot duration must be at least 15 minutes"
   /\ @BookingUtils.validateBookingSlot utcServer may30 (at_ june2 14 0)
        (at_ june2 14 0 + 480 * msPerMinute) = Ok tt
   /\ @BookingUtils.validateBookingSlot utcServer may30 (at_ june2 14 0)
        (at_ june2 14 0 + 481 * msPerMinute)
      = Throw "Slot duration cannot exceed 8 hours")
  /\ @TimeUtils.withinBookingHorizon nyServer may30 (may30 + 14 * msPerDay) = false
  /\ @addDays nyServer feb24 14 = feb24 + 14 * msPerDay - msPerHour.
Proof.
  split; [|split].
  - destruct (@policy_boundaries_strict utcServer) as (_ & _ & _ & _ & Hbounds).
    apply Hbounds; vm_compute; reflexivity.
  - destruct (@policy_boundaries_strict nyServer) as (_ & Hhorizon & _).
    destruct (Hhorizon may30 may30) as (_ & _ & _ & Hsame).
    apply Hsame. vm_compute. reflexivity.
  - destruct (@policy_boundaries_strict nyServer) as (_ & Hhorizon & _).
    destruct (Hhorizon feb24 feb24) as (_ & _ & Hoffsets & _).
    rewrite Hoffsets. vm_compute. reflexivity.
Defined.

(** The horizon on a server in New York, two weeks before the Monday after
    daylight time begins: a start 30 minutes short of now + 14 d is past
    it. *)
Lemma horizon_an_hour_short_across_spring :
  feb24 + 14 * msPerDay - 30 * msPerMinute < feb24 + 14 * msPerDay
  /\ @TimeUtils.withinBookingHorizon nyServer feb24
       (feb24 + 14 * msPerDay - 30 * msPerMinute) = false.
Proof. split; [unfold msPerMinute; lia | vm_compute; reflexivity]. Qed.

Lemma end_after_start_branch_witness :
  (exists message : string,
      @BookingUtils.validateBookingSlot utcServer may30 (at_ june2 14 0) (at_ june2 13 0)
      = Throw message
      /\ message <> "Slot end time must be after start time"%string
      /\ (TimeUtils.meetsLeadTime may30 (at_ june2 14 0) = true ->
          @TimeUtils.withinBookingHorizon utcServer may30 (at_ june2 14 0) = true ->
          message = "Slot duration must be at least 15 minutes"%string))
  /\ @InvalidDates.validateBookingSlot utcServer may30 (Some (at_ june2 14 0)) None
     = Throw "Slot end time must be after start time".
Proof.
  split.
  - destruct (@end_after_start_branch utcServer may30
                (Some (at_ june2 14 0)) (Some (at_ june2 13 0))) as (_ & Hvalues & _).
    destruct (Hvalues (at_ june2 14 0) (at_ june2 13 0) eq_refl eq_refl)
      as (_ & _ & _ & Hrefused).
    apply Hrefused. vm_compute. reflexivity.
  - destruct (@end_after_start_branch utcServer may30 (Some (at_ june2 14 0)) None)
      as (Hlast & _).
    apply Hlast. split; [vm_compute; reflexivity|].
    split; [vm_compute; reflexivity | reflexivity].
Defined.

(** A start that passes the first two checks and an end that [parseISO]
    could not read: the last branch is taken. *)
Lemma invalid_end_reaches_last_branch :
  @InvalidDates.validateBookingSlot utcServer may30 (Some (at_ june2 14 0)) None
  = Throw "Slot end time must be after start time"
  /\ @InvalidDates.meetsLeadTime may30 (Some (at_ june2 14 0)) = true.
Proof. split; vm_compute; reflexivity. Qed.


(** ** Two requests in flight *)

(** C1.  The invariant that no two confirmed reservations of one owner
    overlap is not preserved by every operation.  The overlap query of a
    request for 14:15-14:45 is answered on the empty table; a request of the
    same owner for 14:00-14:30 is then handled in full and stored; the
    insert of the first request, which nothing checks again, is accepted:
    the table satisfied the invariant before that insert and holds two
    overlapping confirmed rows of one owner after it.  Called on the table
    that holds the 14:00-14:30 reservation, [book] with the interval
    14:15-14:45 answers SlotAlreadyBooked and writes no row. *)
Theorem stale_overlap_check_breaks_invariant :
  noDoubleBooking emptyDb
  /\ BookingRoute.bookStep may30 emptyDb (@BookingRoute.bookStart utcServer may30 callB)
     = (BookingRoute.AwaitingInsert callB, emptyDb)
  /\ @BookingRoute.book utcServer may30 emptyDb callA
     = (json 201 (BookingCreated sampleRow), oneBooking)
  /\ noDoubleBooking oneBooking
  /\ Db.user_id sampleRow = BookingRoute.call_user callB
  /\ Db.status sampleRow = Db.confirmed
  /\ TimeUtils.slotsOverlap
       (BookingRoute.slotStartDate callB, BookingRoute.slotEndDate callB)
       (Db.slot_start sampleRow, Db.slot_end sampleRow) = true
  /\ (exists (rowB : Db.Booking) (db' : Db.Database),
         BookingRoute.bookStep may30 oneBooking (BookingRoute.AwaitingInsert callB)
         = (BookingRoute.Responded (json 201 (BookingCreated rowB)), db')
         /\ Db.bookings db' = [sampleRow; rowB]
         /\ Db.user_id rowB = Db.user_id sampleRow
         /\ Db.status rowB = Db.confirmed
         /\ TimeUtils.slotsOverlap (Db.slot_start sampleRow, Db.slot_end sampleRow)
              (Db.slot_start rowB, Db.slot_end rowB) = true
         /\ ~ noDoubleBooking db')
  /\ @BookingRoute.book utcServer may30 oneBooking callB
     = (BookingRoute.SlotAlreadyBooked, oneBooking).
Proof.
  split; [exact noDoubleBooking_empty|].
  split; [vm_compute; reflexivity|].
  split; [vm_compute; reflexivity|].
  split.
  { intros i j b1 b2 Hij Hi Hj. exfalso.
    destruct i as [|i], j as [|j]; cbn in Hi, Hj.
    - apply Hij. reflexivity.
    - destruct j; discriminate.
    - destruct i; discriminate.
    - destruct i; discriminate. }
  split; [reflexivity|]. split; [reflexivity|]. split; [vm_compute; reflexivity|].
  split; [|vm_compute; reflexivity].
  eexists. eexists. split; [vm_compute; reflexivity|].
  split; [reflexivity|]. split; [reflexivity|]. split; [reflexivity|].
  split; [vm_compute; reflexivity|].
  intros Hinv.
  specialize (Hinv 0%nat 1%nat _ _ ltac:(discriminate) eq_refl eq_refl
                   eq_refl eq_refl eq_refl).
  vm_compute in Hinv. discriminate.
Qed.

(** C2 fails on the code.  Two POST /book requests of one owner for
    14:00-14:30 and 14:15-14:45, with both overlap queries answered before
    either insert: both are answered 201 and the table then holds two
    overlapping confirmed rows, which the unique index on
    (user_id, slot_start, slot_end) does not reject.  Handled one after the
    other, the second is answered SlotAlreadyBooked.  With the same interval
    twice, the index rejects the second insert and the handler answers 500,
    not SlotAlreadyBooked. *)
Theorem interleaved_bookings_both_commit :
  (exists (rowA rowB : Db.Booking) (db' : Db.Database),
      BookingRoute.interleave may30 [true; false; true; false] emptyDb
        (@BookingRoute.bookStart utcServer may30 callA)
        (@BookingRoute.bookStart utcServer may30 callB)
      = (BookingRoute.Responded (json 201 (BookingCreated rowA)),
         BookingRoute.Responded (json 201 (BookingCreated rowB)), db')
      /\ Db.bookings db' = [rowA; rowB]
      /\ Db.user_id rowA = Db.user_id rowB
      /\ Db.status rowA = Db.confirmed
      /\ Db.status rowB = Db.confirmed
      /\ TimeUtils.slotsOverlap (Db.slot_start rowA, Db.slot_end rowA)
           (Db.slot_start rowB, Db.slot_end rowB) = true
      /\ ~ noDoubleBooking db')
  /\ (exists (rowA : Db.Booking) (db' : Db.Database),
         BookingRoute.interleave may30 [true; true; false; false] emptyDb
           (@BookingRoute.bookStart utcServer may30 callA)
           (@BookingRoute.bookStart utcServer may30 callB)
         = (BookingRoute.Responded (json 201 (BookingCreated rowA)),
            BookingRoute.Responded BookingRoute.SlotAlreadyBooked, db')
         /\ Db.bookings db' = [rowA])
  /\ (exists (rowA : Db.Booking) (db' : Db.Database),
         BookingRoute.interleave may30 [true; false; true; false] emptyDb
           (@BookingRoute.bookStart utcServer may30 callA)
           (@BookingRoute.bookStart utcServer may30 callC)
         = (BookingRoute.Responded (json 201 (BookingCreated rowA)),
            BookingRoute.Responded BookingRoute.InternalServerError, db')
         /\ Db.bookings db' = [rowA]).
Proof.
  split; [|split].
  - eexists. eexists. eexists. split; [vm_compute; reflexivity|].
    split; [reflexivity|]. split; [reflexivity|]. split; [reflexivity|].
    split; [reflexivity|]. split; [reflexivity|].
    intros Hinv.
    specialize (Hinv 0%nat 1%nat _ _ ltac:(discriminate) eq_refl eq_refl
                     eq_refl eq_refl eq_refl).
    vm_compute in Hinv. discriminate.
  - eexists. eexists. split; [vm_compute; reflexivity | reflexivity].
  - eexists. eexists. split; [vm_compute; reflexivity | reflexivity].
Qed.

(** * Further properties *)

(** ** What POST /book answers *)

Lemma overlapCondition_sound (b : Db.Booking) (userId : Z) (slotStart slotEnd : Date) :
  Db.slot_start b < Db.slot_end b ->
  slotStart < slotEnd ->
  Db.overlapCondition userId slotStart slotEnd b = true ->
  Db.user_id b = userId
  /\ Db.status b = Db.confirmed
  /\ TimeUtils.slotsOverlap (slotStart, slotEnd) (Db.slot_start b, Db.slot_end b) = true.
Proof.
  intros Hrow Hreq. unfold Db.overlapCondition.
  rewrite !andb_true_iff, !orb_true_iff, !andb_true_iff, !Z.leb_le, !Z.ltb_lt, Z.eqb_eq.
  intros [[Huser Hstatus] Hsql]. split; [assumption|]. split.
  - destruct (Db.status b); [reflexivity | discriminate].
  - apply slotsOverlap_iff. lia.
Qed.

Lemma wellFormedDb_rows (db : Db.Database) :
  wellFormedDb db -> forall b, In b (Db.bookings db) -> Db.slot_start b < Db.slot_end b.
Proof.
  intros (_ & _ & _ & Hrows) b Hin. destruct (Hrows b Hin) as [_ Hdur].
  unfold msPerMinute in Hdur. lia.
Qed.

Lemma validateBookingSlot_ok `{Server} (now slotStart slotEnd : Date) :
  BookingUtils.validateBookingSlot now slotStart slotEnd = Ok tt ->
  TimeUtils.meetsLeadTime now slotStart = true
  /\ TimeUtils.withinBookingHorizon now slotStart = true
  /\ 15 * msPerMinute <= slotEnd - slotStart <= 480 * msPerMinute.
Proof.
  rewrite validateBookingSlot_cases.
  destruct (TimeUtils.meetsLeadTime now slotStart); cbn [negb]; [|discriminate].
  destruct (TimeUtils.withinBookingHorizon now slotStart); cbn [negb]; [|discriminate].
  destruct (Z.ltb_spec (slotEnd - slotStart) (15 * msPerMinute)); [discriminate|].
  destruct (Z.ltb_spec (480 * msPerMinute) (slotEnd - slotStart)); [discriminate|].
  intros _. repeat split; (reflexivity || lia).
Qed.

Lemma selectOverlapping_free (db : Db.Database) (c : BookingRoute.BookCall) :
  BookingRoute.slotStartDate c < BookingRoute.slotEndDate c ->
  (forall b, In b (Db.bookings db) -> Db.slot_start b < Db.slot_end b) ->
  (Nat.ltb 0 (List.length
     (Db.selectOverlapping db (BookingRoute.call_user c) (BookingRoute.slotStartDate c)
        (BookingRoute.slotEndDate c))) = false
   <-> slotFree db c).
Proof.
  intros Hreq Hrows. split.
  - intros Hnone b Hin Huser Hstatus.
    apply (selectOverlapping_nil _ _ _ _ Hnone b Hin Huser Hstatus).
  - intros Hfree.
    destruct (Db.selectOverlapping db _ _ _) as [|b rest] eqn:Hsel; [reflexivity|].
    assert (Hin : In b (Db.selectOverlapping db (BookingRoute.call_user c)
                          (BookingRoute.slotStartDate c) (BookingRoute.slotEndDate c)))
      by (rewrite Hsel; left; reflexivity).
    apply filter_In in Hin. destruct Hin as [Hin Hcond].
    apply overlapCondition_sound in Hcond; [|apply Hrows; assumption | assumption].
    destruct Hcond as (Huser & Hstatus & Hov).
    rewrite (Hfree b Hin Huser Hstatus) in Hov. discriminate.
Qed.

Lemma violates_booking_id_key_iff (db : Db.Database) (c : BookingRoute.BookCall)
    (now : Date) :
  Db.violates_booking_id_key (Db.bookings db) (newRow now db c) = false
  <-> freshBookingId db c.
Proof.
  unfold Db.violates_booking_id_key, freshBookingId. cbn [newRow Db.booking_id].
  split.
  - intros Hnone b Hin Heq.
    assert (Hex : existsb (fun r => String.eqb (Db.booking_id r) (BookingRoute.bookingId c))
                    (Db.bookings db) = true)
      by (apply existsb_exists; exists b; split;
          [assumption | apply String.eqb_eq; assumption]).
    congruence.
  - intros Hfresh. apply not_true_is_false. intros Hex.
    apply existsb_exists in Hex. destruct Hex as (b & Hin & Heq).
    apply String.eqb_eq in Heq. exact (Hfresh b Hin Heq).
Qed.

(** The partial unique index cannot reject an insert that follows an
    empty overlap query. *)
Lemma index_silent_after_select (db : Db.Database) (c : BookingRoute.BookCall) (now : Date) :
  BookingRoute.slotStartDate c < BookingRoute.slotEndDate c ->
  Nat.ltb 0 (List.length
    (Db.selectOverlapping db (BookingRoute.call_user c) (BookingRoute.slotStartDate c)
       (BookingRoute.slotEndDate c))) = false ->
  Db.violates_idx_bookings_no_overlap (Db.bookings db) (newRow now db c) = false.
Proof.
  intros Hreq Hnone. unfold Db.violates_idx_bookings_no_overlap.
  cbn [newRow Db.status Db.Status_eqb Db.user_id Db.slot_start Db.slot_end andb].
  apply not_true_is_false. intros Hex. apply existsb_exists in Hex.
  destruct Hex as (b & Hin & Hsame).
  rewrite !andb_true_iff, !Z.eqb_eq in Hsame.
  destruct Hsame as [[[Hstatus Huser] Hstart] Hend].
  assert (Hconf : Db.status b = Db.confirmed)
    by (destruct (Db.status b); [reflexivity | discriminate]).
  pose proof (selectOverlapping_nil _ _ _ _ Hnone b Hin Huser Hconf) as Hfree.
  rewrite Hstart, Hend in Hfree.
  assert (Hov : TimeUtils.slotsOverlap
                  (BookingRoute.slotStartDate c, BookingRoute.slotEndDate c)
                  (BookingRoute.slotStartDate c, BookingRoute.slotEndDate c) = true)
    by (apply slotsOverlap_iff; lia).
  congruence.
Qed.

Lemma fitsColumns_iff (c : BookingRoute.BookCall) :
  fitsColumns c
  <-> Db.fitsVarchar 6 (BookingRoute.cancelCode c) = true
      /\ Db.fitsVarchar 100 (BookingRoute.call_name c) = true
      /\ Db.fitsVarchar 255 (BookingRoute.call_email c) = true.
Proof.
  unfold fitsColumns, Db.fitsVarchar. rewrite !Nat.leb_le. reflexivity.
Qed.

Lemma fitsColumns_dec (c : BookingRoute.BookCall) : fitsColumns c \/ ~ fitsColumns c.
Proof.
  rewrite fitsColumns_iff.
  destruct (Db.fitsVarchar 6 _); [|right; intros [? _]; discriminate].
  destruct (Db.fitsVarchar 100 _); [|right; intros (_ & ? & _); discriminate].
  destruct (Db.fitsVarchar 255 _); [|right; intros (_ & _ & ?); discriminate].
  left. repeat split.
Qed.

Lemma book_unfold `{Server} (now : Date) (db : Db.Database) (c : BookingRoute.BookCall) :
  BookingUtils.validateBookingSlot now (BookingRoute.slotStartDate c)
    (BookingRoute.slotEndDate c) = Ok tt ->
  Nat.ltb 0 (List.length
    (Db.selectOverlapping db (BookingRoute.call_user c) (BookingRoute.slotStartDate c)
       (BookingRoute.slotEndDate c))) = false ->
  fitsColumns c ->
  BookingRoute.book now db c
  = if Db.violates_booking_id_key (Db.bookings db) (newRow now db c)
    then (BookingRoute.InternalServerError,
          {| Db.bookings := Db.bookings db;
             Db.bookings_id_seq := Db.bookings_id_seq db + 1 |})
    else (json 201 (BookingCreated (newRow now db c)),
          {| Db.bookings := (Db.bookings db ++ [newRow now db c])%list;
             Db.bookings_id_seq := Db.bookings_id_seq db + 1 |}).
Proof.
  intros Hvalid Hnone Hfits. unfold BookingRoute.book. rewrite Hvalid, Hnone.
  unfold Db.insertBooking. fold (newRow now db c).
  apply fitsColumns_iff in Hfits. destruct Hfits as (Hcode & Hname & Hemail).
  rewrite Hcode, Hname, Hemail. cbn [negb].
  destruct (validateBookingSlot_ok _ _ _ Hvalid) as (_ & _ & Hdur).
  assert (Hreq : BookingRoute.slotStartDate c < BookingRoute.slotEndDate c)
    by (unfold msPerMinute in Hdur; lia).
  assert (Hcheck : Db.violates_bookings_check (newRow now db c) = false).
  { unfold Db.violates_bookings_check. cbn [newRow Db.slot_start Db.slot_end].
    apply negb_false_iff, Z.ltb_lt. assumption. }
  rewrite Hcheck.
  destruct (Db.violates_booking_id_key (Db.bookings db) (newRow now db c));
    [reflexivity|].
  rewrite (index_silent_after_select db c now Hreq Hnone). reflexivity.
Qed.

(** A value too long for its column stops the insert before it runs. *)
Lemma book_too_long `{Server} (now : Date) (db : Db.Database) (c : BookingRoute.BookCall) :
  BookingUtils.validateBookingSlot now (BookingRoute.slotStartDate c)
    (BookingRoute.slotEndDate c) = Ok tt ->
  Nat.ltb 0 (List.length
    (Db.selectOverlapping db (BookingRoute.call_user c) (BookingRoute.slotStartDate c)
       (BookingRoute.slotEndDate c))) = false ->
  ~ fitsColumns c ->
  BookingRoute.book now db c = (BookingRoute.InternalServerError, db).
Proof.
  intros Hvalid Hnone Hlong. unfold BookingRoute.book. rewrite Hvalid, Hnone.
  unfold Db.insertBooking. rewrite fitsColumns_iff in Hlong.
  destruct (Db.fitsVarchar 6 _); cbn [negb]; [|reflexivity].
  destruct (Db.fitsVarchar 100 _); cbn [negb]; [|reflexivity].
  destruct (Db.fitsVarchar 255 _); cbn [negb]; [|reflexivity].
  exfalso. apply Hlong. repeat split.
Qed.



(** ** The table over time *)

Lemma in_map_setStatus (rows : list Db.Booking) (rowId : Z) (f : Db.Booking -> Z) :
  (forall b, f (Db.setStatus Db.cancelled b) = f b) ->
  map f (map (fun b => if Db.id b =? rowId then Db.setStatus Db.cancelled b else b) rows)
  = map f rows.
Proof.
  intros Hf. rewrite map_map. apply map_ext. intros b.
  destruct (Db.id b =? rowId); [apply Hf | reflexivity].
Qed.

Lemma book_wellFormed `{Server} (now : Date) (db : Db.Database)
    (c : BookingRoute.BookCall) :
  wellFormedDb db -> wellFormedDb (snd (BookingRoute.book now db c)).
Proof.
  intros Hwf.
  destruct (BookingUtils.validateBookingSlot now (BookingRoute.slotStartDate c)
              (BookingRoute.slotEndDate c)) as [[]|message] eqn:Hvalid;
    [|unfold BookingRoute.book; rewrite Hvalid; exact Hwf].
  destruct (Nat.ltb 0 (List.length
              (Db.selectOverlapping db (BookingRoute.call_user c)
                 (BookingRoute.slotStartDate c) (BookingRoute.slotEndDate c)))) eqn:Hsel;
    [unfold BookingRoute.book; rewrite Hvalid, Hsel; exact Hwf|].
  destruct (fitsColumns_dec c) as [Hfits|Hlong];
    [|rewrite (book_too_long now db c Hvalid Hsel Hlong); exact Hwf].
  rewrite (book_unfold now db c Hvalid Hsel Hfits).
  destruct Hwf as (Hseq & Hids & Hpublic & Hrows).
  destruct (Db.violates_booking_id_key (Db.bookings db) (newRow now db c)) eqn:Hkey;
    cbn [snd]; unfold wellFormedDb; cbn [Db.bookings Db.bookings_id_seq].
  - split; [lia|]. split; [assumption|]. split; [assumption|].
    intros b Hin. destruct (Hrows b Hin). split; [lia | assumption].
  - apply violates_booking_id_key_iff in Hkey.
    destruct (validateBookingSlot_ok _ _ _ Hvalid) as (_ & _ & Hdur).
    rewrite !map_app. cbn [map newRow Db.id Db.booking_id].
    split; [lia|]. split; [|split].
    + apply NoDup_app; [assumption | repeat constructor; intros [] | ].
      intros x Hx [<-|[]]. apply in_map_iff in Hx. destruct Hx as (b & Hid & Hin).
      destruct (Hrows b Hin). lia.
    + apply NoDup_app; [assumption | repeat constructor; intros [] | ].
      intros x Hx [<-|[]]. apply in_map_iff in Hx. destruct Hx as (b & Hid & Hin).
      exact (Hkey b Hin Hid).
    + intros b Hin. apply in_app_or in Hin. destruct Hin as [Hin|[<-|[]]].
      * destruct (Hrows b Hin). split; [lia | assumption].
      * cbn [newRow Db.id Db.slot_start Db.slot_end]. split; [lia | assumption].
Qed.

Lemma cancel_wellFormed (now : Date) (db : Db.Database) (bookingId cancelCode : string) :
  wellFormedDb db ->
  wellFormedDb (snd (BookingRoute.cancel now db bookingId cancelCode)).
Proof.
  intros Hwf. unfold BookingRoute.cancel.
  destruct (Db.selectByBookingId db bookingId) as [|booking rest]; [exact Hwf|].
  destruct (Db.Status_eqb _ _); [exact Hwf|].
  destruct (negb (String.eqb _ _)); [exact Hwf|].
  destruct (negb (TimeUtils.meetsCancellationNotice _ _)); [exact Hwf|].
  cbn [snd]. destruct Hwf as (Hseq & Hids & Hpublic & Hrows).
  unfold wellFormedDb, Db.updateCancelled. cbn [Db.bookings Db.bookings_id_seq].
  rewrite (in_map_setStatus _ _ Db.id) by reflexivity.
  split; [assumption|]. split; [assumption|]. split.
  - rewrite map_map.
    erewrite map_ext; [exact Hpublic|].
    intros b. destruct (Db.id b =? Db.id booking); reflexivity.
  - intros b Hin. apply in_map_iff in Hin. destruct Hin as (r & <- & Hin).
    destruct (Hrows r Hin).
    destruct (Db.id r =? Db.id booking); cbn [Db.setStatus Db.id Db.slot_start Db.slot_end];
      split; assumption.
Qed.

Lemma handle_wellFormed `{Server} (db : Db.Database) (r : Request) :
  wellFormedDb db -> wellFormedDb (snd (handle db r)).
Proof.
  destruct r; cbn [handle]; [apply book_wellFormed | apply cancel_wellFormed].
Qed.

Lemma emptyDb_wellFormed : wellFormedDb emptyDb.
Proof.
  unfold wellFormedDb, emptyDb. cbn.
  split; [lia|]. split; [constructor|]. split; [constructor|]. intros b [].
Qed.

(** X3. From the empty table, whatever requests are handled one at a time,
    the table stays well formed: row ids distinct, positive and at most the
    sequence; public identifiers distinct; every reservation 15 to 480
    minutes long. *)
Theorem reachable_tables_well_formed `{Platform} (requests : list Request) :
  wellFormedDb (serve emptyDb requests)
  /\ forall db, wellFormedDb db -> wellFormedDb (serve db requests).
Proof.
  assert (Hstep : forall db, wellFormedDb db -> wellFormedDb (serve db requests)).
  { unfold serve. induction requests as [|r requests IH]; intros db Hwf; cbn [fold_left].
    - exact Hwf.
    - apply IH, handle_wellFormed, Hwf. }
  split; [apply Hstep, emptyDb_wellFormed | exact Hstep].
Qed.

Lemma setStatus_cancelled_id (b : Db.Booking) :
  Db.status b = Db.cancelled -> Db.setStatus Db.cancelled b = b.
Proof. destruct b; cbn. intros ->. reflexivity. Qed.

Lemma laterVersion_trans (b1 b2 b3 : Db.Booking) :
  laterVersion b1 b2 -> laterVersion b2 b3 -> laterVersion b1 b3.
Proof.
  intros [->|[Hs1 ->]] [->|[Hs2 ->]].
  - left. reflexivity.
  - right. split; [assumption | reflexivity].
  - right. split; [assumption | reflexivity].
  - cbn in Hs2. discriminate.
Qed.

Lemma book_keeps_rows `{Server} (now : Date) (db : Db.Database)
    (c : BookingRoute.BookCall) (i : nat) (b : Db.Booking) :
  nth_error (Db.bookings db) i = Some b ->
  nth_error (Db.bookings (snd (BookingRoute.book now db c))) i = Some b.
Proof.
  intros Hrow. unfold BookingRoute.book.
  destruct (BookingUtils.validateBookingSlot now _ _); [|exact Hrow].
  destruct (Nat.ltb 0 _); [exact Hrow|].
  unfold Db.insertBooking.
  destruct (negb (Db.fitsVarchar 6 _)); [exact Hrow|].
  destruct (negb (Db.fitsVarchar 100 _)); [exact Hrow|].
  destruct (negb (Db.fitsVarchar 255 _)); [exact Hrow|].
  destruct (Db.violates_bookings_check _); [exact Hrow|].
  destruct (Db.violates_booking_id_key _ _); [exact Hrow|].
  destruct (Db.violates_idx_bookings_no_overlap _ _); [exact Hrow|].
  cbn [snd Db.bookings]. rewrite nth_error_app1; [exact Hrow|].
  apply nth_error_Some. congruence.
Qed.

Lemma cancel_keeps_rows (now : Date) (db : Db.Database) (bookingId cancelCode : string)
    (i : nat) (b : Db.Booking) :
  nth_error (Db.bookings db) i = Some b ->
  exists b', nth_error (Db.bookings (snd (BookingRoute.cancel now db bookingId cancelCode))) i
             = Some b'
             /\ laterVersion b b'.
Proof.
  intros Hrow. unfold BookingRoute.cancel.
  destruct (Db.selectByBookingId db bookingId) as [|booking rest];
    [exists b; split; [exact Hrow | left; reflexivity]|].
  destruct (Db.Status_eqb _ _); [exists b; split; [exact Hrow | left; reflexivity]|].
  destruct (negb (String.eqb _ _)); [exists b; split; [exact Hrow | left; reflexivity]|].
  destruct (negb (TimeUtils.meetsCancellationNotice _ _));
    [exists b; split; [exact Hrow | left; reflexivity]|].
  cbn [snd Db.updateCancelled Db.bookings]. rewrite nth_error_map, Hrow. cbn [option_map].
  eexists. split; [reflexivity|].
  destruct (Db.id b =? Db.id booking); [|left; reflexivity].
  destruct (Db.status b) eqn:Hstatus.
  - right. split; [assumption | reflexivity].
  - left. apply setStatus_cancelled_id. assumption.
Qed.

(** X4. Handling requests never deletes or rewrites a reservation: a row
    of the table is found later at the same position, either as it was or
    with its status moved from confirmed to cancelled and nothing else
    changed; a cancelled row stays as it is for ever, and the table never
    shrinks. *)
Theorem rows_only_ever_cancelled `{Platform} (requests : list Request) (db : Db.Database) :
  (forall (i : nat) (b : Db.Booking),
      nth_error (Db.bookings db) i = Some b ->
      exists b',
        nth_error (Db.bookings (serve db requests)) i = Some b'
        /\ laterVersion b b'
        /\ (Db.status b = Db.cancelled -> b' = b))
  /\ (List.length (Db.bookings db) <= List.length (Db.bookings (serve db requests)))%nat.
Proof.
  assert (Hrows : forall (i : nat) (b : Db.Booking),
             nth_error (Db.bookings db) i = Some b ->
             exists b', nth_error (Db.bookings (serve db requests)) i = Some b'
                        /\ laterVersion b b').
  { revert db. unfold serve.
    induction requests as [|r requests IH]; intros db i b Hrow; cbn [fold_left].
    - exists b. split; [exact Hrow | left; reflexivity].
    - assert (Hstep : exists b1, nth_error (Db.bookings (snd (handle db r))) i = Some b1
                                 /\ laterVersion b b1).
      { destruct r as [now c | now bookingId cancelCode]; cbn [handle].
        - exists b. split; [apply book_keeps_rows; exact Hrow | left; reflexivity].
        - apply cancel_keeps_rows. exact Hrow. }
      destruct Hstep as (b1 & Hrow1 & Hlater1).
      destruct (IH _ i b1 Hrow1) as (b' & Hrow' & Hlater').
      exists b'. split; [exact Hrow' | exact (laterVersion_trans _ _ _ Hlater1 Hlater')]. }
  split.
  - intros i b Hrow. destruct (Hrows i b Hrow) as (b' & Hrow' & Hlater).
    exists b'. split; [exact Hrow'|]. split; [exact Hlater|].
    intros Hcancelled. destruct Hlater as [->|[Hconfirmed _]]; [reflexivity | congruence].
  - destruct (Nat.le_gt_cases (List.length (Db.bookings db))
                (List.length (Db.bookings (serve db requests)))) as [Hle|Hgt];
      [exact Hle|].
    destruct (Db.bookings db) as [|b0 rest] eqn:Hdb; [cbn in *; lia|].
    assert (Hlast : exists b, nth_error (Db.bookings db)
                                (List.length (Db.bookings (serve db requests))) = Some b).
    { destruct (nth_error (Db.bookings db)
                  (List.length (Db.bookings (serve db requests)))) as [b|] eqn:Hnth;
        [exists b; reflexivity|].
      apply nth_error_None in Hnth. rewrite Hdb in Hnth. lia. }
    destruct Hlast as (b & Hb). rewrite Hdb in Hb.
    destruct (Hrows _ b Hb) as (b' & Hb' & _).
    assert (Hnone : nth_error (Db.bookings (serve db requests))
                      (List.length (Db.bookings (serve db requests))) = None)
      by (apply nth_error_None; lia).
    congruence.
Qed.

(** ** Cancelling one reservation *)

Lemma NoDup_map_injective {A B : Type} (f : A -> B) (l : list A) (x y : A) :
  NoDup (map f l) -> In x l -> In y l -> f x = f y -> x = y.
Proof.
  induction l as [|a l IH]; intros Hnd Hx Hy Hxy; [destruct Hx|].
  cbn [map] in Hnd. inversion Hnd as [|? ? Hnotin Hnd']; subst.
  destruct Hx as [->|Hx], Hy as [->|Hy].
  - reflexivity.
  - exfalso. apply Hnotin. rewrite Hxy. apply in_map. assumption.
  - exfalso. apply Hnotin. rewrite <- Hxy. apply in_map. assumption.
  - apply IH; assumption.
Qed.

Lemma cancel_cases (now : Date) (db : Db.Database) (bookingId cancelCode : string) :
  statusCode (fst (BookingRoute.cancel now db bookingId cancelCode)) = 200 ->
  exists booking rest,
    Db.selectByBookingId db bookingId = booking :: rest
    /\ Db.status booking = Db.confirmed
    /\ Db.cancel_code booking = cancelCode
    /\ now + 12 * msPerHour < Db.slot_start booking
    /\ BookingRoute.cancel now db bookingId cancelCode
       = (json 200 (BookingCancelled bookingId now),
          Db.updateCancelled db (Db.id booking)).
Proof.
  unfold BookingRoute.cancel.
  destruct (Db.selectByBookingId db bookingId) as [|booking rest] eqn:Hsel;
    [cbn; discriminate|].
  destruct (selectByBookingId_head _ _ _ _ Hsel) as [_ Hid].
  destruct (Db.status booking) eqn:Hstatus; cbn [Db.Status_eqb]; [|cbn; discriminate].
  destruct (String.eqb_spec (Db.cancel_code booking) cancelCode) as [Hcode|Hcode];
    cbn [negb]; [|cbn; discriminate].
  destruct (TimeUtils.meetsCancellationNotice now (Db.slot_start booking)) eqn:Hnotice;
    cbn [negb]; [|cbn; discriminate].
  intros _. exists booking, rest. rewrite Hid.
  repeat split; try assumption. apply meetsCancellationNotice_iff. assumption.
Qed.

(** X5. A cancellation that is answered 200 on a well-formed table marks
    the reservation with that public identifier as cancelled and touches no
    other row: the table afterwards is the table before with that one row's
    status changed. *)
Theorem cancel_marks_one_row (now : Date) (db : Db.Database) (bookingId cancelCode : string) :
  wellFormedDb db ->
  statusCode (fst (BookingRoute.cancel now db bookingId cancelCode)) = 200 ->
  Db.bookings (snd (BookingRoute.cancel now db bookingId cancelCode))
  = map (fun r => if String.eqb (Db.booking_id r) bookingId
                  then Db.setStatus Db.cancelled r else r)
        (Db.bookings db)
  /\ Db.bookings_id_seq (snd (BookingRoute.cancel now db bookingId cancelCode))
     = Db.bookings_id_seq db
  /\ (forall r, In r (Db.bookings db) -> Db.booking_id r <> bookingId ->
        In r (Db.bookings (snd (BookingRoute.cancel now db bookingId cancelCode))))
  /\ exists booking,
       In booking (Db.bookings db)
       /\ Db.booking_id booking = bookingId
       /\ Db.status booking = Db.confirmed
       /\ In (Db.setStatus Db.cancelled booking)
            (Db.bookings (snd (BookingRoute.cancel now db bookingId cancelCode))).
Proof.
  intros (_ & Hids & Hpublic & _) Hok.
  destruct (cancel_cases _ _ _ _ Hok)
    as (booking & rest & Hsel & Hstatus & _ & _ & Hrun).
  destruct (selectByBookingId_head _ _ _ _ Hsel) as [Hin Hid].
  rewrite Hrun. cbn [snd Db.updateCancelled Db.bookings Db.bookings_id_seq].
  assert (Hmap : map (fun b => if Db.id b =? Db.id booking
                               then Db.setStatus Db.cancelled b else b) (Db.bookings db)
                 = map (fun r => if String.eqb (Db.booking_id r) bookingId
                                 then Db.setStatus Db.cancelled r else r) (Db.bookings db)).
  { apply map_ext_in. intros r Hr.
    destruct (Z.eqb_spec (Db.id r) (Db.id booking)) as [Hsame|Hother];
      destruct (String.eqb_spec (Db.booking_id r) bookingId) as [Hsame'|Hother'];
      try reflexivity.
    - exfalso. apply Hother'.
      rewrite (NoDup_map_injective Db.id _ r booking Hids Hr Hin Hsame). exact Hid.
    - exfalso. apply Hother. f_equal.
      apply (NoDup_map_injective Db.booking_id _ r booking Hpublic Hr Hin). congruence. }
  rewrite Hmap. split; [reflexivity|]. split; [reflexivity|]. split.
  - intros r Hr Hother. apply in_map_iff. exists r. split; [|assumption].
    apply String.eqb_neq in Hother. rewrite Hother. reflexivity.
  - exists booking. repeat split; try assumption.
    apply in_map_iff. exists booking. split; [|assumption].
    apply String.eqb_eq in Hid. rewrite Hid. reflexivity.
Qed.

(** ** Booking, then cancelling *)

Lemma filter_booking_id_absent (rows : list Db.Booking) (bookingId : string) :
  (forall b, In b rows -> Db.booking_id b <> bookingId) ->
  filter (fun b => String.eqb (Db.booking_id b) bookingId) rows = [].
Proof.
  induction rows as [|b rows IH]; intros Habsent; [reflexivity|].
  cbn [filter].
  assert (Hb : String.eqb (Db.booking_id b) bookingId = false)
    by (apply String.eqb_neq, Habsent; left; reflexivity).
  rewrite Hb. apply IH. intros r Hr. apply Habsent. right. assumption.
Qed.

Lemma selectByBookingId_after_book (now : Date) (db : Db.Database)
    (c : BookingRoute.BookCall) :
  freshBookingId db c ->
  Db.selectByBookingId
    {| Db.bookings := (Db.bookings db ++ [newRow now db c])%list;
       Db.bookings_id_seq := Db.bookings_id_seq db + 1 |}
    (BookingRoute.bookingId c)
  = [newRow now db c].
Proof.
  intros Hfresh. unfold Db.selectByBookingId. cbn [Db.bookings].
  rewrite filter_app, (filter_booking_id_absent _ _ Hfresh).
  cbn [filter newRow Db.booking_id app]. rewrite String.eqb_refl. reflexivity.
Qed.

(** What an answer 201 of POST /book says of the table before and after. *)
Lemma book_created `{Server} (now : Date) (db : Db.Database) (c : BookingRoute.BookCall) :
  wellFormedDb db ->
  statusCode (fst (BookingRoute.book now db c)) = 201 ->
  BookingUtils.validateBookingSlot now (BookingRoute.slotStartDate c)
    (BookingRoute.slotEndDate c) = Ok tt
  /\ slotFree db c
  /\ freshBookingId db c
  /\ BookingRoute.book now db c
     = (json 201 (BookingCreated (newRow now db c)),
        {| Db.bookings := (Db.bookings db ++ [newRow now db c])%list;
           Db.bookings_id_seq := Db.bookings_id_seq db + 1 |}).
Proof.
  intros Hwf Hcreated.
  destruct (BookingUtils.validateBookingSlot now (BookingRoute.slotStartDate c)
              (BookingRoute.slotEndDate c)) as [[]|message] eqn:Hvalid.
  - destruct (validateBookingSlot_ok _ _ _ Hvalid) as (_ & _ & Hdur).
    assert (Hreq : BookingRoute.slotStartDate c < BookingRoute.slotEndDate c)
      by (unfold msPerMinute in Hdur; lia).
    pose proof (selectOverlapping_free db c Hreq (wellFormedDb_rows db Hwf)) as Hfree.
    destruct (Nat.ltb 0 (List.length (Db.selectOverlapping db (BookingRoute.call_user c)
                (BookingRoute.slotStartDate c) (BookingRoute.slotEndDate c)))) eqn:Hsel.
    + exfalso. unfold BookingRoute.book in Hcreated. rewrite Hvalid, Hsel in Hcreated.
      cbn in Hcreated. discriminate.
    + destruct (fitsColumns_dec c) as [Hfits|Hlong];
        [|rewrite (book_too_long now db c Hvalid Hsel Hlong) in Hcreated;
          cbn in Hcreated; discriminate].
      rewrite (book_unfold now db c Hvalid Hsel Hfits) in Hcreated |- *.
      pose proof (violates_booking_id_key_iff db c now) as Hkey.
      destruct (Db.violates_booking_id_key (Db.bookings db) (newRow now db c)).
      * cbn in Hcreated. discriminate.
      * split; [reflexivity|]. split; [apply Hfree; reflexivity|].
        split; [apply Hkey; reflexivity | reflexivity].
  - exfalso. unfold BookingRoute.book in Hcreated. rewrite Hvalid in Hcreated.
    cbn [fst] in Hcreated. unfold BookingRoute.bookCatch in Hcreated.
    destruct (_ || _ || _); cbn in Hcreated; discriminate.
Qed.

Lemma updateCancelled_after_book (now : Date) (db : Db.Database)
    (c : BookingRoute.BookCall) :
  wellFormedDb db ->
  Db.updateCancelled
    {| Db.bookings := (Db.bookings db ++ [newRow now db c])%list;
       Db.bookings_id_seq := Db.bookings_id_seq db + 1 |}
    (Db.bookings_id_seq db + 1)
  = {| Db.bookings := (Db.bookings db ++ [Db.setStatus Db.cancelled (newRow now db c)])%list;
       Db.bookings_id_seq := Db.bookings_id_seq db + 1 |}.
Proof.
  intros (_ & _ & _ & Hrows).
  unfold Db.updateCancelled. cbn [Db.bookings Db.bookings_id_seq].
  f_equal. rewrite map_app. cbn [map newRow Db.id]. rewrite Z.eqb_refl.
  f_equal.
  rewrite <- (map_id (Db.bookings db)) at 2. apply map_ext_in. intros r Hr.
  destruct (Hrows r Hr) as [Hid _].
  destruct (Z.eqb_spec (Db.id r) (Db.bookings_id_seq db + 1)); [lia | reflexivity].
Qed.

(** X6. After POST /book has answered 201, POST /cancel with the public
    identifier of the new reservation answers: 401 "Invalid cancel code"
    for any code other than the one issued; 400 "Cancellation must be at
    least 12 hours before the appointment time" with the issued code when
    the start is not strictly after now + 12 h, the table being left as it
    is in both cases; and otherwise 200, after which the reservation is
    stored as cancelled. *)
Theorem book_then_cancel `{Server} (now now' : Date) (db : Db.Database)
    (c : BookingRoute.BookCall) (code : string) :
  wellFormedDb db ->
  statusCode (fst (BookingRoute.book now db c)) = 201 ->
  (code <> BookingRoute.cancelCode c ->
   BookingRoute.cancel now' (snd (BookingRoute.book now db c)) (BookingRoute.bookingId c) code
   = (json 401 (ErrorBody "Invalid cancel code"), snd (BookingRoute.book now db c)))
  /\ (code = BookingRoute.cancelCode c ->
      ~ now' + 12 * msPerHour < BookingRoute.slotStartDate c ->
      BookingRoute.cancel now' (snd (BookingRoute.book now db c))
        (BookingRoute.bookingId c) code
      = (json 400 (ErrorBody
                     "Cancellation must be at least 12 hours before the appointment time"),
         snd (BookingRoute.book now db c)))
  /\ (code = BookingRoute.cancelCode c ->
      now' + 12 * msPerHour < BookingRoute.slotStartDate c ->
      BookingRoute.cancel now' (snd (BookingRoute.book now db c))
        (BookingRoute.bookingId c) code
      = (json 200 (BookingCancelled (BookingRoute.bookingId c) now'),
         {| Db.bookings :=
              (Db.bookings db ++ [Db.setStatus Db.cancelled (newRow now db c)])%list;
            Db.bookings_id_seq := Db.bookings_id_seq db + 1 |})).
Proof.
  intros Hwf Hcreated.
  destruct (book_created now db c Hwf Hcreated) as (_ & _ & Hfresh & Hrun).
  rewrite Hrun. cbn [snd]. unfold BookingRoute.cancel.
  rewrite (selectByBookingId_after_book now db c Hfresh).
  cbn [newRow Db.status Db.Status_eqb Db.cancel_code Db.slot_start Db.booking_id Db.id].
  split; [|split].
  - intros Hcode.
    assert (Hne : String.eqb (BookingRoute.cancelCode c) code = false)
      by (apply String.eqb_neq; congruence).
    rewrite Hne. reflexivity.
  - intros -> Hlate. rewrite String.eqb_refl. cbn [negb].
    assert (Hnotice : TimeUtils.meetsCancellationNotice now' (BookingRoute.slotStartDate c)
                      = false)
      by (apply not_true_is_false; rewrite meetsCancellationNotice_iff; assumption).
    rewrite Hnotice. reflexivity.
  - intros -> Hearly. rewrite String.eqb_refl. cbn [negb].
    apply meetsCancellationNotice_iff in Hearly. rewrite Hearly. cbn [negb].
    f_equal. apply updateCancelled_after_book. assumption.
Qed.

(** X7. A reservation that was booked and then cancelled blocks nothing:
    the table answers every overlap query of POST /book and every
    reservation query of GET /slots as it did before the booking, so an
    interval that was free before is free again. *)
Theorem cancelled_booking_frees_slot `{Platform} (now now' : Date) (db : Db.Database)
    (c : BookingRoute.BookCall) :
  wellFormedDb db ->
  statusCode (fst (BookingRoute.book now db c)) = 201 ->
  statusCode (fst (BookingRoute.cancel now' (snd (BookingRoute.book now db c))
                     (BookingRoute.bookingId c) (BookingRoute.cancelCode c))) = 200 ->
  forall (userId : Z) (slotStart slotEnd : Date),
    Db.selectOverlapping
      (snd (BookingRoute.cancel now' (snd (BookingRoute.book now db c))
              (BookingRoute.bookingId c) (BookingRoute.cancelCode c)))
      userId slotStart slotEnd
    = Db.selectOverlapping db userId slotStart slotEnd
    /\ Db.selectBookedSlots
         (snd (BookingRoute.cancel now' (snd (BookingRoute.book now db c))
                 (BookingRoute.bookingId c) (BookingRoute.cancelCode c)))
         userId slotStart slotEnd
       = Db.selectBookedSlots db userId slotStart slotEnd.
Proof.
  intros Hwf Hcreated Hcancelled userId slotStart slotEnd.
  destruct (book_created now db c Hwf Hcreated) as (_ & _ & Hfresh & Hrun).
  rewrite Hrun in Hcancelled |- *. cbn [snd] in Hcancelled |- *.
  destruct (cancel_cases _ _ _ _ Hcancelled) as (booking & rest & Hsel & _ & _ & _ & Hok).
  rewrite (selectByBookingId_after_book now db c Hfresh) in Hsel.
  injection Hsel as <- <-. rewrite Hok. cbn [snd newRow Db.id].
  rewrite (updateCancelled_after_book now db c Hwf).
  unfold Db.selectOverlapping, Db.selectBookedSlots. cbn [Db.bookings].
  rewrite !filter_app. cbn [filter].
  unfold Db.overlapCondition.
  cbn [Db.setStatus Db.status Db.Status_eqb Db.user_id newRow].
  rewrite !andb_false_r. cbn [andb]. rewrite !app_nil_r. split; reflexivity.
Qed.

(** X8. The lead time is 2 hours and the cancellation notice 12: a
    reservation booked with a start at most 12 hours ahead can never be
    cancelled.  From the instant of the booking on, whatever code is given,
    POST /cancel is not answered 200. *)
Theorem short_notice_booking_never_cancellable `{Platform} (now now' : Date)
    (db : Db.Database) (c : BookingRoute.BookCall) (code : string) :
  wellFormedDb db ->
  statusCode (fst (BookingRoute.book now db c)) = 201 ->
  BookingRoute.slotStartDate c <= now + 12 * msPerHour ->
  now <= now' ->
  now + 2 * msPerHour < BookingRoute.slotStartDate c
  /\ fst (BookingRoute.cancel now' (snd (BookingRoute.book now db c))
            (BookingRoute.bookingId c) code)
     = (if String.eqb (BookingRoute.cancelCode c) code
        then BookingRoute.TooLateToCancel else BookingRoute.InvalidCancelCode)
  /\ snd (BookingRoute.cancel now' (snd (BookingRoute.book now db c))
            (BookingRoute.bookingId c) code)
     = snd (BookingRoute.book now db c).
Proof.
  intros Hwf Hcreated Hsoon Hlater.
  destruct (book_created now db c Hwf Hcreated) as (Hvalid & _ & Hfresh & Hrun).
  destruct (validateBookingSlot_ok _ _ _ Hvalid) as (Hlead & _ & _).
  apply meetsLeadTime_iff in Hlead. split; [exact Hlead|].
  rewrite Hrun. cbn [snd]. unfold BookingRoute.cancel.
  rewrite (selectByBookingId_after_book now db c Hfresh).
  cbn [newRow Db.status Db.Status_eqb Db.cancel_code Db.slot_start].
  destruct (String.eqb (BookingRoute.cancelCode c) code); cbn [negb];
    [|split; reflexivity].
  assert (Hnotice : TimeUtils.meetsCancellationNotice now' (BookingRoute.slotStartDate c)
                    = false)
    by (apply not_true_is_false; rewrite meetsCancellationNotice_iff; lia).
  rewrite Hnotice. split; reflexivity.
Qed.

(** ** Two requests in flight, in general *)

Lemma existsb_false_forall {A : Type} (p : A -> bool) (l : list A) :
  existsb p l = false <-> forall x, In x l -> p x = false.
Proof.
  split.
  - intros Hnone x Hx. apply not_true_is_false. intros Hp.
    assert (existsb p l = true) by (apply existsb_exists; exists x; split; assumption).
    congruence.
  - intros Hall. apply not_true_is_false. intros Hex. apply existsb_exists in Hex.
    destruct Hex as (x & Hx & Hp). rewrite (Hall x Hx) in Hp. discriminate.
Qed.

(** When [INSERT INTO bookings] accepts a row. *)
Lemma insertBooking_accepts (now : Date) (db : Db.Database) (c : BookingRoute.BookCall) :
  BookingRoute.slotStartDate c < BookingRoute.slotEndDate c ->
  fitsColumns c ->
  freshBookingId db c ->
  (forall b, In b (Db.bookings db) ->
     Db.status b = Db.confirmed -> Db.user_id b = BookingRoute.call_user c ->
     Db.slot_start b = BookingRoute.slotStartDate c ->
     Db.slot_end b <> BookingRoute.slotEndDate c) ->
  Db.insertBooking now db (BookingRoute.call_user c) (BookingRoute.bookingId c)
    (BookingRoute.cancelCode c) (BookingRoute.call_name c) (BookingRoute.call_email c)
    (BookingRoute.slotStartDate c) (BookingRoute.slotEndDate c)
  = (inr (newRow now db c),
     {| Db.bookings := (Db.bookings db ++ [newRow now db c])%list;
        Db.bookings_id_seq := Db.bookings_id_seq db + 1 |}).
Proof.
  intros Hreq Hfits Hfresh Htuple. unfold Db.insertBooking. fold (newRow now db c).
  apply fitsColumns_iff in Hfits. destruct Hfits as (Hcode & Hname & Hemail).
  rewrite Hcode, Hname, Hemail. cbn [negb].
  assert (Hcheck : Db.violates_bookings_check (newRow now db c) = false).
  { unfold Db.violates_bookings_check. cbn [newRow Db.slot_start Db.slot_end].
    apply negb_false_iff, Z.ltb_lt. assumption. }
  assert (Hkey : Db.violates_booking_id_key (Db.bookings db) (newRow now db c) = false)
    by (apply violates_booking_id_key_iff; assumption).
  assert (Hidx : Db.violates_idx_bookings_no_overlap (Db.bookings db) (newRow now db c)
                 = false).
  { unfold Db.violates_idx_bookings_no_overlap.
    cbn [newRow Db.status Db.Status_eqb Db.user_id Db.slot_start Db.slot_end andb].
    apply existsb_false_forall. intros b Hin.
    destruct (Db.status b) eqn:Hstatus; cbn [Db.Status_eqb andb]; [|reflexivity].
    destruct (Z.eqb_spec (Db.user_id b) (BookingRoute.call_user c)); [|reflexivity].
    destruct (Z.eqb_spec (Db.slot_start b) (BookingRoute.slotStartDate c)); [|reflexivity].
    cbn [andb]. apply Z.eqb_neq. apply Htuple; assumption. }
  rewrite Hcheck, Hkey, Hidx. reflexivity.
Qed.

Lemma slotFree_no_same_tuple (db : Db.Database) (c : BookingRoute.BookCall) :
  BookingRoute.slotStartDate c < BookingRoute.slotEndDate c ->
  slotFree db c ->
  forall b, In b (Db.bookings db) ->
    Db.status b = Db.confirmed -> Db.user_id b = BookingRoute.call_user c ->
    Db.slot_start b = BookingRoute.slotStartDate c ->
    Db.slot_end b <> BookingRoute.slotEndDate c.
Proof.
  intros Hreq Hfree b Hin Hstatus Huser Hstart Hend.
  pose proof (Hfree b Hin Huser Hstatus) as Hno.
  rewrite Hstart, Hend in Hno.
  assert (TimeUtils.slotsOverlap
            (BookingRoute.slotStartDate c, BookingRoute.slotEndDate c)
            (BookingRoute.slotStartDate c, BookingRoute.slotEndDate c) = true)
    by (apply slotsOverlap_iff; lia).
  congruence.
Qed.


(** ** More on slot generation *)

Lemma insertByStart_perm (x : TimeSlot) (l : list TimeSlot) :
  Permutation (x :: l) (TimeUtils.insertByStart x l).
Proof.
  induction l as [|y l IH]; cbn [TimeUtils.insertByStart]; [apply Permutation_refl|].
  destruct (start x <=? start y); [apply Permutation_refl|].
  apply perm_trans with (y :: x :: l); [apply perm_swap | apply perm_skip, IH].
Qed.

Lemma sortByStart_perm (l : list TimeSlot) : Permutation l (TimeUtils.sortByStart l).
Proof.
  induction l as [|x l IH]; cbn [TimeUtils.sortByStart fold_right]; [constructor|].
  fold (TimeUtils.sortByStart l).
  apply perm_trans with (x :: TimeUtils.sortByStart l);
    [apply perm_skip, IH | apply insertByStart_perm].
Qed.

Lemma insertByStart_sorted (x : TimeSlot) (l : list TimeSlot) :
  StronglySorted (fun a b => start a <= start b) l ->
  StronglySorted (fun a b => start a <= start b) (TimeUtils.insertByStart x l).
Proof.
  induction l as [|y l IH]; intros Hsorted; cbn [TimeUtils.insertByStart].
  - constructor; constructor.
  - inversion Hsorted as [|? ? Htail Hhead]; subst.
    destruct (Z.leb_spec (start x) (start y)) as [Hle|Hgt].
    + constructor; [assumption|]. constructor; [assumption|].
      eapply Forall_impl; [|exact Hhead]. intros a Ha. cbv beta in Ha. lia.
    + constructor; [apply IH; assumption|].
      apply Forall_forall. intros a Ha. apply insertByStart_In in Ha.
      destruct Ha as [->|Ha]; [lia|].
      rewrite Forall_forall in Hhead. apply Hhead. assumption.
Qed.

Lemma sortByStart_sorted (l : list TimeSlot) :
  StronglySorted (fun a b => start a <= start b) (TimeUtils.sortByStart l).
Proof.
  induction l as [|x l IH]; cbn [TimeUtils.sortByStart fold_right]; [constructor|].
  apply insertByStart_sorted. exact IH.
Qed.

(** X10. Whatever the rules, [generateSlotsForDate] returns its slots in
    ascending order of start, and the final sort neither drops nor adds a
    slot: the result is a rearrangement of what the rule loops pushed. *)
Theorem generated_slots_sorted `{Platform} (fuel : nat) (now date : Date)
    (availabilityRules : list AvailabilityRule) (bookedSlots : list BookedSlot)
    (hostTimezone : string) (slots : list TimeSlot) :
  TimeUtils.generateSlotsForDate fuel now date availabilityRules bookedSlots hostTimezone
  = Some (Ok slots) ->
  StronglySorted (fun a b => start a <= start b) slots
  /\ exists pushed,
       TimeUtils.rulesLoop fuel now date
         (filter (fun rule => day_of_week rule =? getDay date) availabilityRules)
         bookedSlots [] = Some (Ok pushed)
       /\ Permutation pushed slots.
Proof.
  unfold TimeUtils.generateSlotsForDate. intros Hrun.
  destruct (TimeUtils.rulesLoop fuel now date _ bookedSlots [])
    as [[pushed|]|]; try discriminate.
  injection Hrun as <-. split; [apply sortByStart_sorted|].
  exists pushed. split; [reflexivity | apply sortByStart_perm].
Qed.

Lemma slotLoop_starts_after `{Server} (now : Date) (bookedSlots : list BookedSlot)
    (intervalMinutes : Z) (slotEnd : Date) (fuel : nat) (currentSlot : Date)
    (slots : list TimeSlot) :
  0 < intervalMinutes ->
  TimeUtils.slotLoop fuel now bookedSlots intervalMinutes slotEnd currentSlot = Some slots ->
  Forall (fun s => currentSlot <= start s /\ start s < end_ s) slots.
Proof.
  intros Hpos Hrun. apply Forall_forall. intros s Hin.
  destruct (slotLoop_sound _ _ _ _ _ _ _ Hrun s Hin) as (k & Hstart & Hend & _).
  unfold msPerMinute in *. nia.
Qed.

(** X11. The slots that one rule with a positive interval yields never
    overlap one another: each ends no later than every later one starts, so
    [slotsOverlap] is false of any two of them. *)
Theorem rule_slots_disjoint `{Platform} (fuel : nat) (now : Date)
    (bookedSlots : list BookedSlot) (intervalMinutes : Z) (slotStart slotEnd : Date)
    (slots : list TimeSlot) :
  0 < intervalMinutes ->
  TimeUtils.slotLoop fuel now bookedSlots intervalMinutes slotEnd slotStart = Some slots ->
  StronglySorted
    (fun a b => end_ a <= start b
                /\ TimeUtils.slotsOverlap (start a, end_ a) (start b, end_ b) = false
                /\ TimeUtils.slotsOverlap (start b, end_ b) (start a, end_ a) = false)
    slots.
Proof.
  intros Hpos. revert slotStart slots.
  induction fuel as [|fuel IH]; intros slotStart slots Hrun; [discriminate|].
  rewrite slotLoop_unfold in Hrun.
  destruct (Z.ltb_spec slotStart slotEnd); [|injection Hrun as <-; constructor].
  destruct (Z.ltb_spec slotEnd (slotStart + intervalMinutes * msPerMinute));
    [injection Hrun as <-; constructor|].
  destruct (TimeUtils.slotLoop fuel now bookedSlots intervalMinutes slotEnd
              (slotStart + intervalMinutes * msPerMinute)) as [rest|] eqn:Hrest;
    [|discriminate].
  cbn [option_map] in Hrun. injection Hrun as <-.
  constructor; [apply (IH _ _ Hrest)|].
  eapply Forall_impl; [|exact (slotLoop_starts_after _ _ _ _ _ _ _ Hpos Hrest)].
  intros s [Hafter Hlen]. cbn [start end_].
  split; [assumption|].
  split; apply not_true_is_false; rewrite slotsOverlap_iff; lia.
Qed.

Lemma available_slot_facts `{Server} (fuel : nat) (now date : Date)
    (availabilityRules : list AvailabilityRule) (bookedSlots : list BookedSlot)
    (hostTimezone : string) (slots : list TimeSlot) (s : TimeSlot) :
  TimeUtils.generateSlotsForDate fuel now date availabilityRules bookedSlots hostTimezone
  = Some (Ok slots) ->
  In s slots ->
  available s = true ->
  TimeUtils.meetsLeadTime now (start s) = true
  /\ TimeUtils.withinBookingHorizon now (start s) = true
  /\ (forall booking, In booking bookedSlots ->
        TimeUtils.slotsOverlap (start s, end_ s)
          (BookedSlot.slot_start booking, BookedSlot.slot_end booking) = false)
  /\ exists rule, In rule availabilityRules
                  /\ end_ s = start s + interval_minutes rule * msPerMinute.
Proof.
  intros Hrun Hin Havailable.
  destruct (generateSlotsForDate_sound _ _ _ _ _ _ _ Hrun s Hin)
    as (rule & Hrule & _ & ruleStart & ruleEnd & k & _ & _ & _ & Hend & _ & Hflag).
  rewrite Havailable in Hflag. symmetry in Hflag. unfold isAvailable in Hflag.
  rewrite !andb_true_iff, negb_true_iff in Hflag.
  destruct Hflag as [[Hlead Hhorizon] Hfree].
  split; [assumption|]. split; [assumption|]. split.
  - intros booking Hbooking.
    exact (proj1 (existsb_false_forall _ _) Hfree booking Hbooking).
  - exists rule. split; assumption.
Qed.

(** X12. A slot that the generator marks available passes
    [validateBookingSlot] at the same instant, provided the intervals of the
    rules are within the 15 to 480 minutes that the table allows: what is
    listed as bookable is not refused by the policy checks of POST /book. *)
Theorem available_slot_passes_policy `{Platform} (fuel : nat) (now date : Date)
    (availabilityRules : list AvailabilityRule) (bookedSlots : list BookedSlot)
    (hostTimezone : string) (slots : list TimeSlot) (s : TimeSlot) :
  (forall rule, In rule availabilityRules -> 15 <= interval_minutes rule <= 480) ->
  TimeUtils.generateSlotsForDate fuel now date availabilityRules bookedSlots hostTimezone
  = Some (Ok slots) ->
  In s slots ->
  available s = true ->
  BookingUtils.validateBookingSlot now (start s) (end_ s) = Ok tt.
Proof.
  intros Hintervals Hrun Hin Havailable.
  destruct (available_slot_facts _ _ _ _ _ _ _ _ Hrun Hin Havailable)
    as (Hlead & Hhorizon & _ & rule & Hrule & Hend).
  specialize (Hintervals rule Hrule).
  rewrite validateBookingSlot_cases, Hlead, Hhorizon. cbn [negb].
  destruct (Z.ltb_spec (end_ s - start s) (15 * msPerMinute));
    [unfold msPerMinute in *; lia|].
  destruct (Z.ltb_spec (480 * msPerMinute) (end_ s - start s));
    [unfold msPerMinute in *; lia | reflexivity].
Qed.


(** ** Time strings *)

Lemma split_noColon (a : string) : noColon a = true -> split ":" a = [a].
Proof.
  induction a as [|ch a IH]; cbn [noColon split]; [reflexivity|].
  rewrite andb_true_iff, negb_true_iff. intros [Hch Ha].
  rewrite Hch, (IH Ha). reflexivity.
Qed.

Lemma split_colon (a b : string) :
  noColon a = true -> split ":" (a ++ ":" ++ b)%string = a :: split ":" b.
Proof.
  induction a as [|ch a IH]; cbn [noColon]; intros Ha.
  - reflexivity.
  - rewrite andb_true_iff, negb_true_iff in Ha. destruct Ha as [Hch Ha].
    cbn [String.append split]. rewrite Hch.
    change (a ++ String ":" b)%string with (a ++ ":" ++ b)%string.
    rewrite (IH Ha). reflexivity.
Qed.

(** X14. How [timeStringToUTC] reads a time string.  Without a colon, or
    with three colons, it throws "Invalid time format"; with one or two it
    never throws.  The part after a second colon is ignored, so HH:MM:SS
    resolves as HH:MM does; and when the hour or the minute does not start
    with a number the result is an Invalid Date, not an error. *)
Theorem time_string_parts `{Platform} (hh mm ss extra : string) (date : Date)
    (timezone : string) :
  noColon hh = true -> noColon mm = true -> noColon ss = true -> noColon extra = true ->
  TimeUtils.timeStringToUTC hh date timezone
  = Throw ("Invalid time format: " ++ hh ++ ". Expected HH:MM or HH:MM:SS")%string
  /\ TimeUtils.timeStringToUTC (hh ++ ":" ++ mm ++ ":" ++ ss ++ ":" ++ extra)%string
       date timezone
     = Throw ("Invalid time format: " ++ (hh ++ ":" ++ mm ++ ":" ++ ss ++ ":" ++ extra)
              ++ ". Expected HH:MM or HH:MM:SS")%string
  /\ TimeUtils.timeStringToUTC (hh ++ ":" ++ mm)%string date timezone
     = match parseInt hh, parseInt mm with
       | Some hours, Some minutes =>
           Ok (Some (zonedTimeToUtc (setHours date hours minutes) timezone))
       | _, _ => Ok None
       end
  /\ TimeUtils.timeStringToUTC (hh ++ ":" ++ mm ++ ":" ++ ss)%string date timezone
     = TimeUtils.timeStringToUTC (hh ++ ":" ++ mm)%string date timezone.
Proof.
  intros Hhh Hmm Hss Hextra. unfold TimeUtils.timeStringToUTC. cbv zeta.
  rewrite (split_noColon hh Hhh).
  rewrite (split_colon hh (mm ++ ":" ++ ss ++ ":" ++ extra)%string Hhh),
    (split_colon mm (ss ++ ":" ++ extra)%string Hmm), (split_colon ss extra Hss),
    (split_noColon extra Hextra).
  rewrite (split_colon hh mm Hhh), (split_noColon mm Hmm).
  rewrite (split_colon hh (mm ++ ":" ++ ss)%string Hhh), (split_colon mm ss Hmm),
    (split_noColon ss Hss).
  cbn [List.length Nat.ltb Nat.leb orb nth].
  repeat split; reflexivity.
Qed.

Lemma twoDigits_parse (k : nat) :
  (k < 100)%nat ->
  parseInt (twoDigits (Z.of_nat k)) = Some (Z.of_nat k)
  /\ noColon (twoDigits (Z.of_nat k)) = true.
Proof.
  intros Hk. do 100 (destruct k as [|k]; [split; reflexivity|]). lia.
Qed.

Lemma timeStringToUTC_hhmm `{Server} (h m : Z) (date : Date) (timezone : string) :
  0 <= h < 100 -> 0 <= m < 100 ->
  TimeUtils.timeStringToUTC (hhmm h m) date timezone
  = Ok (Some (zonedTimeToUtc (setHours date h m) timezone)).
Proof.
  intros Hh Hm.
  destruct (twoDigits_parse (Z.to_nat h) ltac:(lia)) as [Hph Hch].
  destruct (twoDigits_parse (Z.to_nat m) ltac:(lia)) as [Hpm Hcm].
  rewrite !Z2Nat.id in * by lia.
  unfold TimeUtils.timeStringToUTC, hhmm. cbv zeta.
  rewrite (split_colon _ _ Hch), (split_noColon _ Hcm).
  cbn [List.length Nat.ltb Nat.leb orb nth]. rewrite Hph, Hpm. reflexivity.
Qed.


(** ** Date ranges between any two instants *)


(** ** The handler of GET /slots *)

Lemma rulesLoop_terminates `{Server} (now date : Date) (bookedSlots : list BookedSlot) :
  forall rulesForDay : list AvailabilityRule,
    (forall rule, In rule rulesForDay -> 0 < interval_minutes rule) ->
    exists n : nat,
      forall acc : list TimeSlot,
      exists r : Result (list TimeSlot),
        forall fuel : nat, (n <= fuel)%nat ->
          TimeUtils.rulesLoop fuel now date rulesForDay bookedSlots acc = Some r.
Proof.
  induction rulesForDay as [|rule rest IH]; intros Hpos.
  - exists 0%nat. intros acc. exists (Ok acc). reflexivity.
  - destruct IH as (nrest & Hrest); [intros r Hr; apply Hpos; right; assumption|].
    cbn [TimeUtils.rulesLoop].
    destruct (TimeUtils.timeStringToUTC (start_time rule) date (timezone rule))
      as [resolvedStart|message];
      [|exists 0%nat; intros acc; exists (Throw message); reflexivity].
    destruct (TimeUtils.timeStringToUTC (end_time rule) date (timezone rule))
      as [resolvedEnd|message];
      [|exists 0%nat; intros acc; exists (Throw message); reflexivity].
    destruct resolvedStart as [slotStart|];
      [|exists nrest; intros acc; destruct (Hrest acc) as (r & Hr); exists r; exact Hr].
    destruct resolvedEnd as [slotEnd|];
      [|exists nrest; intros acc; destruct (Hrest acc) as (r & Hr); exists r; exact Hr].
    exists (Nat.max (S (slotCount slotStart slotEnd (interval_minutes rule * msPerMinute)))
                    nrest).
    intros acc.
    destruct (Hrest (acc ++ slotsFrom now bookedSlots (interval_minutes rule * msPerMinute)
                       (slotCount slotStart slotEnd (interval_minutes rule * msPerMinute))
                       slotStart)%list) as (r & Hr).
    exists r. intros fuel Hfuel.
    rewrite (slotLoop_closed now bookedSlots (interval_minutes rule) slotEnd
               (Hpos rule (or_introl eq_refl)) _ fuel slotStart eq_refl) by lia.
    apply Hr. lia.
Qed.

Lemma generateSlotsForDate_terminates `{Server} (now date : Date)
    (availabilityRules : list AvailabilityRule) (bookedSlots : list BookedSlot)
    (hostTimezone : string) :
  (forall rule, In rule availabilityRules -> 0 < interval_minutes rule) ->
  exists (n : nat) (r : Result (list TimeSlot)),
    forall fuel : nat, (n <= fuel)%nat ->
      TimeUtils.generateSlotsForDate fuel now date availabilityRules bookedSlots
        hostTimezone = Some r.
Proof.
  intros Hpos. unfold TimeUtils.generateSlotsForDate. cbv zeta.
  destruct (rulesLoop_terminates now date bookedSlots
              (filter (fun rule => day_of_week rule =? getDay date) availabilityRules))
    as (n & Hn).
  { intros rule Hrule. apply filter_In in Hrule. apply Hpos. apply Hrule. }
  destruct (Hn []) as (r & Hr). exists n.
  destruct r as [slots|message].
  - exists (Ok (TimeUtils.sortByStart slots)). intros fuel Hfuel.
    rewrite (Hr fuel Hfuel). reflexivity.
  - exists (Throw message). intros fuel Hfuel. rewrite (Hr fuel Hfuel). reflexivity.
Qed.

Lemma datesLoop_terminates `{Server}
    (formatInTimeZone : Date -> string -> string -> string) (now : Date)
    (availabilityRows : list AvailabilityRule) (bookedSlots : list BookedSlot)
    (hostTimezone : string) :
  (forall rule, In rule availabilityRows -> 0 < interval_minutes rule) ->
  forall dates : list Date,
  exists n : nat,
    forall acc : list GetSlots.SlotView,
    exists r : Result (list GetSlots.SlotView),
      forall fuel : nat, (n <= fuel)%nat ->
        GetSlots.datesLoop formatInTimeZone fuel now dates availabilityRows bookedSlots
          hostTimezone acc = Some r.
Proof.
  intros Hpos. induction dates as [|date rest IH].
  - exists 0%nat. intros acc. exists (Ok acc). reflexivity.
  - destruct IH as (nrest & Hrest).
    destruct (generateSlotsForDate_terminates now date availabilityRows bookedSlots
                hostTimezone Hpos) as (n & r & Hr).
    exists (Nat.max n nrest). intros acc. cbn [GetSlots.datesLoop].
    destruct r as [slotsForDate|message].
    + destruct (Hrest (acc ++ map (GetSlots.toView formatInTimeZone hostTimezone)
                                (filter (fun slot => available slot) slotsForDate))%list)
        as (r' & Hr').
      exists r'. intros fuel Hfuel. rewrite (Hr fuel) by lia. apply Hr'. lia.
    + exists (Throw message). intros fuel Hfuel. rewrite (Hr fuel) by lia. reflexivity.
Qed.

(** X17. GET /slots always answers when every rule of the owner has a
    positive interval: there is a number of loop iterations from which on the
    handler returns, and always the same response. *)
Theorem get_slots_answers `{Platform}
    (formatInTimeZone : Date -> string -> string -> string) (now : Date)
    (availabilityRows : list AvailabilityRule) (db : Db.Database) (userId : Z)
    (fromDay toDay : Z) :
  (forall rule, In rule availabilityRows -> 0 < interval_minutes rule) ->
  exists (n : nat) (response : GetSlots.SlotsResponse),
    forall fuel : nat, (n <= fuel)%nat ->
      GetSlots.getSlots formatInTimeZone fuel now availabilityRows db userId fromDay toDay
      = Some response.
Proof.
  intros Hpos. unfold GetSlots.getSlots.
  destruct (TimeUtils.validateDateRange fromDay toDay) as [dateRange|message];
    [|exists 0%nat; eexists; reflexivity].
  destruct availabilityRows as [|firstRow rows]; [exists 0%nat; eexists; reflexivity|].
  cbv zeta.
  destruct (datesLoop_terminates formatInTimeZone now (firstRow :: rows)
              (Db.selectBookedSlots db userId (fst dateRange) (snd dateRange))
              (timezone firstRow) Hpos
              (TimeUtils.generateDateRange (fst dateRange) (snd dateRange)))
    as (n & Hn).
  destruct (Hn []) as (r & Hr). exists n.
  destruct r as [allSlots|message]; eexists; intros fuel Hfuel;
    rewrite (Hr fuel Hfuel); reflexivity.
Qed.


Lemma insertView_In (x v : GetSlots.SlotView) (l : list GetSlots.SlotView) :
  In v (GetSlots.insertView x l) <-> v = x \/ In v l.
Proof.
  induction l as [|y l IH]; cbn [GetSlots.insertView].
  - cbn. intuition congruence.
  - destruct (GetSlots.view_start x <=? GetSlots.view_start y); cbn [In] in *;
      [intuition congruence|].
    rewrite IH. intuition congruence.
Qed.

Lemma sortViews_In (v : GetSlots.SlotView) (l : list GetSlots.SlotView) :
  In v (GetSlots.sortViews l) <-> In v l.
Proof.
  induction l as [|x l IH]; cbn [GetSlots.sortViews fold_right]; [reflexivity|].
  fold (GetSlots.sortViews l). rewrite insertView_In, IH. cbn. intuition congruence.
Qed.

Lemma insertView_length (x : GetSlots.SlotView) (l : list GetSlots.SlotView) :
  List.length (GetSlots.insertView x l) = S (List.length l).
Proof.
  induction l as [|y l IH]; cbn [GetSlots.insertView]; [reflexivity|].
  destruct (GetSlots.view_start x <=? GetSlots.view_start y); cbn [List.length];
    [reflexivity | now rewrite IH].
Qed.

Lemma insertView_sorted (x : GetSlots.SlotView) (l : list GetSlots.SlotView) :
  StronglySorted (fun a b => GetSlots.view_start a <= GetSlots.view_start b) l ->
  StronglySorted (fun a b => GetSlots.view_start a <= GetSlots.view_start b)
    (GetSlots.insertView x l).
Proof.
  induction l as [|y l IH]; intros Hsorted; cbn [GetSlots.insertView].
  - constructor; constructor.
  - inversion Hsorted as [|? ? Htail Hhead]; subst.
    destruct (Z.leb_spec (GetSlots.view_start x) (GetSlots.view_start y)) as [Hle|Hgt].
    + constructor; [assumption|]. constructor; [assumption|].
      eapply Forall_impl; [|exact Hhead]. intros a Ha. cbv beta in Ha. lia.
    + constructor; [apply IH; assumption|].
      apply Forall_forall. intros a Ha. apply insertView_In in Ha.
      destruct Ha as [->|Ha]; [lia|].
      rewrite Forall_forall in Hhead. apply Hhead. assumption.
Qed.

Lemma sortViews_sorted (l : list GetSlots.SlotView) :
  StronglySorted (fun a b => GetSlots.view_start a <= GetSlots.view_start b)
    (GetSlots.sortViews l).
Proof.
  induction l as [|x l IH]; cbn [GetSlots.sortViews fold_right]; [constructor|].
  apply insertView_sorted. exact IH.
Qed.

Lemma datesLoop_sound `{Server}
    (formatInTimeZone : Date -> string -> string -> string) (fuel : nat) (now : Date)
    (availabilityRows : list AvailabilityRule) (bookedSlots : list BookedSlot)
    (hostTimezone : string) :
  forall (dates : list Date) (acc allSlots : list GetSlots.SlotView),
    GetSlots.datesLoop formatInTimeZone fuel now dates availabilityRows bookedSlots
      hostTimezone acc = Some (Ok allSlots) ->
    forall v, In v allSlots ->
      In v acc
      \/ exists date slotsForDate s,
           In date dates
           /\ TimeUtils.generateSlotsForDate fuel now date availabilityRows bookedSlots
                hostTimezone = Some (Ok slotsForDate)
           /\ In s slotsForDate
           /\ available s = true
           /\ v = GetSlots.toView formatInTimeZone hostTimezone s.
Proof.
  induction dates as [|date rest IH]; intros acc allSlots Hrun v Hv;
    cbn [GetSlots.datesLoop] in Hrun.
  - injection Hrun as <-. left. assumption.
  - destruct (TimeUtils.generateSlotsForDate fuel now date availabilityRows bookedSlots
                hostTimezone) as [[slotsForDate|message]|] eqn:Hgen; try discriminate.
    destruct (IH _ _ Hrun v Hv) as [Hacc|(date' & slots' & s & Hd & Hg & Hs & Ha & Heq)].
    + apply in_app_or in Hacc. destruct Hacc as [Hacc|Hnew]; [left; assumption|].
      right. apply in_map_iff in Hnew. destruct Hnew as (s & Heq & Hs).
      apply filter_In in Hs. destruct Hs as [Hs Ha].
      exists date, slotsForDate, s.
      repeat split; [left; reflexivity | assumption | assumption | assumption
                     | symmetry; assumption].
    + right. exists date', slots', s.
      repeat split; [right; assumption | assumption | assumption | assumption | assumption].
Qed.

Lemma roundDiv_minutes (n : Z) : GetSlots.roundDiv (n * msPerMinute) (1000 * 60) = n.
Proof.
  unfold GetSlots.roundDiv, msPerMinute.
  replace (2 * (n * 60000) + 1000 * 60) with (60000 + n * (2 * (1000 * 60))) by lia.
  rewrite Z.div_add by lia. reflexivity.
Qed.


(** X20. Every slot that GET /slots lists was generated, for one of the
    dates of the answered range, from a rule row of the weekday of that
    date; it passed the two tests of the generator at the instant of the
    request, so it starts strictly more than 2 hours after it and strictly
    before [addDays now 14]; it lasts the interval of its rule, which is its
    [duration], and overlaps no confirmed reservation of the owner that lies
    within the range from the first midnight to the end of the last day. *)
Theorem get_slots_lists_available_only `{Server}
    (formatInTimeZone : Date -> string -> string -> string) (fuel : nat) (now : Date)
    (availabilityRows : list AvailabilityRule) (db : Db.Database) (userId : Z)
    (fromDay toDay : Z) (views : list GetSlots.SlotView) (count : Z) (from to : Date)
    (hostTimezone : string) (v : GetSlots.SlotView) :
  GetSlots.getSlots formatInTimeZone fuel now availabilityRows db userId fromDay toDay
  = Some {| GetSlots.slotsStatus := 200;
            GetSlots.slotsBody := GetSlots.Listing views count from to hostTimezone |} ->
  In v views ->
  (exists (date : Date) (rule : AvailabilityRule),
      In date (TimeUtils.generateDateRange from to)
      /\ In rule availabilityRows
      /\ day_of_week rule = getDay date
      /\ GetSlots.view_end v
         = GetSlots.view_start v + interval_minutes rule * msPerMinute
      /\ GetSlots.duration v = interval_minutes rule)
  /\ TimeUtils.meetsLeadTime now (GetSlots.view_start v) = true
  /\ TimeUtils.withinBookingHorizon now (GetSlots.view_start v) = true
  /\ now + 2 * msPerHour < GetSlots.view_start v < addDays now 14
  /\ (forall b, In b (Db.bookings db) ->
        Db.user_id b = userId -> Db.status b = Db.confirmed ->
        from <= Db.slot_start b -> Db.slot_end b <= to ->
        TimeUtils.slotsOverlap (GetSlots.view_start v, GetSlots.view_end v)
          (Db.slot_start b, Db.slot_end b) = false).
Proof.
  unfold GetSlots.getSlots.
  destruct (TimeUtils.validateDateRange fromDay toDay) as [dateRange|message];
    [|unfold GetSlots.slotsCatch; destruct (_ || _); discriminate].
  destruct availabilityRows as [|firstRow rows]; [discriminate|].
  cbv zeta.
  destruct (GetSlots.datesLoop formatInTimeZone fuel now _ _ _ _ [])
    as [[allSlots|message]|] eqn:Hloop;
    [|unfold GetSlots.slotsCatch; destruct (_ || _); discriminate | discriminate].
  intros Hresp Hv. injection Hresp as <- <- <- <- <-.
  apply (proj1 (sortViews_In _ _)) in Hv.
  destruct (datesLoop_sound _ _ _ _ _ _ _ _ _ Hloop v Hv)
    as [[]|(date & slotsForDate & s & Hdate & Hgen & Hs & Havailable & ->)].
  destruct (generateSlotsForDate_sound _ _ _ _ _ _ _ Hgen s Hs)
    as (rule & Hrule & Hweekday & ruleStart & ruleEnd & k & _ & _ & _ & Hend & _ & _).
  destruct (available_slot_facts _ _ _ _ _ _ _ _ Hgen Hs Havailable)
    as (Hlead & Hhorizon & Hfree & _).
  cbn [GetSlots.toView GetSlots.view_start GetSlots.view_end GetSlots.duration].
  split; [|split; [|split; [|split]]]; try assumption.
  - exists date, rule.
    repeat split; try assumption.
    rewrite Hend.
    replace (start s + interval_minutes rule * msPerMinute - start s)
      with (interval_minutes rule * msPerMinute) by lia.
    apply roundDiv_minutes.
  - apply meetsLeadTime_iff in Hlead. apply withinBookingHorizon_addDays in Hhorizon. lia.
  - intros b Hb Huser Hstatus Hlo Hhi.
    apply (Hfree {| BookedSlot.slot_start := Db.slot_start b;
                    BookedSlot.slot_end := Db.slot_end b |}).
    unfold Db.selectBookedSlots. apply in_map_iff. exists b. split; [reflexivity|].
    apply filter_In. split; [assumption|].
    rewrite !andb_true_iff, Z.eqb_eq, !Z.leb_le, Hstatus.
    repeat split; assumption.
Qed.

(** ** Cancellation codes *)

Lemma string_length_append (a b : string) :
  String.length (a ++ b) = (String.length a + String.length b)%nat.
Proof. induction a as [|c a IH]; cbn; [reflexivity | f_equal; exact IH]. Qed.

Lemma string_append_assoc (a b c : string) : ((a ++ b) ++ c = a ++ (b ++ c))%string.
Proof. induction a as [|ch a IH]; cbn; [reflexivity | f_equal; exact IH]. Qed.

Lemma allCodeChars_append (a b : string) :
  allCodeChars (a ++ b) = allCodeChars a && allCodeChars b.
Proof.
  induction a as [|c a IH]; cbn [String.append allCodeChars]; [reflexivity|].
  rewrite IH, andb_assoc. reflexivity.
Qed.

Lemma charAt_chars (k : nat) :
  (k < 36)%nat ->
  exists c, CancelCode.charAt CancelCode.chars (Z.of_nat k) = String c EmptyString
            /\ isCodeChar c = true.
Proof.
  intros Hk. do 36 (destruct k as [|k]; [eexists; split; reflexivity|]). lia.
Qed.

Lemma random_index (r : Q) :
  (0 <= r)%Q -> (r < 1)%Q ->
  0 <= Qfloor (r * inject_Z (Z.of_nat (String.length CancelCode.chars))) < 36.
Proof.
  intros Hlo Hhi.
  change (Z.of_nat (String.length CancelCode.chars)) with 36.
  destruct r as [a b]. unfold Qle in Hlo. unfold Qlt in Hhi. cbn [Qnum Qden] in Hlo, Hhi.
  unfold Qfloor, Qmult, inject_Z. cbn [Qnum Qden]. rewrite Pos.mul_1_r.
  split; [apply Z.div_pos; lia | apply Z.div_lt_upper_bound; lia].
Qed.

Lemma codeLoop_shape (random : nat -> Q) :
  (forall k, (0 <= random k)%Q /\ (random k < 1)%Q) ->
  forall (n draw : nat) (result : string),
    String.length (CancelCode.codeLoop random n draw result)
    = (String.length result + n)%nat
    /\ (allCodeChars result = true ->
        allCodeChars (CancelCode.codeLoop random n draw result) = true).
Proof.
  intros Hrandom. induction n as [|n IH]; intros draw result; cbn [CancelCode.codeLoop].
  - split; [lia | trivial].
  - cbv zeta.
    destruct (Hrandom draw) as [Hlo Hhi].
    pose proof (random_index _ Hlo Hhi) as Hindex.
    destruct (charAt_chars
                (Z.to_nat (Qfloor (random draw
                   * inject_Z (Z.of_nat (String.length CancelCode.chars))))))
      as (c & Hchar & Hcode); [lia|].
    rewrite Z2Nat.id in Hchar by lia. rewrite Hchar.
    destruct (IH (S draw) (result ++ String c EmptyString)%string) as [Hlen Hall].
    split.
    + rewrite Hlen, string_length_append. cbn [String.length]. lia.
    + intros Hresult. apply Hall. rewrite allCodeChars_append, Hresult.
      cbn [allCodeChars]. rewrite Hcode. reflexivity.
Qed.

Lemma indexIn_chars (c : ascii) :
  isCodeChar c = true ->
  0 <= indexIn CancelCode.chars c < 36
  /\ CancelCode.charAt CancelCode.chars (indexIn CancelCode.chars c) = String c EmptyString.
Proof.
  destruct c as [[] [] [] [] [] [] [] []]; intros Hc;
    try discriminate Hc; vm_compute; repeat split; congruence.
Qed.

Lemma randomFor_index (code : string) (k : nat) (c : ascii) :
  String.get k code = Some c ->
  isCodeChar c = true ->
  Qfloor (randomFor code k * inject_Z (Z.of_nat (String.length CancelCode.chars)))
  = indexIn CancelCode.chars c.
Proof.
  intros Hget Hc. unfold randomFor. rewrite Hget.
  change (Z.of_nat (String.length CancelCode.chars)) with 36.
  unfold Qfloor, Qmult, inject_Z. cbn [Qnum Qden].
  change (Z.pos (36 * 1)) with 36. apply Z.div_mul. lia.
Qed.

Lemma codeLoop_randomFor (code : string) :
  allCodeChars code = true ->
  forall (suffix : string) (draw : nat) (result : string),
    (forall j, String.get j suffix = String.get (draw + j) code) ->
    allCodeChars suffix = true ->
    CancelCode.codeLoop (randomFor code) (String.length suffix) draw result
    = (result ++ suffix)%string.
Proof.
  intros _. induction suffix as [|c suffix IH]; intros draw result Hget Hall.
  - cbn. clear. induction result as [|ch result IH]; cbn; [reflexivity | f_equal; exact IH].
  - cbn [allCodeChars] in Hall. apply andb_true_iff in Hall. destruct Hall as [Hc Hall].
    cbn [String.length CancelCode.codeLoop]. cbv zeta.
    assert (Hhere : String.get draw code = Some c)
      by (rewrite <- (Nat.add_0_r draw), <- Hget; reflexivity).
    rewrite (randomFor_index code draw c Hhere Hc).
    destruct (indexIn_chars c Hc) as [_ Hchar]. rewrite Hchar.
    rewrite IH;
      [|intros j; transitivity (String.get (draw + S j) code);
        [exact (Hget (S j)) | f_equal; lia] | assumption].
    rewrite string_append_assoc. reflexivity.
Qed.

(** X21. Whatever [Math.random] returns in [0, 1), [generateCancelCode]
    yields exactly six characters, each a capital letter or a digit, so the
    code fits the [VARCHAR(6)] column and passes the length check of
    [cancelBookingSchema]; and every string of six such characters is
    yielded for some draws, so the codes range over all 36^6. *)
Theorem cancel_code_shape :
  (forall random : nat -> Q,
      (forall k, (0 <= random k)%Q /\ (random k < 1)%Q) ->
      String.length (CancelCode.generateCancelCode random) = 6%nat
      /\ allCodeChars (CancelCode.generateCancelCode random) = true)
  /\ (forall code : string,
        String.length code = 6%nat -> allCodeChars code = true ->
        exists random : nat -> Q,
          (forall k, (0 <= random k)%Q /\ (random k < 1)%Q)
          /\ CancelCode.generateCancelCode random = code).
Proof.
  split.
  - intros random Hrandom. unfold CancelCode.generateCancelCode.
    destruct (codeLoop_shape random Hrandom 6 0 EmptyString) as [Hlen Hall].
    split; [exact Hlen | apply Hall; reflexivity].
  - intros code Hlen Hall. exists (randomFor code). split.
    + intros k. unfold randomFor.
      destruct (String.get k code) as [c|] eqn:Hget; [|split; [apply Qle_refl | reflexivity]].
      assert (Hc : isCodeChar c = true).
      { clear Hlen. revert k Hget. induction code as [|d code IH]; intros k Hget;
          [discriminate|].
        cbn [allCodeChars] in Hall. apply andb_true_iff in Hall.
        destruct k as [|k]; cbn [String.get] in Hget;
          [injection Hget as <-; apply Hall | apply (IH (proj2 Hall) k Hget)]. }
      destruct (indexIn_chars c Hc) as [Hindex _].
      unfold Qle, Qlt. cbn [Qnum Qden]. lia.
    + unfold CancelCode.generateCancelCode. rewrite <- Hlen.
      rewrite (codeLoop_randomFor code Hall code 0 EmptyString); [reflexivity | | assumption].
      intros j. reflexivity.
Qed.

(** ** GET /bookings *)

Lemma insertDesc_perm (x : Db.Booking) (l : list Db.Booking) :
  Permutation (x :: l) (ListBookings.insertDesc x l).
Proof.
  induction l as [|y l IH]; cbn [ListBookings.insertDesc]; [reflexivity|].
  destruct (Db.slot_start y <=? Db.slot_start x); [reflexivity|].
  rewrite perm_swap. apply perm_skip. exact IH.
Qed.

Lemma orderByStartDesc_perm (rows : list Db.Booking) :
  Permutation rows (ListBookings.orderByStartDesc rows).
Proof.
  unfold ListBookings.orderByStartDesc.
  induction rows as [|x rows IH]; cbn [fold_right]; [reflexivity|].
  rewrite <- insertDesc_perm. apply perm_skip. exact IH.
Qed.

Lemma insertDesc_sorted (x : Db.Booking) (l : list Db.Booking) :
  StronglySorted startsNotBefore l ->
  StronglySorted startsNotBefore (ListBookings.insertDesc x l).
Proof.
  induction 1 as [|y l Hsorted IH Hall]; cbn [ListBookings.insertDesc].
  - constructor; constructor.
  - destruct (Db.slot_start y <=? Db.slot_start x) eqn:Hle.
    + apply Z.leb_le in Hle. constructor; [constructor; assumption|].
      constructor; [exact Hle|].
      rewrite Forall_forall in Hall |- *. intros z Hz.
      specialize (Hall z Hz). unfold startsNotBefore in *. lia.
    + apply Z.leb_gt in Hle. constructor; [exact IH|].
      rewrite Forall_forall in Hall |- *. intros z Hz.
      apply (Permutation_in _ (Permutation_sym (insertDesc_perm x l))) in Hz.
      destruct Hz as [<- | Hz]; [unfold startsNotBefore; lia | apply Hall, Hz].
Qed.

Lemma orderByStartDesc_sorted (rows : list Db.Booking) :
  StronglySorted startsNotBefore (ListBookings.orderByStartDesc rows).
Proof.
  unfold ListBookings.orderByStartDesc.
  induction rows as [|x rows IH]; cbn [fold_right]; [constructor|].
  apply insertDesc_sorted, IH.
Qed.

Lemma StronglySorted_map {A B : Type} (f : A -> B) (R : B -> B -> Prop) (l : list A) :
  StronglySorted (fun a a' => R (f a) (f a')) l -> StronglySorted R (map f l).
Proof.
  induction 1 as [|a l Hsorted IH Hall]; cbn [map]; constructor; [exact IH|].
  rewrite Forall_forall in Hall |- *. intros b Hb.
  apply in_map_iff in Hb. destruct Hb as (a' & <- & Ha'). apply Hall, Ha'.
Qed.

(** X22. GET /bookings answers 200 with one entry for each row of the
    caller, cancelled rows included and rows of other users left out;
    [count] is the number of those rows, and the entries come latest slot
    first. *)
Theorem list_bookings_of_caller (db : Db.Database) (userId : Z) :
  exists views : list ListBookings.BookingView,
    ListBookings.listBookings db userId
    = (200, views,
       Z.of_nat (List.length
                   (filter (fun b => Db.user_id b =? userId) (Db.bookings db))))
    /\ Permutation views
         (map ListBookings.toView
              (filter (fun b => Db.user_id b =? userId) (Db.bookings db)))
    /\ StronglySorted
         (fun v w => ListBookings.view_slotStart w <= ListBookings.view_slotStart v)
         views.
Proof.
  exists (map ListBookings.toView (ListBookings.selectByUser db userId)).
  unfold ListBookings.listBookings, ListBookings.selectByUser. cbv zeta.
  set (mine := filter (fun b => Db.user_id b =? userId) (Db.bookings db)).
  pose proof (orderByStartDesc_perm mine) as Hperm.
  split; [|split].
  - rewrite length_map, <- (Permutation_length Hperm). reflexivity.
  - apply Permutation_map, Permutation_sym, Hperm.
  - apply StronglySorted_map. exact (orderByStartDesc_sorted mine).
Qed.

(** ** Concrete runs of the further properties *)

Lemma oneBooking_wellFormed : wellFormedDb oneBooking.
Proof.
  unfold wellFormedDb, oneBooking. cbn [Db.bookings Db.bookings_id_seq map].
  split; [lia|].
  split; [repeat constructor; intros []|].
  split; [repeat constructor; intros []|].
  intros b [<- | []]. vm_compute. repeat split; discriminate.
Qed.



Lemma reachable_tables_well_formed_witness :
  wellFormedDb (@serve utcServer emptyDb
                  [PostBook may30 callA;
                   PostCancel may30 (BookingRoute.bookingId callA) "AB12CD"])
  /\ wellFormedDb (@serve utcServer oneBooking [PostBook may30 callB]).
Proof.
  split.
  - exact (proj1 (@reachable_tables_well_formed utcServer _)).
  - exact (proj2 (@reachable_tables_well_formed utcServer _) oneBooking
             oneBooking_wellFormed).
Defined.

Lemma rows_only_ever_cancelled_witness :
  exists b',
    nth_error (Db.bookings (@serve utcServer oneBooking
                              [PostCancel may30 (Db.booking_id sampleRow) "AB12CD"])) 0
    = Some b'
    /\ laterVersion sampleRow b'.
Proof.
  destruct (@rows_only_ever_cancelled utcServer
              [PostCancel may30 (Db.booking_id sampleRow) "AB12CD"] oneBooking)
    as [Hrows _].
  destruct (Hrows 0%nat sampleRow) as (b' & Hnth & Hlater & _); [reflexivity|].
  exists b'. split; assumption.
Defined.

Lemma cancel_marks_one_row_witness :
  Db.bookings (snd (BookingRoute.cancel may30 oneBooking (Db.booking_id sampleRow) "AB12CD"))
  = [Db.setStatus Db.cancelled sampleRow].
Proof.
  destruct (cancel_marks_one_row may30 oneBooking (Db.booking_id sampleRow) "AB12CD")
    as [Hrows _];
    [exact oneBooking_wellFormed | vm_compute; reflexivity | exact Hrows].
Defined.

Lemma book_then_cancel_witness :
  BookingRoute.cancel may30 (snd (@BookingRoute.book utcServer may30 emptyDb callA))
    (BookingRoute.bookingId callA) "ZZZZZZ"
  = (json 401 (ErrorBody "Invalid cancel code"),
     snd (@BookingRoute.book utcServer may30 emptyDb callA))
  /\ BookingRoute.cancel (at_ june2 13 0)
       (snd (@BookingRoute.book utcServer may30 emptyDb callA))
       (BookingRoute.bookingId callA) "AB12CD"
     = (json 400 (ErrorBody
                    "Cancellation must be at least 12 hours before the appointment time"),
        snd (@BookingRoute.book utcServer may30 emptyDb callA))
  /\ BookingRoute.cancel may30 (snd (@BookingRoute.book utcServer may30 emptyDb callA))
       (BookingRoute.bookingId callA) "AB12CD"
     = (json 200 (BookingCancelled (BookingRoute.bookingId callA) may30),
        {| Db.bookings := [Db.setStatus Db.cancelled (newRow may30 emptyDb callA)];
           Db.bookings_id_seq := 1 |}).
Proof.
  split; [|split].
  - apply (@book_then_cancel utcServer may30 may30 emptyDb callA "ZZZZZZ");
      [exact emptyDb_wellFormed | vm_compute; reflexivity | discriminate].
  - apply (@book_then_cancel utcServer may30 (at_ june2 13 0) emptyDb callA "AB12CD");
      [exact emptyDb_wellFormed | vm_compute; reflexivity | reflexivity |].
    vm_compute. discriminate.
  - apply (@book_then_cancel utcServer may30 may30 emptyDb callA "AB12CD");
      [exact emptyDb_wellFormed | vm_compute; reflexivity | reflexivity |].
    vm_compute. reflexivity.
Defined.

Lemma cancelled_booking_frees_slot_witness :
  Db.selectOverlapping
    (snd (BookingRoute.cancel may30 (snd (@BookingRoute.book utcServer may30 emptyDb callA))
            (BookingRoute.bookingId callA) (BookingRoute.cancelCode callA)))
    7 (at_ june2 14 0) (at_ june2 14 30)
  = Db.selectOverlapping emptyDb 7 (at_ june2 14 0) (at_ june2 14 30).
Proof.
  apply (@cancelled_booking_frees_slot utcServer may30 may30 emptyDb callA);
    [exact emptyDb_wellFormed | vm_compute; reflexivity | vm_compute; reflexivity].
Defined.

Lemma short_notice_booking_never_cancellable_witness :
  fst (BookingRoute.cancel (may30 + msPerHour)
         (snd (@BookingRoute.book utcServer may30 emptyDb
                 (callFor (may30 + 3 * msPerHour) (may30 + 4 * msPerHour) bookingId4)))
         bookingId4 "MN78OP")
  = BookingRoute.TooLateToCancel.
Proof.
  destruct (@short_notice_booking_never_cancellable utcServer may30 (may30 + msPerHour)
              emptyDb (callFor (may30 + 3 * msPerHour) (may30 + 4 * msPerHour) bookingId4)
              "MN78OP")
    as (_ & Hanswer & _);
    [exact emptyDb_wellFormed | vm_compute; reflexivity | vm_compute; discriminate
    | vm_compute; discriminate | exact Hanswer].
Defined.


Lemma generated_slots_sorted_witness :
  exists slots : list TimeSlot,
    @TimeUtils.generateSlotsForDate utcServer 20 may30 mondayDate [mondayRule] [bookedA]
      "America/New_York" = Some (Ok slots)
    /\ StronglySorted (fun a b => start a <= start b) slots.
Proof.
  eexists. split; [vm_compute; reflexivity|].
  apply (@generated_slots_sorted utcServer 20 may30 mondayDate [mondayRule] [bookedA]
           "America/New_York").
  vm_compute. reflexivity.
Defined.

Lemma rule_slots_disjoint_witness :
  exists slots : list TimeSlot,
    @TimeUtils.slotLoop utcServer 20 may30 [bookedA] 30 (at_ june2 21 0) (at_ june2 13 0)
    = Some slots
    /\ StronglySorted
         (fun a b => end_ a <= start b
                     /\ TimeUtils.slotsOverlap (start a, end_ a) (start b, end_ b) = false
                     /\ TimeUtils.slotsOverlap (start b, end_ b) (start a, end_ a) = false)
         slots.
Proof.
  eexists. split; [vm_compute; reflexivity|].
  apply (@rule_slots_disjoint utcServer 20 may30 [bookedA] 30 (at_ june2 13 0)
           (at_ june2 21 0)); [lia|].
  vm_compute. reflexivity.
Defined.

Lemma available_slot_passes_policy_witness :
  @BookingUtils.validateBookingSlot utcServer may30 (start firstSlot) (end_ firstSlot)
  = Ok tt.
Proof.
  eapply (@available_slot_passes_policy utcServer 20 may30 mondayDate [mondayRule]
            [bookedA] "America/New_York" _ firstSlot).
  - intros rule [<- | []]. vm_compute. split; discriminate.
  - vm_compute. reflexivity.
  - left. reflexivity.
  - reflexivity.
Defined.


Lemma time_string_parts_witness :
  @TimeUtils.timeStringToUTC utcServer "09" mondayDate "America/New_York"
  = Throw "Invalid time format: 09. Expected HH:MM or HH:MM:SS"
  /\ @TimeUtils.timeStringToUTC utcServer "09:30:00" mondayDate "America/New_York"
     = @TimeUtils.timeStringToUTC utcServer "09:30" mondayDate "America/New_York".
Proof.
  destruct (@time_string_parts utcServer "09" "30" "00" "00" mondayDate "America/New_York")
    as (Hnone & _ & _ & Hseconds); try reflexivity.
  split; [exact Hnone | exact Hseconds].
Defined.



Lemma get_slots_answers_witness :
  exists (n : nat) (response : GetSlots.SlotsResponse),
    forall fuel : nat, (n <= fuel)%nat ->
      @GetSlots.getSlots utcServer (@clockOnly utcServer) fuel may30 [mondayRule] oneBooking 7
        june2 june2
      = Some response.
Proof.
  apply (@get_slots_answers utcServer).
  intros rule [<- | []]. vm_compute. reflexivity.
Defined.



Lemma get_slots_lists_available_only_witness :
  exists (views : list GetSlots.SlotView) (count : Z) (v : GetSlots.SlotView),
    @GetSlots.getSlots nyServer (@clockOnly nyServer) 20 feb24 [mondayRule] emptyDb 7
      march10 march10
    = Some {| GetSlots.slotsStatus := 200;
              GetSlots.slotsBody :=
                GetSlots.Listing views count (@parseISO_date nyServer march10)
                  (@endOfDay nyServer (@parseISO_date nyServer march10))
                  "America/New_York" |}
    /\ List.length views = 14%nat
    /\ In v views
    /\ feb24 + 2 * msPerHour < GetSlots.view_start v < @addDays nyServer feb24 14.
Proof.
  eexists. eexists. eexists. split; [vm_compute; reflexivity|].
  split; [reflexivity|]. split; [left; reflexivity|].
  eapply (@get_slots_lists_available_only nyServer (@clockOnly nyServer) 20 feb24
            [mondayRule] emptyDb 7 march10 march10);
    [vm_compute; reflexivity | left; reflexivity].
Defined.

Lemma cancel_code_shape_witness :
  String.length (CancelCode.generateCancelCode (fun _ => 0%Q)) = 6%nat
  /\ exists random : nat -> Q,
       (forall k, (0 <= random k)%Q /\ (random k < 1)%Q)
       /\ CancelCode.generateCancelCode random = "AB12CD"%string.
Proof.
  destruct cancel_code_shape as [Hshape Hall]. split.
  - apply Hshape. intros k. split; [apply Qle_refl | reflexivity].
  - apply Hall; reflexivity.
Defined.
